(** * Am-I-Online: the connectivity service, its probes and its statistics

    A shallow embedding of [ConnectivityService] (TypeScript, Angular
    signals) and the properties of its probing and bookkeeping logic.

    The repository carries three revisions of the service class:
    - [src/app/services/connectivity.service.ts]: one endpoint list, no
      re-entrancy guard (module [Plain]);
    - [unnamed/part_003]: primary and fallback lists, no guard (module
      [Fallback]);
    - [unnamed/part_002]: primary and fallback lists behind an [isChecking]
      guard (module [Guarded]).
    The helpers ([checkEndpoint], [updateResponseTimeTracking],
    [addToHistory]) and the computed statistics are the same text in all
    three and are embedded once. *)

From Stdlib Require Import ZArith QArith Qround Qpower String List Bool Lia.
From Stdlib Require Import SpecFloat.
From Stdlib Require DecimalString.
Import ListNotations.
Local Open Scope Z_scope.

(** ** JavaScript numbers

    A JS [number] is an IEEE 754 binary64 value.  Counters, status codes and
    rounded response times are integers far below 2^53, which binary64
    holds exactly: they are kept as [Z].  The divisions of the statistics
    and the difference of two clock readings are carried out in binary64
    ([spec_float] with 53 bits of precision, rounding to nearest even),
    because their rounding shows in the results. *)
Module JS.

Definition prec : Z := 53.
Definition emax : Z := 1024.

Definition number := spec_float.

(** The binary64 nearest to an integer (exact below 2^53). *)
Definition of_Z (n : Z) : number := binary_normalize prec emax n 0 false.

Definition div (x y : number) : number := SFdiv prec emax x y.
Definition mul (x y : number) : number := SFmul prec emax x y.

(** The rational a finite binary64 denotes; [None] for NaN and the
    infinities. *)
Definition value (x : number) : option Q :=
  match x with
  | S754_zero _ => Some 0%Q
  | S754_finite s m e =>
      let q := Qmult (inject_Z (Zpos m)) (Qpower (2 # 1) e) in
      Some (if s then Qopp q else q)
  | S754_infinity _ | S754_nan => None
  end.

(** [Math.round] on an exact value: the integer closest to [x], ties
    going towards +infinity. *)
Definition round_exact (x : Q) : Z := Qfloor (Qplus x (1 # 2)).

(** [Math.round] on a binary64; NaN and the infinities are not integers
    and give [None]. *)
Definition Math_round (x : number) : option Z :=
  option_map round_exact (value x).

(** [Math.round(x)] of a finite [x], kept as the integer it is.  A clock
    below 2^1024 ms reads a finite number and the difference of two such
    readings is finite; NaN and the infinities, which [Z] does not hold,
    are given 0. *)
Definition Math_round_Z (x : number) : Z :=
  match Math_round x with
  | Some n => n
  | None => 0
  end.

(** The [DOMHighResTimeStamp] that [performance.now()] returns when the
    clock stands at [q] milliseconds: the binary64 nearest to [q]. *)
Definition reading (q : Q) : number :=
  match Qnum q with
  | 0 => S754_zero false
  | Zpos n =>
      SFdiv prec emax (S754_finite false n 0) (S754_finite false (Qden q) 0)
  | Zneg n =>
      SFdiv prec emax (S754_finite true n 0) (S754_finite false (Qden q) 0)
  end.

(** [setTimeout(handler, delay)] takes its delay as a 32-bit signed
    integer (the conversion wraps modulo 2^32) and a negative delay as
    0: a delay of 2^31 or more does not wait that long. *)
Definition ToInt32 (n : Z) : Z :=
  (n + 2147483648) mod 4294967296 - 2147483648.

Definition timer_delay (delay : Z) : Z := Z.max 0 (ToInt32 delay).

(** ToBoolean of a [number | null]: [null], [0] (and NaN) are falsy. *)
Definition truthy (v : option Z) : bool :=
  match v with
  | None => false
  | Some n => negb (n =? 0)
  end.

(** [v || 0] for a [number | null]. *)
Definition or_zero (v : option Z) : Z :=
  if truthy v then match v with Some n => n | None => 0 end else 0.

(** [Array.prototype.slice(start)]: a negative [start] counts from the
    end, and either way the bound is clamped to the array. *)
Definition slice {A : Type} (start : Z) (l : list A) : list A :=
  let len := Z.of_nat (length l) in
  let k := if start <? 0 then Z.max (len + start) 0 else Z.min start len in
  skipn (Z.to_nat k) l.

(** [Array.prototype.includes] on a list of numbers. *)
Definition includes (l : list Z) (x : Z) : bool := existsb (Z.eqb x) l.

End JS.

(** ** More of JavaScript's arithmetic *)

Module JSMath.

Definition sub (x y : JS.number) : JS.number := SFsub JS.prec JS.emax x y.

Definition is_nan (x : JS.number) : bool :=
  match x with S754_nan => true | _ => false end.

Definition is_negative_zero (x : JS.number) : bool :=
  match x with S754_zero true => true | _ => false end.

(** [Math.max] of two numbers: NaN if either is, and +0 above -0. *)
Definition max (x y : JS.number) : JS.number :=
  match SFcompare x y with
  | None => S754_nan
  | Some Lt => y
  | Some Gt => x
  | Some Eq => if is_negative_zero x then y else x
  end.

(** [Math.min] of two numbers: NaN if either is, and -0 below +0. *)
Definition min (x y : JS.number) : JS.number :=
  match SFcompare x y with
  | None => S754_nan
  | Some Lt => x
  | Some Gt => y
  | Some Eq => if is_negative_zero x then x else y
  end.

(** [x <= y] and [x < y] on numbers ([false] when either is NaN). *)
Definition leb (x y : JS.number) : bool := SFleb x y.


End JSMath.

(** ** Data model *)

Definition Date := Q.

Record ConnectivityEndpoint := {
  name : string;
  url : string;
  expectedStatus : list Z;
  timeout : option Z
}.

Record ConnectivityStatus := {
  st_isOnline : bool;
  st_lastChecked : option Date;
  st_responseTime : option Z;
  st_endpoint : option string;
  st_error : option string
}.

Record ConnectionRecord := {
  rec_timestamp : Date;
  rec_isOnline : bool;
  rec_responseTime : option Z;
  rec_endpoint : option string;
  rec_error : option string
}.

(** The signals of the service, as one record. *)
Record Service := {
  isOnline : bool;
  lastChecked : option Date;
  responseTime : option Z;
  currentEndpoint : option string;
  error : option string;
  isChecking : bool;
  totalChecks : Z;
  successfulChecks : Z;
  connectionHistory : list ConnectionRecord;
  minResponseTime : option Z;
  maxResponseTime : option Z
}.

(** The field initialisers; [navigator.onLine] is read once. *)
Definition initial (navigator_onLine : bool) : Service := {|
  isOnline := navigator_onLine;
  lastChecked := None;
  responseTime := None;
  currentEndpoint := None;
  error := None;
  isChecking := false;
  totalChecks := 0;
  successfulChecks := 0;
  connectionHistory := [];
  minResponseTime := None;
  maxResponseTime := None
|}.

(** [signal.set] on each signal. *)
Definition set_isOnline (v : bool) (s : Service) : Service :=
  {| isOnline := v; lastChecked := lastChecked s;
     responseTime := responseTime s; currentEndpoint := currentEndpoint s;
     error := error s; isChecking := isChecking s;
     totalChecks := totalChecks s; successfulChecks := successfulChecks s;
     connectionHistory := connectionHistory s;
     minResponseTime := minResponseTime s;
     maxResponseTime := maxResponseTime s |}.

Definition set_lastChecked (v : option Date) (s : Service) : Service :=
  {| isOnline := isOnline s; lastChecked := v;
     responseTime := responseTime s; currentEndpoint := currentEndpoint s;
     error := error s; isChecking := isChecking s;
     totalChecks := totalChecks s; successfulChecks := successfulChecks s;
     connectionHistory := connectionHistory s;
     minResponseTime := minResponseTime s;
     maxResponseTime := maxResponseTime s |}.

Definition set_responseTime (v : option Z) (s : Service) : Service :=
  {| isOnline := isOnline s; lastChecked := lastChecked s;
     responseTime := v; currentEndpoint := currentEndpoint s;
     error := error s; isChecking := isChecking s;
     totalChecks := totalChecks s; successfulChecks := successfulChecks s;
     connectionHistory := connectionHistory s;
     minResponseTime := minResponseTime s;
     maxResponseTime := maxResponseTime s |}.

Definition set_currentEndpoint (v : option string) (s : Service) : Service :=
  {| isOnline := isOnline s; lastChecked := lastChecked s;
     responseTime := responseTime s; currentEndpoint := v;
     error := error s; isChecking := isChecking s;
     totalChecks := totalChecks s; successfulChecks := successfulChecks s;
     connectionHistory := connectionHistory s;
     minResponseTime := minResponseTime s;
     maxResponseTime := maxResponseTime s |}.

Definition set_error (v : option string) (s : Service) : Service :=
  {| isOnline := isOnline s; lastChecked := lastChecked s;
     responseTime := responseTime s; currentEndpoint := currentEndpoint s;
     error := v; isChecking := isChecking s;
     totalChecks := totalChecks s; successfulChecks := successfulChecks s;
     connectionHistory := connectionHistory s;
     minResponseTime := minResponseTime s;
     maxResponseTime := maxResponseTime s |}.

Definition set_isChecking (v : bool) (s : Service) : Service :=
  {| isOnline := isOnline s; lastChecked := lastChecked s;
     responseTime := responseTime s; currentEndpoint := currentEndpoint s;
     error := error s; isChecking := v;
     totalChecks := totalChecks s; successfulChecks := successfulChecks s;
     connectionHistory := connectionHistory s;
     minResponseTime := minResponseTime s;
     maxResponseTime := maxResponseTime s |}.

Definition set_totalChecks (v : Z) (s : Service) : Service :=
  {| isOnline := isOnline s; lastChecked := lastChecked s;
     responseTime := responseTime s; currentEndpoint := currentEndpoint s;
     error := error s; isChecking := isChecking s;
     totalChecks := v; successfulChecks := successfulChecks s;
     connectionHistory := connectionHistory s;
     minResponseTime := minResponseTime s;
     maxResponseTime := maxResponseTime s |}.

Definition set_successfulChecks (v : Z) (s : Service) : Service :=
  {| isOnline := isOnline s; lastChecked := lastChecked s;
     responseTime := responseTime s; currentEndpoint := currentEndpoint s;
     error := error s; isChecking := isChecking s;
     totalChecks := totalChecks s; successfulChecks := v;
     connectionHistory := connectionHistory s;
     minResponseTime := minResponseTime s;
     maxResponseTime := maxResponseTime s |}.

Definition set_connectionHistory (v : list ConnectionRecord) (s : Service)
  : Service :=
  {| isOnline := isOnline s; lastChecked := lastChecked s;
     responseTime := responseTime s; currentEndpoint := currentEndpoint s;
     error := error s; isChecking := isChecking s;
     totalChecks := totalChecks s; successfulChecks := successfulChecks s;
     connectionHistory := v;
     minResponseTime := minResponseTime s;
     maxResponseTime := maxResponseTime s |}.

Definition set_minResponseTime (v : option Z) (s : Service) : Service :=
  {| isOnline := isOnline s; lastChecked := lastChecked s;
     responseTime := responseTime s; currentEndpoint := currentEndpoint s;
     error := error s; isChecking := isChecking s;
     totalChecks := totalChecks s; successfulChecks := successfulChecks s;
     connectionHistory := connectionHistory s;
     minResponseTime := v;
     maxResponseTime := maxResponseTime s |}.

Definition set_maxResponseTime (v : option Z) (s : Service) : Service :=
  {| isOnline := isOnline s; lastChecked := lastChecked s;
     responseTime := responseTime s; currentEndpoint := currentEndpoint s;
     error := error s; isChecking := isChecking s;
     totalChecks := totalChecks s; successfulChecks := successfulChecks s;
     connectionHistory := connectionHistory s;
     minResponseTime := minResponseTime s;
     maxResponseTime := v |}.

(** ** The browser around the service *)

Record Location := {
  protocol : string;
  hostname : string
}.

(** What synchronous code can read of the host at one instant: the clock
    (in milliseconds; [performance.now()] gives its binary64 reading,
    [new Date()] the instant) and [window.location]. *)
Record Host := {
  now : Q;
  location : Location
}.

Inductive ResponseType := basic | cors | opaque | opaqueredirect.

Record Response := {
  resp_type : ResponseType;
  resp_status : Z
}.

Inductive Failure := NetworkFailure | Aborted.

(** How the promise of a [fetch] settles. *)
Inductive Settled :=
| Fulfilled (response : Response)
| Rejected (reason : Failure).

(** A [fetch(url, {method: 'GET', mode: 'no-cors', signal})] beside a
    [setTimeout(() => controller.abort(), abortAfter)]. *)
Record Request := {
  req_url : string;
  req_abortAfter : Z
}.

(** ** Asynchronous code

    An [async] method is a tree of synchronous operations on the signals
    and the host, cut at every [await] of a [fetch]: everything between two
    such nodes runs without interruption, and other events of the page may
    run while the method waits at one.  Awaiting the promise of
    [tryEndpoints], an [async] method of the class itself, is no such cut:
    the caller resumes in a microtask of the very task that made
    [tryEndpoints] return, before the page handles any other event. *)
Inductive Op : Type -> Type :=
| Signals : Op Service
| Write (f : Service -> Service) : Op unit
| Performance_now : Op JS.number
| New_Date : Op Date
| Window_location : Op Location.

Inductive Async (A : Type) : Type :=
| Ret (a : A)
| Do {X : Type} (op : Op X) (k : X -> Async A)
| Await (rq : Request) (k : Settled -> Async A).

Arguments Ret {A} a.
Arguments Do {A X} op k.
Arguments Await {A} rq k.

Fixpoint bind {A B : Type} (p : Async A) (f : A -> Async B) : Async B :=
  match p with
  | Ret a => f a
  | Do op k => Do op (fun x => bind (k x) f)
  | Await rq k => Await rq (fun r => bind (k r) f)
  end.

Definition perform {X : Type} (op : Op X) : Async X := Do op Ret.

Declare Scope async_scope.
Delimit Scope async_scope with async.
Notation "x <- p ;; q" := (bind p (fun x => q))
  (at level 61, p at next level, right associativity) : async_scope.
Notation "p ;; q" := (bind p (fun _ => q))
  (at level 61, right associativity) : async_scope.
Local Open Scope async_scope.

(** The effect of one synchronous operation. *)
Definition effect {X : Type} (op : Op X) (h : Host) (s : Service)
  : Service * X :=
  match op in Op X return Service * X with
  | Signals => (s, s)
  | Write f => (f s, tt)
  | Performance_now => (s, JS.reading (now h))
  | New_Date => (s, now h)
  | Window_location => (s, location h)
  end.

(** ** Helpers common to the three revisions *)

Definition All_connectivity_endpoints_failed : string :=
  "All connectivity endpoints failed".

Definition All_endpoints_failed : string := "All endpoints failed".

(** The callback given to [#minResponseTime.update]. *)
Definition min_update (responseTime : Z) (current : option Z) : option Z :=
  match current with
  | None => Some responseTime
  | Some c => if responseTime <? c then Some responseTime else Some c
  end.

(** The callback given to [#maxResponseTime.update]. *)
Definition max_update (responseTime : Z) (current : option Z) : option Z :=
  match current with
  | None => Some responseTime
  | Some c => if responseTime >? c then Some responseTime else Some c
  end.

Definition updateResponseTimeTracking (responseTime : Z) : Async unit :=
  perform (Write (fun s =>
    set_minResponseTime (min_update responseTime (minResponseTime s)) s));;
  perform (Write (fun s =>
    set_maxResponseTime (max_update responseTime (maxResponseTime s)) s)).

(** The callback given to [#connectionHistory.update]. *)
Definition history_update (record : ConnectionRecord)
  (history : list ConnectionRecord) : list ConnectionRecord :=
  let newHistory := history ++ [record] in
  JS.slice (-100) newHistory.

Definition addToHistory (record : ConnectionRecord) : Async unit :=
  perform (Write (fun s =>
    set_connectionHistory (history_update record (connectionHistory s)) s)).

(** [endpoint.timeout || 3000] *)
Definition timeout_or_3000 (endpoint : ConnectivityEndpoint) : Z :=
  if JS.truthy (timeout endpoint)
  then match timeout endpoint with Some t => t | None => 3000 end
  else 3000.

Definition is_opaque (t : ResponseType) : bool :=
  match t with opaque => true | _ => false end.

(** What the [then] callback of [checkEndpoint] does with a response:
    [Some] when it returns it, [None] when it throws. *)
Definition accept (endpoint : ConnectivityEndpoint) (response : Response)
  : option Response :=
  if is_opaque (resp_type response) then Some response
  else if JS.includes (expectedStatus endpoint) (resp_status response)
       then Some response
       else None.

(** The [fetch] of [checkEndpoint] and the timer set beside it. *)
Definition request_of (endpoint : ConnectivityEndpoint) : Request :=
  {| req_url := url endpoint; req_abortAfter := timeout_or_3000 endpoint |}.

(** [checkEndpoint]: [Some response] when the returned promise fulfils,
    [None] when it rejects. *)
Definition checkEndpoint (endpoint : ConnectivityEndpoint)
  : Async (option Response) :=
  r <- Await (request_of endpoint) Ret;;
  match r with
  | Fulfilled response => Ret (accept endpoint response)
  | Rejected _ => Ret None
  end.

(** ** Computed statistics *)

Definition uptimePercentage (s : Service) : option Z :=
  let total := totalChecks s in
  let successful := successfulChecks s in
  if total >? 0
  then JS.Math_round
         (JS.mul (JS.div (JS.of_Z successful) (JS.of_Z total)) (JS.of_Z 100))
  else Some 0.

Definition successRate (s : Service) : option Z :=
  let total := totalChecks s in
  let successful := successfulChecks s in
  if total >? 0
  then JS.Math_round
         (JS.mul (JS.div (JS.of_Z successful) (JS.of_Z total)) (JS.of_Z 100))
  else Some 0.

Definition averageResponseTime (s : Service) : option Z :=
  let onlineRecords :=
    filter (fun r => rec_isOnline r && JS.truthy (rec_responseTime r))
           (connectionHistory s) in
  if (length onlineRecords =? 0)%nat then Some 0
  else
    let total :=
      fold_left (fun sum r => sum + JS.or_zero (rec_responseTime r))
                onlineRecords 0 in
    JS.Math_round
      (JS.div (JS.of_Z total) (JS.of_Z (Z.of_nat (length onlineRecords)))).

(** [getRecentHistory] *)
Definition getRecentHistory (s : Service) : list ConnectionRecord :=
  rev (JS.slice (-10) (connectionHistory s)).

(** ** Running a probe on its own

    The network as one probe sees it: the next [fetch] meets the next
    [Attempt] of the list.  Its answer is on the wire after [latency]
    milliseconds; when the abort timer of the request fires first (or the
    list is used up: nothing ever answers) the promise rejects with an
    abort.  A timer fires no earlier than its delay, [lag] milliseconds
    after it (a negative [lag] counts as none). *)
Inductive Wire := NetworkError | Responds (response : Response).

Record Attempt := {
  latency : Q;
  wire : Wire;
  lag : Q
}.

Record World := {
  service : Service;
  host : Host;
  network : list Attempt;
  requests : list Request
}.

(** When the timer set with [delay] fires against an attempt. *)
Definition fires (delay : Z) (a : Attempt) : Q :=
  Qplus (inject_Z (JS.timer_delay delay))
        (if Qlt_le_dec (lag a) 0 then 0 else lag a).

(** How a request settles against an attempt, and after how long. *)
Definition settle (rq : Request) (a : option Attempt) : Settled * Q :=
  match a with
  | Some a =>
      if Qlt_le_dec (latency a) (fires (req_abortAfter rq) a)
      then (match wire a with
            | NetworkError => Rejected NetworkFailure
            | Responds response => Fulfilled response
            end, latency a)
      else (Rejected Aborted, fires (req_abortAfter rq) a)
  | None => (Rejected Aborted, inject_Z (JS.timer_delay (req_abortAfter rq)))
  end.

Definition later (dt : Q) (h : Host) : Host :=
  {| now := Qplus (now h) dt; location := location h |}.

Fixpoint run {A : Type} (p : Async A) (w : World) : World * A :=
  match p with
  | Ret a => (w, a)
  | Do op k =>
      let (s, x) := effect op (host w) (service w) in
      run (k x) {| service := s; host := host w;
                   network := network w; requests := requests w |}
  | Await rq k =>
      let (r, dt) := settle rq (hd_error (network w)) in
      run (k r) {| service := service w; host := later dt (host w);
                   network := tl (network w);
                   requests := requests w ++ [rq] |}
  end.

(** ** The event loop

    Several invocations can be waiting at a [fetch] at once.  Each event
    of the page runs synchronous code up to the next [await]: a call of
    [checkConnectivity] (a tick of the 30 s timer or [manualCheck]), the
    settling of one pending [fetch], or the browser's [online] and
    [offline] events.  A [Page] is the service between two events: its
    signals, the invocations waiting (each with the request it waits for
    and what it does next) and the statuses returned so far, oldest
    first. *)
Inductive Progress (A : Type) : Type :=
| Finished (a : A)
| Waiting (rq : Request) (k : Settled -> Async A).

Arguments Finished {A} a.
Arguments Waiting {A} rq k.

Fixpoint until_await {A : Type} (p : Async A) (h : Host) (s : Service)
  : Service * Progress A :=
  match p with
  | Ret a => (s, Finished a)
  | Do op k => let (s', x) := effect op h s in until_await (k x) h s'
  | Await rq k => (s, Waiting rq k)
  end.

Definition Task := (Request * (Settled -> Async ConnectivityStatus))%type.

Record Page := {
  signals : Service;
  waiting : list Task;
  resolved : list ConnectivityStatus
}.

Inductive Event :=
| Call (h : Host)
| Settle (i : nat) (r : Settled) (h : Host)
| Online
| Offline.

Definition remove_nth {A : Type} (i : nat) (l : list A) : list A :=
  firstn i l ++ skipn (S i) l.

Definition resume (pg : Page) (rest : list Task)
  (p : Async ConnectivityStatus) (h : Host) : Page :=
  match until_await p h (signals pg) with
  | (s, Finished status) =>
      {| signals := s; waiting := rest; resolved := resolved pg ++ [status] |}
  | (s, Waiting rq k) =>
      {| signals := s; waiting := rest ++ [(rq, k)]; resolved := resolved pg |}
  end.

Definition with_signals (s : Service) (pg : Page) : Page :=
  {| signals := s; waiting := waiting pg; resolved := resolved pg |}.

Section EventLoop.

(** The body of [checkConnectivity] of the revision at hand. *)
Variable checkConnectivity : Async ConnectivityStatus.

Definition step (pg : Page) (e : Event) : Page :=
  match e with
  | Call h => resume pg (waiting pg) checkConnectivity h
  | Settle i r h =>
      match nth_error (waiting pg) i with
      | Some (_, k) => resume pg (remove_nth i (waiting pg)) (k r) h
      | None => pg
      end
  | Online => with_signals (set_isOnline true (signals pg)) pg
  | Offline => with_signals (set_isOnline false (signals pg)) pg
  end.

Definition start (navigator_onLine : bool) : Page :=
  {| signals := initial navigator_onLine; waiting := []; resolved := [] |}.

Definition play (events : list Event) (pg : Page) : Page :=
  fold_left step events pg.

(** The pages the service can be in. *)
Definition reachable (pg : Page) : Prop :=
  exists onLine events, pg = play events (start onLine).

End EventLoop.

(** ** [src/app/services/connectivity.service.ts] *)
Module Plain.

Definition endpoints : list ConnectivityEndpoint :=
  [ {| name := "Google"; url := "http://google.com/generate_204";
       expectedStatus := [200; 204]; timeout := Some 3000 |};
    {| name := "Cloudflare"; url := "http://cp.cloudflare.com/generate_204";
       expectedStatus := [200; 204]; timeout := Some 3000 |};
    {| name := "Microsoft";
       url := "http://edge-http.microsoft.com/captiveportal/generate_204";
       expectedStatus := [200; 204]; timeout := Some 3000 |};
    {| name := "Ubuntu"; url := "http://connectivity-check.ubuntu.com";
       expectedStatus := [200]; timeout := Some 3000 |} ].

Section WithEndpoints.

(** [#endpoints]; the properties below hold for any list. *)
Variable endpoints : list ConnectivityEndpoint.

(** The [try] block after [checkEndpoint] has fulfilled. *)
Definition online (endpoint : ConnectivityEndpoint) (startTime : JS.number)
  : Async ConnectivityStatus :=
  endTime <- perform Performance_now;;
  let responseTime := JS.Math_round_Z (JSMath.sub endTime startTime) in
  updateResponseTimeTracking responseTime;;
  perform (Write (set_isOnline true));;
  d <- perform New_Date;;
  perform (Write (set_lastChecked (Some d)));;
  perform (Write (set_responseTime (Some responseTime)));;
  perform (Write (fun s =>
    set_successfulChecks (successfulChecks s + 1) s));;
  perform (Write (set_isChecking false));;
  d <- perform New_Date;;
  addToHistory {| rec_timestamp := d; rec_isOnline := true;
                  rec_responseTime := Some responseTime;
                  rec_endpoint := Some (name endpoint);
                  rec_error := None |};;
  d <- perform New_Date;;
  Ret {| st_isOnline := true; st_lastChecked := Some d;
         st_responseTime := Some responseTime;
         st_endpoint := Some (name endpoint); st_error := None |}.

(** The code after the loop: "If all endpoints failed". *)
Definition offline : Async ConnectivityStatus :=
  perform (Write (set_isOnline false));;
  d <- perform New_Date;;
  perform (Write (set_lastChecked (Some d)));;
  perform (Write (set_responseTime None));;
  perform (Write (set_error (Some All_connectivity_endpoints_failed)));;
  perform (Write (set_isChecking false));;
  d <- perform New_Date;;
  addToHistory {| rec_timestamp := d; rec_isOnline := false;
                  rec_responseTime := None; rec_endpoint := None;
                  rec_error := Some All_connectivity_endpoints_failed |};;
  d <- perform New_Date;;
  Ret {| st_isOnline := false; st_lastChecked := Some d;
         st_responseTime := None; st_endpoint := None;
         st_error := Some All_connectivity_endpoints_failed |}.

(** [for (const endpoint of this.#endpoints) { try ... catch ... }]
    followed by the code after it. *)
Fixpoint for_endpoints (l : list ConnectivityEndpoint) (startTime : JS.number)
  : Async ConnectivityStatus :=
  match l with
  | [] => offline
  | endpoint :: rest =>
      perform (Write (set_currentEndpoint (Some (name endpoint))));;
      response <- checkEndpoint endpoint;;
      match response with
      | Some _ => online endpoint startTime
      | None => for_endpoints rest startTime
      end
  end.

Definition checkConnectivity : Async ConnectivityStatus :=
  perform (Write (set_isChecking true));;
  perform (Write (set_error None));;
  perform (Write (fun s => set_totalChecks (totalChecks s + 1) s));;
  startTime <- perform Performance_now;;
  for_endpoints endpoints startTime.

Definition manualCheck : Async ConnectivityStatus := checkConnectivity.

End WithEndpoints.

End Plain.

(** ** [unnamed/part_003]: HTTPS endpoints with an HTTP fallback *)
Module Fallback.

Definition endpoints : list ConnectivityEndpoint :=
  [ {| name := "Google"; url := "https://google.com/generate_204";
       expectedStatus := [200; 204]; timeout := Some 3000 |};
    {| name := "Cloudflare"; url := "https://cp.cloudflare.com/generate_204";
       expectedStatus := [200; 204]; timeout := Some 3000 |};
    {| name := "Microsoft";
       url := "https://edge-http.microsoft.com/captiveportal/generate_204";
       expectedStatus := [200; 204]; timeout := Some 3000 |};
    {| name := "Ubuntu"; url := "https://connectivity-check.ubuntu.com";
       expectedStatus := [200]; timeout := Some 3000 |};
    {| name := "Apple"; url := "https://captive.apple.com/hotspot-detect.html";
       expectedStatus := [200]; timeout := Some 3000 |};
    {| name := "Mozilla"; url := "https://detectportal.firefox.com/success.txt";
       expectedStatus := [200]; timeout := Some 3000 |} ].

Definition fallbackEndpoints : list ConnectivityEndpoint :=
  [ {| name := "Google (HTTP)"; url := "http://google.com/generate_204";
       expectedStatus := [200; 204]; timeout := Some 3000 |};
    {| name := "Cloudflare (HTTP)";
       url := "http://cp.cloudflare.com/generate_204";
       expectedStatus := [200; 204]; timeout := Some 3000 |};
    {| name := "Microsoft (HTTP)";
       url := "http://edge-http.microsoft.com/captiveportal/generate_204";
       expectedStatus := [200; 204]; timeout := Some 3000 |};
    {| name := "Ubuntu (HTTP)"; url := "http://connectivity-check.ubuntu.com";
       expectedStatus := [200]; timeout := Some 3000 |};
    {| name := "Apple (HTTP)";
       url := "http://captive.apple.com/hotspot-detect.html";
       expectedStatus := [200]; timeout := Some 3000 |};
    {| name := "Mozilla (HTTP)";
       url := "http://detectportal.firefox.com/success.txt";
       expectedStatus := [200]; timeout := Some 3000 |} ].

(** The status [tryEndpoints] returns when its list is used up. *)
Definition exhausted (d : Date) : ConnectivityStatus :=
  {| st_isOnline := false; st_lastChecked := Some d;
     st_responseTime := None; st_endpoint := None;
     st_error := Some All_endpoints_failed |}.

Definition online (endpoint : ConnectivityEndpoint) (startTime : JS.number)
  : Async ConnectivityStatus :=
  endTime <- perform Performance_now;;
  let responseTime := JS.Math_round_Z (JSMath.sub endTime startTime) in
  updateResponseTimeTracking responseTime;;
  perform (Write (set_isOnline true));;
  d <- perform New_Date;;
  perform (Write (set_lastChecked (Some d)));;
  perform (Write (set_responseTime (Some responseTime)));;
  perform (Write (fun s =>
    set_successfulChecks (successfulChecks s + 1) s));;
  perform (Write (set_isChecking false));;
  d <- perform New_Date;;
  addToHistory {| rec_timestamp := d; rec_isOnline := true;
                  rec_responseTime := Some responseTime;
                  rec_endpoint := Some (name endpoint);
                  rec_error := None |};;
  d <- perform New_Date;;
  Ret {| st_isOnline := true; st_lastChecked := Some d;
         st_responseTime := Some responseTime;
         st_endpoint := Some (name endpoint); st_error := None |}.

Fixpoint tryEndpoints (endpoints : list ConnectivityEndpoint)
  (startTime : JS.number) : Async ConnectivityStatus :=
  match endpoints with
  | [] => d <- perform New_Date;; Ret (exhausted d)
  | endpoint :: rest =>
      perform (Write (set_currentEndpoint (Some (name endpoint))));;
      response <- checkEndpoint endpoint;;
      match response with
      | Some _ => online endpoint startTime
      | None => tryEndpoints rest startTime
      end
  end.

Definition shouldTryHttpFallback : Async bool :=
  l <- perform Window_location;;
  Ret (String.eqb (protocol l) "http:"
       || String.eqb (hostname l) "localhost").

Definition offline : Async ConnectivityStatus :=
  perform (Write (set_isOnline false));;
  d <- perform New_Date;;
  perform (Write (set_lastChecked (Some d)));;
  perform (Write (set_responseTime None));;
  perform (Write (set_error (Some All_connectivity_endpoints_failed)));;
  perform (Write (set_isChecking false));;
  d <- perform New_Date;;
  addToHistory {| rec_timestamp := d; rec_isOnline := false;
                  rec_responseTime := None; rec_endpoint := None;
                  rec_error := Some All_connectivity_endpoints_failed |};;
  d <- perform New_Date;;
  Ret {| st_isOnline := false; st_lastChecked := Some d;
         st_responseTime := None; st_endpoint := None;
         st_error := Some All_connectivity_endpoints_failed |}.

Section WithEndpoints.

Variables endpoints fallbackEndpoints : list ConnectivityEndpoint.

Definition checkConnectivity : Async ConnectivityStatus :=
  perform (Write (set_isChecking true));;
  perform (Write (set_error None));;
  perform (Write (fun s => set_totalChecks (totalChecks s + 1) s));;
  startTime <- perform Performance_now;;
  httpsResult <- tryEndpoints endpoints startTime;;
  if st_isOnline httpsResult then Ret httpsResult
  else
    fallback <- shouldTryHttpFallback;;
    if fallback
    then
      httpResult <- tryEndpoints fallbackEndpoints startTime;;
      if st_isOnline httpResult then Ret httpResult else offline
    else offline.

Definition manualCheck : Async ConnectivityStatus := checkConnectivity.

End WithEndpoints.

End Fallback.

(** ** [unnamed/part_002]: the fallback revision behind a guard *)
Module Guarded.

Definition endpoints : list ConnectivityEndpoint := Fallback.endpoints.

Definition fallbackEndpoints : list ConnectivityEndpoint :=
  Fallback.fallbackEndpoints.

Definition online (endpoint : ConnectivityEndpoint) (startTime : JS.number)
  : Async ConnectivityStatus :=
  endTime <- perform Performance_now;;
  let responseTime := JS.Math_round_Z (JSMath.sub endTime startTime) in
  updateResponseTimeTracking responseTime;;
  perform (Write (set_isOnline true));;
  d <- perform New_Date;;
  perform (Write (set_lastChecked (Some d)));;
  perform (Write (set_responseTime (Some responseTime)));;
  perform (Write (fun s =>
    set_successfulChecks (successfulChecks s + 1) s));;
  d <- perform New_Date;;
  addToHistory {| rec_timestamp := d; rec_isOnline := true;
                  rec_responseTime := Some responseTime;
                  rec_endpoint := Some (name endpoint);
                  rec_error := None |};;
  d <- perform New_Date;;
  Ret {| st_isOnline := true; st_lastChecked := Some d;
         st_responseTime := Some responseTime;
         st_endpoint := Some (name endpoint); st_error := None |}.

Fixpoint tryEndpoints (endpoints : list ConnectivityEndpoint)
  (startTime : JS.number) : Async ConnectivityStatus :=
  match endpoints with
  | [] => d <- perform New_Date;; Ret (Fallback.exhausted d)
  | endpoint :: rest =>
      perform (Write (set_currentEndpoint (Some (name endpoint))));;
      response <- checkEndpoint endpoint;;
      match response with
      | Some _ => online endpoint startTime
      | None => tryEndpoints rest startTime
      end
  end.

Definition shouldTryHttpFallback : Async bool :=
  l <- perform Window_location;;
  Ret (String.eqb (protocol l) "http:"
       || String.eqb (hostname l) "localhost").

(** The status the guard returns: the signals as they stand. *)
Definition in_flight (s : Service) : ConnectivityStatus :=
  {| st_isOnline := isOnline s; st_lastChecked := lastChecked s;
     st_responseTime := responseTime s; st_endpoint := currentEndpoint s;
     st_error := error s |}.

(** The two places that finish a probe that found an endpoint. *)
Definition finish (result : ConnectivityStatus) : Async ConnectivityStatus :=
  perform (Write (fun s => set_totalChecks (totalChecks s + 1) s));;
  perform (Write (set_isChecking false));;
  Ret result.

Definition offline : Async ConnectivityStatus :=
  perform (Write (set_isOnline false));;
  d <- perform New_Date;;
  perform (Write (set_lastChecked (Some d)));;
  perform (Write (set_responseTime None));;
  perform (Write (set_error (Some All_connectivity_endpoints_failed)));;
  perform (Write (fun s => set_totalChecks (totalChecks s + 1) s));;
  perform (Write (set_isChecking false));;
  d <- perform New_Date;;
  addToHistory {| rec_timestamp := d; rec_isOnline := false;
                  rec_responseTime := None; rec_endpoint := None;
                  rec_error := Some All_connectivity_endpoints_failed |};;
  d <- perform New_Date;;
  Ret {| st_isOnline := false; st_lastChecked := Some d;
         st_responseTime := None; st_endpoint := None;
         st_error := Some All_connectivity_endpoints_failed |}.

Section WithEndpoints.

Variables endpoints fallbackEndpoints : list ConnectivityEndpoint.

Definition checkConnectivity : Async ConnectivityStatus :=
  s <- perform Signals;;
  if isChecking s then Ret (in_flight s)
  else
    perform (Write (set_isChecking true));;
    perform (Write (set_error None));;
    startTime <- perform Performance_now;;
    httpsResult <- tryEndpoints endpoints startTime;;
    if st_isOnline httpsResult then finish httpsResult
    else
      fallback <- shouldTryHttpFallback;;
      if fallback
      then
        httpResult <- tryEndpoints fallbackEndpoints startTime;;
        if st_isOnline httpResult then finish httpResult else offline
      else offline.

Definition manualCheck : Async ConnectivityStatus := checkConnectivity.

End WithEndpoints.

End Guarded.

(** ** Reading a probe off the network

    What the loop over an endpoint list does, endpoint by endpoint. *)

(** Does [checkEndpoint] fulfil against this attempt? *)
Definition fulfils (endpoint : ConnectivityEndpoint) (a : option Attempt)
  : bool :=
  match fst (settle (request_of endpoint) a) with
  | Fulfilled response =>
      match accept endpoint response with Some _ => true | None => false end
  | Rejected _ => false
  end.

(** The world once one endpoint has been tried, whatever came of it. *)
Definition attempt (endpoint : ConnectivityEndpoint) (w : World) : World :=
  {| service := set_currentEndpoint (Some (name endpoint)) (service w);
     host := later (snd (settle (request_of endpoint) (hd_error (network w))))
                   (host w);
     network := tl (network w);
     requests := requests w ++ [request_of endpoint] |}.

(** Try the endpoints in order up to the first that fulfils. *)
Fixpoint first_reached (l : list ConnectivityEndpoint) (w : World)
  : World * option ConnectivityEndpoint :=
  match l with
  | [] => (w, None)
  | endpoint :: rest =>
      if fulfils endpoint (hd_error (network w))
      then (attempt endpoint w, Some endpoint)
      else first_reached rest (attempt endpoint w)
  end.

(** Every endpoint of the list fails against the attempts it meets. *)
Fixpoint all_fail (l : list ConnectivityEndpoint) (net : list Attempt)
  : bool :=
  match l with
  | [] => true
  | endpoint :: rest =>
      negb (fulfils endpoint (hd_error net)) && all_fail rest (tl net)
  end.

(** The name a signal holds after the loop has set it for each endpoint. *)
Definition last_name (l : list ConnectivityEndpoint) (prior : option string)
  : option string :=
  fold_left (fun _ endpoint => Some (name endpoint)) l prior.

(** The world after every endpoint of the list has been tried. *)
Definition attempt_all (l : list ConnectivityEndpoint) (w : World) : World :=
  fold_left (fun w endpoint => attempt endpoint w) l w.

(** The requests a loop over the list issues: one per endpoint, in order,
    up to and including the first that fulfils. *)
Fixpoint asked (l : list ConnectivityEndpoint) (net : list Attempt)
  : list Request :=
  match l with
  | [] => []
  | endpoint :: rest =>
      request_of endpoint ::
      (if fulfils endpoint (hd_error net) then [] else asked rest (tl net))
  end.

(** The policy [shouldTryHttpFallback] reads off [window.location]. *)
Definition http_or_localhost (l : Location) : bool :=
  String.eqb (protocol l) "http:" || String.eqb (hostname l) "localhost".

(** ** Invariants of the event loop

    [J n res s] is meant of a page with [n] invocations waiting, [res] the
    statuses returned so far and [s] the signals.  [keeps p h n res s] says
    that the code [p] of one invocation, started or resumed on signals [s]
    beside [n] other waiting invocations, re-establishes [J] each time it
    stops: at an [await], where it joins the waiting ones, and when it
    returns.  While it waits the page may change in any way that keeps
    [J]. *)
Section Invariants.

Variable J : nat -> list ConnectivityStatus -> Service -> Prop.

Fixpoint keeps (p : Async ConnectivityStatus) (h : Host) (n : nat)
  (res : list ConnectivityStatus) (s : Service) : Prop :=
  match p with
  | Ret a => J n (res ++ [a]) s
  | Do op k => keeps (k (snd (effect op h s))) h n res (fst (effect op h s))
  | Await rq k =>
      J (S n) res s /\
      forall r h' n' res' s',
        J (S n') res' s' -> keeps (k r) h' n' res' s'
  end.

Definition task_ok (t : Task) : Prop :=
  forall r h n res s, J (S n) res s -> keeps (snd t r) h n res s.

Definition page_ok (pg : Page) : Prop :=
  J (length (waiting pg)) (resolved pg) (signals pg) /\
  Forall task_ok (waiting pg).

End Invariants.

(** Code that never waits: no [await] of a [fetch] in it. *)
Fixpoint straight {A : Type} (p : Async A) : Prop :=
  match p with
  | Ret _ => True
  | Do op k => forall x, straight (k x)
  | Await _ _ => False
  end.

(** A world around given signals, with a silent network. *)
Definition around (s : Service) (h : Host) : World :=
  {| service := s; host := h; network := []; requests := [] |}.

(** The response times of the successful statuses of a list. *)
Definition successful_times (res : list ConnectivityStatus) : list Z :=
  flat_map (fun st =>
    if st_isOnline st
    then match st_responseTime st with Some t => [t] | None => [] end
    else []) res.

(** The least (greatest, ...) element of a list, [None] when it is empty. *)
Definition extremum (f : Z -> Z -> Z) (l : list Z) : option Z :=
  match l with
  | [] => None
  | x :: rest => Some (fold_left f rest x)
  end.

(** The invariants of each revision. *)
Definition plain_inv (n : nat) (res : list ConnectivityStatus) (s : Service)
  : Prop :=
  successfulChecks s + Z.of_nat n <= totalChecks s /\
  (length (connectionHistory s) <= 100)%nat /\
  minResponseTime s = extremum Z.min (successful_times res) /\
  maxResponseTime s = extremum Z.max (successful_times res).

Definition fallback_inv (n : nat) (res : list ConnectivityStatus)
  (s : Service) : Prop :=
  successfulChecks s + Z.of_nat n <= totalChecks s /\
  (length (connectionHistory s) <= 100)%nat.

Definition guarded_inv (n : nat) (res : list ConnectivityStatus)
  (s : Service) : Prop :=
  (n <= 1)%nat /\
  (isChecking s = true <-> n = 1%nat) /\
  successfulChecks s <= totalChecks s /\
  (length (connectionHistory s) <= 100)%nat.

(** ** The three revisions side by side *)

Inductive Revision := plain | fallback | guarded.

(** [checkConnectivity] of a revision over given endpoint lists ([plain]
    has no fallback list). *)
Definition probe (rev : Revision)
  (endpoints fallbackEndpoints : list ConnectivityEndpoint)
  : Async ConnectivityStatus :=
  match rev with
  | plain => Plain.checkConnectivity endpoints
  | fallback => Fallback.checkConnectivity endpoints fallbackEndpoints
  | guarded => Guarded.checkConnectivity endpoints fallbackEndpoints
  end.

(** The endpoints a probe may go through, in order: the primary list,
    then the fallback list where the revision has one and the page is
    served over plain HTTP or from localhost. *)
Definition eligible (rev : Revision)
  (endpoints fallbackEndpoints : list ConnectivityEndpoint) (l : Location)
  : list ConnectivityEndpoint :=
  match rev with
  | plain => endpoints
  | fallback | guarded =>
      if http_or_localhost l then endpoints ++ fallbackEndpoints
      else endpoints
  end.

(** The signals once the code before the first loop has run. *)
Definition entered (rev : Revision) (s : Service) : Service :=
  match rev with
  | plain | fallback =>
      set_totalChecks (totalChecks s + 1)
        (set_error None (set_isChecking true s))
  | guarded => set_error None (set_isChecking true s)
  end.

Definition with_service (s : Service) (w : World) : World :=
  {| service := s; host := host w; network := network w;
     requests := requests w |}.

(** The code a revision runs once [endpoint] has answered. *)
Definition landed (rev : Revision) (endpoint : ConnectivityEndpoint)
  (startTime : JS.number) : Async ConnectivityStatus :=
  match rev with
  | plain => Plain.online endpoint startTime
  | fallback => Fallback.online endpoint startTime
  | guarded =>
      result <- Guarded.online endpoint startTime;; Guarded.finish result
  end.

(** The code a revision runs once every eligible endpoint has failed. *)
Definition stranded (rev : Revision) : Async ConnectivityStatus :=
  match rev with
  | plain => Plain.offline
  | fallback => Fallback.offline
  | guarded => Guarded.offline
  end.

Arguments JS.round_exact : simpl never.
Arguments JS.Math_round_Z : simpl never.
Arguments JS.reading : simpl never.
Arguments JSMath.sub : simpl never.
Arguments history_update : simpl never.
Arguments Qminus : simpl never.
Arguments Qplus : simpl never.

(** ** Pages and networks to run the code on *)

Definition https_page (t : Q) : Host :=
  {| now := t;
     location := {| protocol := "https:"; hostname := "status.example" |} |}.

Definition localhost_page (t : Q) : Host :=
  {| now := t;
     location := {| protocol := "http:"; hostname := "localhost" |} |}.

(** A freshly constructed service at time 0 in front of a network. *)
Definition fresh (h : Host) (net : list Attempt) : World :=
  {| service := initial true; host := h; network := net; requests := [] |}.

Definition opaque_response : Response :=
  {| resp_type := opaque; resp_status := 0 |}.

Definition no_content : Response :=
  {| resp_type := basic; resp_status := 204 |}.

(** An answer with status 204 after [ms] milliseconds. *)
Definition answers (ms : Q) : Attempt :=
  {| latency := ms; wire := Responds no_content; lag := 0 |}.

(** Nothing within a minute: every abort timer of the lists fires first. *)
Definition silence : Attempt :=
  {| latency := 60000; wire := NetworkError; lag := 0 |}.

(** A call at time [t] whose first [fetch] fulfils [dt] milliseconds
    later, with no other event in between. *)
Definition probe_ok (t dt : Q) : list Event :=
  [Call (https_page t);
   Settle 0 (Fulfilled opaque_response) (https_page (Qplus t dt))].

(** A call at time [t] each of whose [n] requests is aborted. *)
Definition probe_ko (n : nat) (t : Q) : list Event :=
  Call (https_page t) ::
  repeat (Settle 0 (Rejected Aborted) (https_page (Qplus t 3000))) n.

(** Forty probes of the four-endpoint list, one every 30 s: seventeen
    that reach nothing, then twenty-three that reach the first endpoint
    in 20 ms. *)
Definition forty_probes : list Event :=
  flat_map (fun i => probe_ko 4 (inject_Z (30000 * Z.of_nat i))) (seq 0 17) ++
  flat_map (fun i => probe_ok (inject_Z (30000 * Z.of_nat i)) 20) (seq 17 23).

(** Two probes: the first answered within half a millisecond, the second
    in 100 ms. *)
Definition quick_then_slow : list Event :=
  probe_ok 0 (2 # 5) ++ probe_ok 30000 100.

(** Three probes answered in 100, 200 and 300 ms. *)
Definition three_probes : list Event :=
  probe_ok 0 100 ++ probe_ok 30000 200 ++ probe_ok 60000 300.

(** Three probes answered in 50, 200 and 30 ms. *)
Definition fifty_two_hundred_thirty : list Event :=
  probe_ok 0 50 ++ probe_ok 30000 200 ++ probe_ok 60000 30.

(** One probe answered in 30 ms, then a hundred answered in 50 ms. *)
Definition one_fast_then_hundred : list Event :=
  probe_ok 0 30 ++
  flat_map (fun i => probe_ok (inject_Z (30000 * Z.of_nat i)) 50) (seq 1 100).

(** A second call while the first still waits for its first answer. *)
Definition two_calls : list Event :=
  [Call (https_page 0); Call (https_page 10)].

(** The arithmetic mean of the response times of the successful records,
    rounded like [Math.round]: what the README calls the mean response
    time across all successful connections. *)
Definition mean_of_successful (history : list ConnectionRecord) : Z :=
  let times :=
    flat_map (fun r =>
      if rec_isOnline r
      then match rec_responseTime r with Some t => [t] | None => [] end
      else []) history in
  match times with
  | [] => 0
  | _ => JS.round_exact
           (Qmake (fold_left Z.add times 0) (Pos.of_nat (length times)))
  end.

(** The percentage of successful checks in exact arithmetic, rounded like
    [Math.round]. *)
Definition exact_percentage (successful total : Z) : Z :=
  if total >? 0
  then JS.round_exact (Qmake (100 * successful) (Z.to_pos total))
  else 0.


(** Signals with given counters. *)
Definition counting (successful total : Z) : Service :=
  set_successfulChecks successful (set_totalChecks total (initial true)).

(** Do [uptimePercentage] and exact arithmetic agree on these counters? *)
Definition agree (successful total : Z) : bool :=
  match uptimePercentage (counting successful total) with
  | Some p => p =? exact_percentage successful total
  | None => false
  end.


(** ** The rest of the service class *)

(** The computed [status] signal. *)
Definition status (s : Service) : ConnectivityStatus :=
  {| st_isOnline := isOnline s; st_lastChecked := lastChecked s;
     st_responseTime := responseTime s; st_endpoint := currentEndpoint s;
     st_error := error s |}.

Record EndpointInfo := {
  info_protocol : string;
  info_port : string
}.

Definition not_available : EndpointInfo :=
  {| info_protocol := "N/A"; info_port := "N/A" |}.

Definition https_443 : EndpointInfo :=
  {| info_protocol := "HTTPS"; info_port := "443" |}.

Definition http_80 : EndpointInfo :=
  {| info_protocol := "HTTP"; info_port := "80" |}.

(** [!current] for a [string | null]: [null] and the empty string. *)
Definition no_string (v : option string) : bool :=
  match v with
  | None => true
  | Some EmptyString => true
  | Some (String _ _) => false
  end.

(** [list.some(ep => ep.name === current)] *)
Definition some_named (l : list ConnectivityEndpoint) (current : option string)
  : bool :=
  existsb (fun ep =>
    match current with
    | Some c => String.eqb (name ep) c
    | None => false
    end) l.

(** [getCurrentEndpointInfo] of [connectivity.service.ts]. *)
Module PlainRest.

Definition getCurrentEndpointInfo (s : Service) : EndpointInfo :=
  let current := currentEndpoint s in
  if no_string current then not_available else https_443.

Definition getEndpoints (endpoints : list ConnectivityEndpoint)
  : list ConnectivityEndpoint := endpoints ++ [].

End PlainRest.

(** [getCurrentEndpointInfo] and [setupPeriodicChecks] of the revisions
    with a fallback list. *)
Module FallbackRest.

Section WithEndpoints.

Variables endpoints fallbackEndpoints : list ConnectivityEndpoint.

Definition getCurrentEndpointInfo (s : Service) : EndpointInfo :=
  let current := currentEndpoint s in
  if no_string current then not_available
  else
    let isHttpsEndpoint := some_named endpoints current in
    let isHttpEndpoint := some_named fallbackEndpoints current in
    if isHttpsEndpoint then https_443
    else if isHttpEndpoint then http_80
    else https_443.

End WithEndpoints.

End FallbackRest.

Module GuardedRest.

Section WithEndpoints.

Variables endpoints fallbackEndpoints : list ConnectivityEndpoint.

(** The subscriber of [timer(0, 30000)]: what one tick of the timer does
    to the page. *)
Definition tick (pg : Page) (h : Host) : Page :=
  if negb (isChecking (signals pg))
  then step (Guarded.checkConnectivity endpoints fallbackEndpoints) pg (Call h)
  else pg.

End WithEndpoints.

End GuardedRest.


(** ** [NetworkStatsComponent]

    The computed signals of the component over the history they read:
    [unnamed/part_001] reads it from the service, and
    [network-stats.component.ts] keeps a list of its own. *)
Module NetworkStats.

Definition currentStatus (s : Service) : string :=
  if isOnline s then "Online" else "Offline".

Record Row := {
  row_timestamp : Date;
  row_status : string;
  row_responseTime : option Z
}.

Definition recentConnections (history : list ConnectionRecord)
  : list ConnectionRecord :=
  rev (JS.slice (-10) history).

Definition connectionHistory (history : list ConnectionRecord) : list Row :=
  map (fun record =>
         {| row_timestamp := rec_timestamp record;
            row_status := if rec_isOnline record then "online" else "offline";
            row_responseTime := rec_responseTime record |})
      (rev (JS.slice (-10) history)).

(** [r => r.isOnline && r.responseTime] *)
Definition timed (r : ConnectionRecord) : bool :=
  rec_isOnline r && JS.truthy (rec_responseTime r).

Definition responseTimeHistory (history : list ConnectionRecord) : list Z :=
  map (fun r => JS.or_zero (rec_responseTime r))
      (JS.slice (-20) (filter timed history)).

(** [Math.max(...responseTimes)] is only evaluated on a list that is not
    empty. *)
Definition peakResponseTime (history : list ConnectionRecord) : Z :=
  let responseTimes :=
    map (fun r => JS.or_zero (rec_responseTime r)) (filter timed history) in
  if (0 <? length responseTimes)%nat
  then match responseTimes with
       | x :: rest => fold_left Z.max rest x
       | [] => 0
       end
  else 0.

Definition minResponseTime (history : list ConnectionRecord) : Z :=
  let responseTimes :=
    map (fun r => JS.or_zero (rec_responseTime r)) (filter timed history) in
  if (0 <? length responseTimes)%nat
  then match responseTimes with
       | x :: rest => fold_left Z.min rest x
       | [] => 0
       end
  else 0.






Definition getBarHeight (responseTime : JS.number) : JS.number :=
  let maxTime := JS.of_Z 1000 in
  let percentage :=
    JSMath.max (JS.of_Z 10)
      (JSMath.min (JS.of_Z 100)
         (JS.mul (JS.div (JSMath.sub maxTime responseTime) maxTime)
                 (JS.of_Z 100))) in
  percentage.

End NetworkStats.

(** ** Shapes of the signals and of the history *)

(** The two extrema are both unset or both set, the least below the
    greatest. *)
Definition extrema_ok (s : Service) : Prop :=
  match minResponseTime s, maxResponseTime s with
  | None, None => True
  | Some least, Some greatest => least <= greatest
  | _, _ => False
  end.

(** A record as the two places that add one build it, with the response
    time of an online record between the extrema of [s]. *)
Definition record_ok (s : Service) (r : ConnectionRecord) : Prop :=
  if rec_isOnline r
  then exists t e least greatest,
         rec_responseTime r = Some t /\ rec_endpoint r = Some e /\
         rec_error r = None /\
         minResponseTime s = Some least /\
         maxResponseTime s = Some greatest /\ least <= t <= greatest
  else rec_responseTime r = None /\ rec_endpoint r = None /\
       rec_error r = Some All_connectivity_endpoints_failed.

Definition shape (s : Service) : Prop :=
  extrema_ok s /\
  Forall (record_ok s) (connectionHistory s) /\
  (isChecking s = true -> error s = None) /\
  (lastChecked s = None <-> connectionHistory s = []) /\
  (error s = None \/ error s = Some All_connectivity_endpoints_failed).

(** What a status and a record say of one probe. *)
Definition outcome_of_status (st : ConnectivityStatus)
  : bool * option Z * option string * option string :=
  (st_isOnline st, st_responseTime st, st_endpoint st, st_error st).

Definition outcome_of_record (r : ConnectionRecord)
  : bool * option Z * option string * option string :=
  (rec_isOnline r, rec_responseTime r, rec_endpoint r, rec_error r).

(** The last [n] elements of a list. *)
Definition lastn {A : Type} (n : nat) (l : list A) : list A :=
  skipn (length l - n) l.

(** The books of the revisions without a guard, on a page with [n]
    invocations waiting and [res] returned. *)
Definition ledger (n : nat) (res : list ConnectivityStatus) (s : Service)
  : Prop :=
  totalChecks s = Z.of_nat (length res + n) /\
  successfulChecks s =
    Z.of_nat (length (filter st_isOnline res)) /\
  map outcome_of_record (connectionHistory s) =
    lastn 100 (map outcome_of_status res).

(** The books of the guarded revision. *)
Definition guarded_ledger (n : nat) (res : list ConnectivityStatus)
  (s : Service) : Prop :=
  guarded_inv n res s /\
  0 <= totalChecks s /\
  length (connectionHistory s) = Nat.min 100 (Z.to_nat (totalChecks s)) /\
  (isChecking s = true -> error s = None) /\
  (error s <> None -> responseTime s = None).

(** ** Bounds on numbers *)

(** A finite number other than the two zeros. *)
Definition finite_nonzero (x : JS.number) : bool :=
  match x with
  | S754_finite _ _ _ => true
  | _ => false
  end.

(** [lo <= r && r <= hi] *)
Definition between (lo hi r : JS.number) : Prop :=
  JSMath.leb lo r = true /\ JSMath.leb r hi = true.


(** ** Success and failure of an attempt, in the words of the specification *)

(** [endpoint.timeout || 3000], case by case. *)
Definition declared_timeout (endpoint : ConnectivityEndpoint) : Z :=
  match timeout endpoint with
  | Some 0 | None => 3000
  | Some t => t
  end.

(** Success: a response that is there before the abort and is opaque or
    carries a status of the accepted set. *)
Definition succeeds (endpoint : ConnectivityEndpoint) (a : option Attempt)
  : Prop :=
  exists x response,
    a = Some x /\
    (latency x < fires (declared_timeout endpoint) x)%Q /\
    wire x = Responds response /\
    (resp_type response = opaque \/
     In (resp_status response) (expectedStatus endpoint)).

(** A thrown error: a timeout abort (also when nothing ever answers), a
    network failure, or a status that is not accepted. *)
Definition throws (endpoint : ConnectivityEndpoint) (a : option Attempt)
  : Prop :=
  match a with
  | None => True
  | Some x =>
      (fires (declared_timeout endpoint) x <= latency x)%Q \/
      wire x = NetworkError \/
      exists response,
        wire x = Responds response /\
        resp_type response <> opaque /\
        ~ In (resp_status response) (expectedStatus endpoint)
  end.

(** Every endpoint of the list throws against the attempt it meets. *)
Fixpoint all_throw (l : list ConnectivityEndpoint) (net : list Attempt)
  : Prop :=
  match l with
  | [] => True
  | endpoint :: rest =>
      throws endpoint (hd_error net) /\ all_throw rest (tl net)
  end.

(** The request of an endpoint, field by field. *)
Definition declared_request (endpoint : ConnectivityEndpoint) : Request :=
  {| req_url := url endpoint; req_abortAfter := declared_timeout endpoint |}.

(** An answer with status 500 after [ms] milliseconds, and a connection
    that breaks after [ms] milliseconds. *)
Definition server_error : Response :=
  {| resp_type := basic; resp_status := 500 |}.

Definition refuses (ms : Q) : Attempt :=
  {| latency := ms; wire := Responds server_error; lag := 0 |}.

Definition breaks (ms : Q) : Attempt :=
  {| latency := ms; wire := NetworkError; lag := 0 |}.

(** A timeout, a refusal, a broken connection, and then nothing. *)
Definition four_failures : list Attempt :=
  [silence; refuses 10; breaks 5].

(** A timeout, a refusal, and then status 204 after 40 ms. *)
Definition third_time_lucky : list Attempt :=
  [silence; refuses 10; answers 40].

(** * Properties *)
(** ** Arrays and history *)

Lemma slice_last_100 {A : Type} (l : list A) :
  JS.slice (-100) l = skipn (length l - 100) l.
Proof.
  unfold JS.slice. cbn [Z.ltb Z.compare].
  f_equal. lia.
Qed.

Lemma history_update_length record history :
  (length (history_update record history) <= 100)%nat.
Proof.
  unfold history_update. rewrite slice_last_100, length_skipn. lia.
Qed.

Lemma history_update_room record history :
  (length history < 100)%nat ->
  history_update record history = history ++ [record].
Proof.
  intros H. unfold history_update. rewrite slice_last_100, length_app.
  cbn [length]. replace (length history + 1 - 100)%nat with 0%nat by lia.
  reflexivity.
Qed.


Lemma history_update_last record history :
  last (history_update record history) record = record.
Proof.
  unfold history_update. rewrite slice_last_100.
  assert (E : skipn (length (history ++ [record]) - 100) (history ++ [record])
              = skipn (length (history ++ [record]) - 100) history ++ [record]).
  { rewrite skipn_app, length_app. cbn [length].
    replace (length history + 1 - 100 - length history)%nat with 0%nat by lia.
    reflexivity. }
  rewrite E. apply last_last.
Qed.

(** ** Running code *)

Lemma run_bind {A B : Type} (p : Async A) (f : A -> Async B) (w : World) :
  run (bind p f) w = let (w', a) := run p w in run (f a) w'.
Proof.
  revert w. induction p as [a | X op k IH | rq k IH]; intros w; simpl.
  - reflexivity.
  - destruct (effect op (host w) (service w)) as [s x]. apply IH.
  - destruct (settle rq (hd_error (network w))) as [r dt]. apply IH.
Qed.

(** One turn of the loop, in each revision. *)
Lemma check_then {A : Type} (endpoint : ConnectivityEndpoint)
  (hit miss : Async A) (w : World) :
  run (perform (Write (set_currentEndpoint (Some (name endpoint))));;
       response <- checkEndpoint endpoint;;
       match response with Some _ => hit | None => miss end) w =
  if fulfils endpoint (hd_error (network w))
  then run hit (attempt endpoint w)
  else run miss (attempt endpoint w).
Proof.
  unfold fulfils, attempt. simpl.
  destruct (settle (request_of endpoint) (hd_error (network w))) as [r dt].
  simpl. destruct r as [response | reason]; simpl.
  - destruct (accept endpoint response); reflexivity.
  - reflexivity.
Qed.

Lemma run_for_endpoints (l : list ConnectivityEndpoint) (startTime : JS.number)
  (w : World) :
  run (Plain.for_endpoints l startTime) w =
  match first_reached l w with
  | (w', Some endpoint) => run (Plain.online endpoint startTime) w'
  | (w', None) => run Plain.offline w'
  end.
Proof.
  revert w. induction l as [| endpoint rest IH]; intros w.
  - reflexivity.
  - cbn [Plain.for_endpoints first_reached]. rewrite check_then.
    destruct (fulfils endpoint (hd_error (network w))).
    + reflexivity.
    + apply IH.
Qed.

Lemma run_Fallback_tryEndpoints (l : list ConnectivityEndpoint)
  (startTime : JS.number) (w : World) :
  run (Fallback.tryEndpoints l startTime) w =
  match first_reached l w with
  | (w', Some endpoint) => run (Fallback.online endpoint startTime) w'
  | (w', None) => (w', Fallback.exhausted (now (host w')))
  end.
Proof.
  revert w. induction l as [| endpoint rest IH]; intros w.
  - destruct w; reflexivity.
  - cbn [Fallback.tryEndpoints first_reached]. rewrite check_then.
    destruct (fulfils endpoint (hd_error (network w))).
    + reflexivity.
    + apply IH.
Qed.

Lemma run_Guarded_tryEndpoints (l : list ConnectivityEndpoint)
  (startTime : JS.number) (w : World) :
  run (Guarded.tryEndpoints l startTime) w =
  match first_reached l w with
  | (w', Some endpoint) => run (Guarded.online endpoint startTime) w'
  | (w', None) => (w', Fallback.exhausted (now (host w')))
  end.
Proof.
  revert w. induction l as [| endpoint rest IH]; intros w.
  - destruct w; reflexivity.
  - cbn [Guarded.tryEndpoints first_reached]. rewrite check_then.
    destruct (fulfils endpoint (hd_error (network w))).
    + reflexivity.
    + apply IH.
Qed.

(** ** What the loop leaves behind *)

Lemma first_reached_all_fail (l : list ConnectivityEndpoint) (w : World) :
  all_fail l (network w) = true ->
  first_reached l w = (attempt_all l w, None).
Proof.
  revert w. induction l as [| endpoint rest IH]; intros w H.
  - reflexivity.
  - cbn [all_fail] in H. apply andb_prop in H. destruct H as [H1 H2].
    cbn [first_reached attempt_all fold_left].
    apply negb_true_iff in H1. rewrite H1. apply IH. exact H2.
Qed.

Lemma first_reached_none (l : list ConnectivityEndpoint) (w w' : World) :
  first_reached l w = (w', None) ->
  all_fail l (network w) = true /\ w' = attempt_all l w.
Proof.
  revert w. induction l as [| endpoint rest IH]; intros w H.
  - cbn in H. injection H as <-. split; reflexivity.
  - cbn [first_reached] in H. cbn [all_fail attempt_all fold_left].
    destruct (fulfils endpoint (hd_error (network w))); [discriminate H |].
    apply IH in H. exact H.
Qed.

Lemma skipn_S_tl {A : Type} (n : nat) (l : list A) :
  skipn (S n) l = skipn n (tl l).
Proof.
  destruct l as [| x l]; [| reflexivity].
  cbn [tl]. rewrite !skipn_nil. reflexivity.
Qed.

Lemma first_reached_some (l : list ConnectivityEndpoint) (w w' : World)
  (endpoint : ConnectivityEndpoint) :
  first_reached l w = (w', Some endpoint) ->
  exists before after,
    l = before ++ endpoint :: after /\
    all_fail before (network w) = true /\
    fulfils endpoint (hd_error (skipn (length before) (network w))) = true /\
    w' = attempt endpoint (attempt_all before w).
Proof.
  revert w w'. induction l as [| e rest IH]; intros w w' H.
  - discriminate H.
  - cbn [first_reached] in H.
    destruct (fulfils e (hd_error (network w))) eqn:F.
    + injection H as <- <-. exists [], rest. repeat split. exact F.
    + apply IH in H. destruct H as (before & after & -> & Hf & Hr & ->).
      exists (e :: before), after. cbn [all_fail]. rewrite F.
      repeat split; try assumption.
      cbn [length]. rewrite skipn_S_tl. exact Hr.
Qed.
Lemma set_currentEndpoint_same (s : Service) :
  set_currentEndpoint (currentEndpoint s) s = s.
Proof. destruct s; reflexivity. Qed.

Lemma service_attempt_all (l : list ConnectivityEndpoint) (w : World) :
  service (attempt_all l w) =
  set_currentEndpoint (last_name l (currentEndpoint (service w))) (service w).
Proof.
  revert w. induction l as [| endpoint rest IH]; intros w.
  - symmetry. apply set_currentEndpoint_same.
  - cbn [attempt_all fold_left last_name]. fold (attempt_all rest).
    fold (last_name rest). rewrite IH. reflexivity.
Qed.

Lemma network_attempt_all (l : list ConnectivityEndpoint) (w : World) :
  network (attempt_all l w) = skipn (length l) (network w).
Proof.
  revert w. induction l as [| endpoint rest IH]; intros w.
  - reflexivity.
  - cbn [attempt_all fold_left length]. fold (attempt_all rest).
    rewrite IH, skipn_S_tl. reflexivity.
Qed.

Lemma asked_all_fail (l : list ConnectivityEndpoint) (net : list Attempt) :
  all_fail l net = true -> asked l net = map request_of l.
Proof.
  revert net. induction l as [| endpoint rest IH]; intros net H.
  - reflexivity.
  - cbn [all_fail] in H. apply andb_prop in H. destruct H as [H1 H2].
    apply negb_true_iff in H1. cbn [asked map]. rewrite H1, IH by exact H2.
    reflexivity.
Qed.

Lemma requests_first_reached (l : list ConnectivityEndpoint) (w : World) :
  requests (fst (first_reached l w)) = requests w ++ asked l (network w).
Proof.
  revert w. induction l as [| endpoint rest IH]; intros w.
  - cbn. rewrite app_nil_r. reflexivity.
  - cbn [first_reached asked].
    destruct (fulfils endpoint (hd_error (network w))).
    + reflexivity.
    + rewrite IH. cbn [attempt requests network]. rewrite <- app_assoc.
      reflexivity.
Qed.

Lemma requests_attempt_all (l : list ConnectivityEndpoint) (w : World) :
  requests (attempt_all l w) = requests w ++ map request_of l.
Proof.
  revert w. induction l as [| endpoint rest IH]; intros w.
  - cbn. rewrite app_nil_r. reflexivity.
  - cbn [attempt_all fold_left map]. fold (attempt_all rest).
    rewrite IH. cbn [attempt requests]. rewrite <- app_assoc. reflexivity.
Qed.

Lemma Forall_tl {A : Type} (P : A -> Prop) (l : list A) :
  Forall P l -> Forall P (tl l).
Proof. intros H. destruct H; [constructor | assumption]. Qed.

Lemma Forall_skipn_tail {A : Type} (P : A -> Prop) (n : nat) (l : list A) :
  Forall P l -> Forall P (skipn n l).
Proof.
  revert l. induction n as [| n IH]; intros l H; [exact H |].
  rewrite skipn_S_tl. apply IH, Forall_tl, H.
Qed.

Lemma round_exact_nonneg (x : Q) : (0 <= x)%Q -> 0 <= JS.round_exact x.
Proof.
  intros H. unfold JS.round_exact.
  change 0 with (Qfloor 0). apply Qfloor_resp_le.
  apply Qle_trans with x; [exact H |].
  rewrite <- (Qplus_0_r x) at 1. apply Qplus_le_r. discriminate.
Qed.



Lemma first_reached_app (l1 l2 : list ConnectivityEndpoint) (w : World) :
  first_reached (l1 ++ l2) w =
  match first_reached l1 w with
  | (w', Some endpoint) => (w', Some endpoint)
  | (w', None) => first_reached l2 w'
  end.
Proof.
  revert w. induction l1 as [| endpoint rest IH]; intros w.
  - reflexivity.
  - cbn [app first_reached].
    destruct (fulfils endpoint (hd_error (network w))); [reflexivity |].
    apply IH.
Qed.


Lemma asked_app (l1 l2 : list ConnectivityEndpoint) (net : list Attempt) :
  asked (l1 ++ l2) net =
  asked l1 net ++
  (if all_fail l1 net then asked l2 (skipn (length l1) net) else []).
Proof.
  revert net. induction l1 as [| endpoint rest IH]; intros net.
  - reflexivity.
  - cbn [app asked all_fail length].
    destruct (fulfils endpoint (hd_error net)); cbn [negb andb app].
    + reflexivity.
    + rewrite IH, skipn_S_tl. reflexivity.
Qed.

Lemma location_first_reached (l : list ConnectivityEndpoint) (w : World) :
  location (host (fst (first_reached l w))) = location (host w).
Proof.
  revert w. induction l as [| endpoint rest IH]; intros w.
  - reflexivity.
  - cbn [first_reached].
    destruct (fulfils endpoint (hd_error (network w))); [reflexivity |].
    rewrite IH. reflexivity.
Qed.

Lemma run_perform {X A : Type} (op : Op X) (f : X -> Async A) (w : World) :
  run (x <- perform op;; f x) w =
  run (f (snd (effect op (host w) (service w))))
      (with_service (fst (effect op (host w) (service w))) w).
Proof.
  cbn [perform bind run]. destruct (effect op (host w) (service w)).
  reflexivity.
Qed.

(** The [try] block returns an online status. *)
Lemma Fallback_online_returns (endpoint : ConnectivityEndpoint)
  (startTime : JS.number) (w : World) :
  st_isOnline (snd (run (Fallback.online endpoint startTime) w)) = true.
Proof. destruct w. reflexivity. Qed.

Lemma Guarded_online_returns (endpoint : ConnectivityEndpoint)
  (startTime : JS.number) (w : World) :
  st_isOnline (snd (run (Guarded.online endpoint startTime) w)) = true.
Proof. destruct w. reflexivity. Qed.

Ltac online_returns O :=
  rewrite ?run_bind;
  match goal with
  | |- context [run (?online ?e ?st) ?w1] =>
      let Ho := fresh "Ho" in
      pose proof (O e st w1) as Ho;
      destruct (run (online e st) w1) as [? ?];
      cbn [snd] in Ho; rewrite Ho; reflexivity
  end.

(** A probe is the loop over the eligible endpoints between the code that
    enters it and the code that leaves it. *)
Lemma run_probe (rev : Revision)
  (endpoints fallbackEndpoints : list ConnectivityEndpoint) (w : World) :
  (rev = guarded -> isChecking (service w) = false) ->
  run (probe rev endpoints fallbackEndpoints) w =
  match first_reached
          (eligible rev endpoints fallbackEndpoints (location (host w)))
          (with_service (entered rev (service w)) w) with
  | (w', Some endpoint) =>
      run (landed rev endpoint (JS.reading (now (host w)))) w'
  | (w', None) => run (stranded rev) w'
  end.
Proof.
  intros G.
  assert (policy : forall (w1 : World) (yes no : Async ConnectivityStatus),
    location (host w1) = location (host w) ->
    run (go <- Fallback.shouldTryHttpFallback;; if go then yes else no) w1 =
    if http_or_localhost (location (host w)) then run yes w1 else run no w1).
  { intros [s1 h1 n1 r1] yes no L. cbn in L. rewrite <- L.
    unfold http_or_localhost. cbn [Fallback.shouldTryHttpFallback bind perform
      run effect host service location].
    destruct (_ || _); reflexivity. }
  destruct rev; cbn [probe eligible entered landed stranded].
  - unfold Plain.checkConnectivity. rewrite !run_perform.
    cbn [effect fst snd with_service service host]. rewrite run_for_endpoints.
    reflexivity.
  - unfold Fallback.checkConnectivity. rewrite !run_perform.
    cbn [effect fst snd with_service service host network requests].
    rewrite run_bind, run_Fallback_tryEndpoints.
    match goal with
    | |- context [first_reached endpoints ?W] =>
        change W with (with_service (entered fallback (service w)) w)
    end.
    cbn [entered].
    set (w0 := with_service _ w).
    pose proof (location_first_reached endpoints w0) as L.
    destruct (http_or_localhost (location (host w))) eqn:P.
    + rewrite first_reached_app.
      destruct (first_reached endpoints w0) as [w1 [e |]];
        [online_returns Fallback_online_returns |].
      cbn [fst] in L. cbv iota beta. cbn [Fallback.exhausted st_isOnline].
      rewrite (policy w1 _ _ L), run_bind, run_Fallback_tryEndpoints.
      destruct (first_reached fallbackEndpoints w1) as [w2 [e |]];
        [online_returns Fallback_online_returns | reflexivity].
    + destruct (first_reached endpoints w0) as [w1 [e |]];
        [online_returns Fallback_online_returns |].
      cbn [fst] in L. cbv iota beta. cbn [Fallback.exhausted st_isOnline].
      rewrite (policy w1 _ _ L). reflexivity.
  - unfold Guarded.checkConnectivity. rewrite run_perform.
    cbn [effect fst snd]. rewrite (G eq_refl), !run_perform.
    cbn [effect fst snd with_service service host network requests].
    rewrite run_bind, run_Guarded_tryEndpoints.
    match goal with
    | |- context [first_reached endpoints ?W] =>
        change W with (with_service (entered guarded (service w)) w)
    end.
    cbn [entered].
    set (w0 := with_service _ w).
    pose proof (location_first_reached endpoints w0) as L.
    destruct (http_or_localhost (location (host w))) eqn:P.
    + rewrite first_reached_app.
      destruct (first_reached endpoints w0) as [w1 [e |]];
        [online_returns Guarded_online_returns |].
      cbn [fst] in L. cbv iota beta. cbn [Fallback.exhausted st_isOnline].
      rewrite (policy w1 _ _ L), run_bind, run_Guarded_tryEndpoints.
      destruct (first_reached fallbackEndpoints w1) as [w2 [e |]];
        [online_returns Guarded_online_returns | reflexivity].
    + destruct (first_reached endpoints w0) as [w1 [e |]];
        [online_returns Guarded_online_returns |].
      cbn [fst] in L. cbv iota beta. cbn [Fallback.exhausted st_isOnline].
      rewrite (policy w1 _ _ L). reflexivity.
Qed.

(** ** Attempts that throw and attempts that succeed *)

Lemma declared_timeout_code (endpoint : ConnectivityEndpoint) :
  timeout_or_3000 endpoint = declared_timeout endpoint.
Proof.
  unfold timeout_or_3000, declared_timeout, JS.truthy.
  destruct (timeout endpoint) as [[| p | p] |]; reflexivity.
Qed.

Lemma declared_request_code (endpoint : ConnectivityEndpoint) :
  request_of endpoint = declared_request endpoint.
Proof.
  unfold request_of, declared_request. rewrite declared_timeout_code.
  reflexivity.
Qed.

(** [checkEndpoint] fulfils exactly when an answer arrives before the abort
    timer fires and is opaque or carries an expected status; a network
    error, an abort and any other status reject. *)
Lemma fulfils_iff (endpoint : ConnectivityEndpoint) (a : option Attempt) :
  fulfils endpoint a = true <-> succeeds endpoint a.
Proof.
  unfold succeeds, fulfils, settle, accept. cbn [request_of req_abortAfter].
  rewrite declared_timeout_code.
  split.
  - destruct a as [x |]; [| discriminate].
    destruct (Qlt_le_dec (latency x) _) as [L | L]; [| discriminate].
    cbn [fst]. destruct (wire x) as [| response] eqn:W; [discriminate |].
    intros H. exists x, response. repeat split; try assumption.
    destruct (resp_type response); cbn [is_opaque] in H;
      try (left; reflexivity); right;
      (destruct (JS.includes (expectedStatus endpoint) (resp_status response))
         eqn:I; [| discriminate H]);
      unfold JS.includes in I; apply existsb_exists in I;
      destruct I as (y & Hy & E); apply Z.eqb_eq in E; subst y; exact Hy.
  - intros (x & response & -> & L & W & H).
    destruct (Qlt_le_dec (latency x) _) as [L' | L'].
    + cbn [fst]. rewrite W. destruct H as [H | H].
      * rewrite H. reflexivity.
      * destruct (is_opaque (resp_type response)); [reflexivity |].
        replace (JS.includes (expectedStatus endpoint) (resp_status response))
          with true; [reflexivity |].
        symmetry. unfold JS.includes. apply existsb_exists.
        exists (resp_status response). split; [exact H | apply Z.eqb_refl].
    + exfalso. apply (Qlt_not_le _ _ L). exact L'.
Qed.

Lemma throws_fails (endpoint : ConnectivityEndpoint) (a : option Attempt) :
  throws endpoint a -> fulfils endpoint a = false.
Proof.
  intros T. destruct (fulfils endpoint a) eqn:F; [| reflexivity].
  apply fulfils_iff in F.
  destruct F as (x & response & -> & L & W & H). cbn [throws] in T.
  destruct T as [T | [T | (r & Wr & No & Ni)]].
  - exfalso. apply (Qlt_not_le _ _ L). exact T.
  - congruence.
  - assert (r = response) as -> by congruence.
    destruct H as [H | H]; contradiction.
Qed.

Lemma all_throw_all_fail (l : list ConnectivityEndpoint)
  (net : list Attempt) :
  all_throw l net -> all_fail l net = true.
Proof.
  revert net. induction l as [| endpoint rest IH]; intros net H.
  - reflexivity.
  - destruct H as [H1 H2]. cbn [all_fail].
    rewrite (throws_fails _ _ H1), (IH _ H2). reflexivity.
Qed.

Lemma history_update_lastn (record : ConnectionRecord)
  (history : list ConnectionRecord) :
  history_update record history = lastn 100 (history ++ [record]).
Proof. unfold history_update, lastn. apply slice_last_100. Qed.

Lemma hd_error_skipn_nth {A : Type} (n : nat) (l : list A) :
  hd_error (skipn n l) = nth_error l n.
Proof.
  revert l. induction n as [| n IH]; intros [| x l]; try reflexivity.
  apply (IH l).
Qed.

(** A probe whose eligible endpoints throw up to one that succeeds runs
    the code after that one; a probe all of whose eligible endpoints throw
    runs the code after the loops. *)
Lemma probe_lands (rev : Revision)
  (endpoints fallbackEndpoints before after : list ConnectivityEndpoint)
  (endpoint : ConnectivityEndpoint) (w : World) :
  (rev = guarded -> isChecking (service w) = false) ->
  eligible rev endpoints fallbackEndpoints (location (host w)) =
    before ++ endpoint :: after ->
  all_throw before (network w) ->
  succeeds endpoint (nth_error (network w) (length before)) ->
  run (probe rev endpoints fallbackEndpoints) w =
  run (landed rev endpoint (JS.reading (now (host w))))
      (attempt endpoint
         (attempt_all before (with_service (entered rev (service w)) w))).
Proof.
  intros G E Hb Hs. apply all_throw_all_fail in Hb.
  assert (He : fulfils endpoint
                 (hd_error (skipn (length before) (network w))) = true).
  { apply fulfils_iff. rewrite hd_error_skipn_nth. exact Hs. }
  rewrite (run_probe rev endpoints fallbackEndpoints w G), E.
  set (w0 := with_service (entered rev (service w)) w).
  assert (N : network w0 = network w) by reflexivity.
  rewrite first_reached_app, first_reached_all_fail by (rewrite N; exact Hb).
  cbn [first_reached]. rewrite network_attempt_all, N, He. reflexivity.
Qed.

Lemma probe_strands (rev : Revision)
  (endpoints fallbackEndpoints : list ConnectivityEndpoint) (w : World) :
  (rev = guarded -> isChecking (service w) = false) ->
  all_throw (eligible rev endpoints fallbackEndpoints (location (host w)))
            (network w) ->
  run (probe rev endpoints fallbackEndpoints) w =
  run (stranded rev)
      (attempt_all
         (eligible rev endpoints fallbackEndpoints (location (host w)))
         (with_service (entered rev (service w)) w)).
Proof.
  intros G H. apply all_throw_all_fail in H.
  rewrite (run_probe rev endpoints fallbackEndpoints w G).
  rewrite first_reached_all_fail by exact H. reflexivity.
Qed.

(** ** A probe that reaches nothing *)

(** C4. When every endpoint attempt of a probe throws (the primary list
    and, where the revision has a fallback list and the page is served over
    plain HTTP or from localhost, the fallback list too), the probe leaves
    [isOnline] false, [lastChecked] stamped, [responseTime] null, the error
    message "All connectivity endpoints failed", the history as it was
    with one failure record (offline, no response time, no endpoint) after
    its last record and cut to its last hundred, [totalChecks] one
    higher, [successfulChecks] as it was and [isChecking] cleared, and it
    returns the failure status. *)
Theorem all_endpoints_failed (rev : Revision)
  (endpoints fallbackEndpoints : list ConnectivityEndpoint) (w : World) :
  (rev = guarded -> isChecking (service w) = false) ->
  all_throw (eligible rev endpoints fallbackEndpoints (location (host w)))
            (network w) ->
  let w' := fst (run (probe rev endpoints fallbackEndpoints) w) in
  let status := snd (run (probe rev endpoints fallbackEndpoints) w) in
  isOnline (service w') = false /\
  lastChecked (service w') = Some (now (host w')) /\
  responseTime (service w') = None /\
  error (service w') = Some "All connectivity endpoints failed"%string /\
  connectionHistory (service w') =
    lastn 100
      (connectionHistory (service w) ++
       [{| rec_timestamp := now (host w'); rec_isOnline := false;
           rec_responseTime := None; rec_endpoint := None;
           rec_error := Some "All connectivity endpoints failed"%string |}]) /\
  totalChecks (service w') = totalChecks (service w) + 1 /\
  successfulChecks (service w') = successfulChecks (service w) /\
  isChecking (service w') = false /\
  status =
    {| st_isOnline := false; st_lastChecked := Some (now (host w'));
       st_responseTime := None; st_endpoint := None;
       st_error := Some "All connectivity endpoints failed"%string |}.
Proof.
  intros G H w' status. subst w' status.
  rewrite (probe_strands rev endpoints fallbackEndpoints w G H).
  set (l := eligible rev endpoints fallbackEndpoints (location (host w))).
  rewrite <- history_update_lastn.
  destruct rev; cbn; rewrite service_attempt_all; cbn;
    repeat split; reflexivity.
Qed.

(** ** What the two ways out of a probe do *)

Lemma landed_effect (rev : Revision) (endpoint : ConnectivityEndpoint)
  (startTime : JS.number) (w : World) :
  let w' := fst (run (landed rev endpoint startTime) w) in
  let status := snd (run (landed rev endpoint startTime) w) in
  let elapsed :=
    JS.Math_round_Z (JSMath.sub (JS.reading (now (host w))) startTime) in
  host w' = host w /\ network w' = network w /\ requests w' = requests w /\
  isOnline (service w') = true /\
  lastChecked (service w') = Some (now (host w)) /\
  responseTime (service w') = Some elapsed /\
  currentEndpoint (service w') = currentEndpoint (service w) /\
  error (service w') = error (service w) /\
  isChecking (service w') = false /\
  totalChecks (service w') =
    match rev with
    | guarded => totalChecks (service w) + 1
    | _ => totalChecks (service w)
    end /\
  successfulChecks (service w') = successfulChecks (service w) + 1 /\
  connectionHistory (service w') =
    history_update
      {| rec_timestamp := now (host w); rec_isOnline := true;
         rec_responseTime := Some elapsed;
         rec_endpoint := Some (name endpoint); rec_error := None |}
      (connectionHistory (service w)) /\
  minResponseTime (service w') =
    min_update elapsed (minResponseTime (service w)) /\
  maxResponseTime (service w') =
    max_update elapsed (maxResponseTime (service w)) /\
  status =
    {| st_isOnline := true; st_lastChecked := Some (now (host w));
       st_responseTime := Some elapsed;
       st_endpoint := Some (name endpoint); st_error := None |}.
Proof.
  destruct w as [s h net rqs].
  destruct rev; repeat split; reflexivity.
Qed.

Lemma stranded_effect (rev : Revision) (w : World) :
  let w' := fst (run (stranded rev) w) in
  let status := snd (run (stranded rev) w) in
  host w' = host w /\ network w' = network w /\ requests w' = requests w /\
  isOnline (service w') = false /\
  lastChecked (service w') = Some (now (host w)) /\
  responseTime (service w') = None /\
  currentEndpoint (service w') = currentEndpoint (service w) /\
  error (service w') = Some All_connectivity_endpoints_failed /\
  isChecking (service w') = false /\
  totalChecks (service w') =
    match rev with
    | guarded => totalChecks (service w) + 1
    | _ => totalChecks (service w)
    end /\
  successfulChecks (service w') = successfulChecks (service w) /\
  connectionHistory (service w') =
    history_update
      {| rec_timestamp := now (host w); rec_isOnline := false;
         rec_responseTime := None; rec_endpoint := None;
         rec_error := Some All_connectivity_endpoints_failed |}
      (connectionHistory (service w)) /\
  minResponseTime (service w') = minResponseTime (service w) /\
  maxResponseTime (service w') = maxResponseTime (service w) /\
  status =
    {| st_isOnline := false; st_lastChecked := Some (now (host w));
       st_responseTime := None; st_endpoint := None;
       st_error := Some All_connectivity_endpoints_failed |}.
Proof.
  destruct w as [s h net rqs].
  destruct rev; repeat split; reflexivity.
Qed.

(** The signals when a probe has tried every endpoint of a list. *)
Lemma entered_attempt_all (rev : Revision) (l : list ConnectivityEndpoint)
  (w : World) :
  let s := service (attempt_all l (with_service (entered rev (service w)) w)) in
  isOnline s = isOnline (service w) /\
  currentEndpoint s = last_name l (currentEndpoint (service w)) /\
  totalChecks s =
    match rev with
    | guarded => totalChecks (service w)
    | _ => totalChecks (service w) + 1
    end /\
  successfulChecks s = successfulChecks (service w) /\
  connectionHistory s = connectionHistory (service w) /\
  minResponseTime s = minResponseTime (service w) /\
  maxResponseTime s = maxResponseTime (service w).
Proof.
  cbv zeta. rewrite service_attempt_all.
  destruct rev; repeat split; reflexivity.
Qed.

(** ** The difference of two clock readings *)

Lemma Math_round_Z_value (x : JS.number) (d : Q) :
  JS.value x = Some d -> JS.Math_round_Z x = JS.round_exact d.
Proof.
  intros H. unfold JS.Math_round_Z, JS.Math_round. rewrite H. reflexivity.
Qed.

Lemma two_power_pos (e : Z) : (0 < Qpower (2 # 1) e)%Q.
Proof. apply Qpower_0_lt. reflexivity. Qed.

Lemma shl_align_value (m : positive) (e ez : Z) :
  ez <= e ->
  (inject_Z (Zpos (fst (shl_align m e ez))) * Qpower (2 # 1) ez ==
   inject_Z (Zpos m) * Qpower (2 # 1) e)%Q.
Proof.
  intros H. unfold shl_align.
  destruct (ez - e) as [| d | d] eqn:D; cbn [fst]; try lia.
  - replace ez with e by lia. reflexivity.
  - change (Pos.iter xO m d) with (shift_pos d m).
    rewrite shift_pos_correct, Z.pow_pos_fold.
    replace e with (Zpos d + ez) by lia.
    rewrite Qpower_plus by discriminate.
    rewrite inject_Z_mult, Zpower_Qpower by lia.
    change (inject_Z 2) with (2 # 1). ring.
Qed.

Lemma finite_value (s : bool) (m : positive) (e : Z) (d : Q) :
  JS.value (S754_finite s m e) = Some d ->
  (d == inject_Z (cond_Zopp s (Zpos m)) * Qpower (2 # 1) e)%Q.
Proof.
  cbn [JS.value]. intros E. injection E as <-.
  destruct s; cbn [cond_Zopp]; [| reflexivity].
  rewrite inject_Z_opp. ring.
Qed.

Lemma binary_round_aux_value (mx ex : Z) (lx : SpecFloat.location) (d : Q) :
  JS.value (binary_round_aux JS.prec JS.emax false mx ex lx) = Some d ->
  (0 <= d)%Q.
Proof.
  unfold binary_round_aux.
  destruct (shr_fexp JS.prec JS.emax mx ex lx) as [mrs' e'].
  destruct (shr_fexp JS.prec JS.emax _ e' loc_Exact) as [mrs'' e''].
  destruct (shr_m mrs'') as [| m | m]; cbn [JS.value].
  - intros E. injection E as <-. apply Qle_refl.
  - destruct (e'' <=? _); cbn [JS.value]; [| discriminate].
    intros E. injection E as <-.
    apply Qmult_le_0_compat; [discriminate |].
    apply Qlt_le_weak, two_power_pos.
  - discriminate.
Qed.

Lemma binary_normalize_value (m e : Z) (d : Q) :
  0 <= m ->
  JS.value (binary_normalize JS.prec JS.emax m e false) = Some d ->
  (0 <= d)%Q.
Proof.
  intros H. unfold binary_normalize, binary_round.
  destruct m as [| m | m]; [| | lia].
  - intros E. injection E as <-. apply Qle_refl.
  - destruct (shl_align _ _ _) as [mz ez]. apply binary_round_aux_value.
Qed.

(** A reading minus one that is not greater is not negative. *)
Lemma sub_value_nonneg (x y : JS.number) (a b d : Q) :
  JS.value x = Some a -> JS.value y = Some b -> (b <= a)%Q ->
  JS.value (JSMath.sub x y) = Some d -> (0 <= d)%Q.
Proof.
  intros Hx Hy L. unfold JSMath.sub, SFsub.
  destruct x as [sx | sx | | sx mx ex]; try discriminate Hx;
    destruct y as [sy | sy | | sy my ey]; try discriminate Hy.
  - destruct sx, sy; intros E; injection E as <-; apply Qle_refl.
  - apply finite_value in Hy. cbn [JS.value] in Hx. injection Hx as <-.
    intros E. apply finite_value in E. rewrite E. rewrite Hy in L.
    destruct sy; cbn [negb cond_Zopp] in *.
    + apply Qmult_le_0_compat; [discriminate |].
      apply Qlt_le_weak, two_power_pos.
    + exfalso. apply (Qlt_not_le _ _ (two_power_pos ey)).
      apply Qmult_le_r with (z := inject_Z (Z.pos my)); [reflexivity |].
      rewrite Qmult_0_l, Qmult_comm. exact L.
  - cbn [JS.value] in Hy. injection Hy as <-. rewrite Hx.
    intros E. injection E as <-. exact L.
  - apply finite_value in Hx, Hy. rewrite Hx, Hy in L.
    apply binary_normalize_value.
    set (ez := Z.min ex ey) in *.
    pose proof (shl_align_value mx ex ez ltac:(lia)) as Ax.
    pose proof (shl_align_value my ey ez ltac:(lia)) as Ay.
    set (nx := fst (shl_align mx ex ez)) in *.
    set (ny := fst (shl_align my ey ez)) in *.
    assert (V : (inject_Z (cond_Zopp sy (Z.pos ny)) * Qpower (2 # 1) ez <=
                 inject_Z (cond_Zopp sx (Z.pos nx)) * Qpower (2 # 1) ez)%Q).
    { assert (Ex : (inject_Z (cond_Zopp sx (Z.pos nx)) * Qpower (2 # 1) ez ==
                    inject_Z (cond_Zopp sx (Z.pos mx)) * Qpower (2 # 1) ex)%Q).
      { destruct sx; cbn [cond_Zopp]; [| exact Ax].
        rewrite !inject_Z_opp.
        transitivity (- (inject_Z (Z.pos nx) * Qpower (2 # 1) ez))%Q; [ring |].
        rewrite Ax. ring. }
      assert (Ey : (inject_Z (cond_Zopp sy (Z.pos ny)) * Qpower (2 # 1) ez ==
                    inject_Z (cond_Zopp sy (Z.pos my)) * Qpower (2 # 1) ey)%Q).
      { destruct sy; cbn [cond_Zopp]; [| exact Ay].
        rewrite !inject_Z_opp.
        transitivity (- (inject_Z (Z.pos ny) * Qpower (2 # 1) ez))%Q; [ring |].
        rewrite Ay. ring. }
      rewrite Ex, Ey. exact L. }
    apply Qmult_le_r in V; [| apply two_power_pos].
    rewrite <- Zle_Qle in V. lia.
Qed.

(** ** A probe that reaches an endpoint *)

(** C5. The endpoints of a probe are tried in list order, each once, and
    the probe stops at the first whose attempt succeeds.  When the eligible
    endpoints are [before ++ endpoint :: after], every one of [before]
    throws (a timeout abort, a network failure or a status that is not
    accepted) and [endpoint] is answered before its timer fires by a
    response that is opaque or carries an accepted status, then the
    requests sent are those of [before] and then of [endpoint], nothing
    is sent to [after], and the probe leaves [isOnline] true and
    [currentEndpoint] naming [endpoint].  With [d] the binary64 difference
    of the clock readings at the end and at the start, it leaves the
    response time [Math.round(d)], which is not negative unless the clock
    read less at the end than at the start, and the history as it was with
    one record with [isOnline] true after its last record, cut to its last
    hundred. *)
Theorem first_success_wins (rev : Revision)
  (endpoints fallbackEndpoints before after : list ConnectivityEndpoint)
  (endpoint : ConnectivityEndpoint) (w : World) :
  (rev = guarded -> isChecking (service w) = false) ->
  eligible rev endpoints fallbackEndpoints (location (host w)) =
    before ++ endpoint :: after ->
  all_throw before (network w) ->
  succeeds endpoint (nth_error (network w) (length before)) ->
  let w' := fst (run (probe rev endpoints fallbackEndpoints) w) in
  let status := snd (run (probe rev endpoints fallbackEndpoints) w) in
  let startTime := JS.reading (now (host w)) in
  let endTime := JS.reading (now (host w')) in
  requests w' =
    requests w ++ map declared_request before ++ [declared_request endpoint] /\
  isOnline (service w') = true /\
  currentEndpoint (service w') = Some (name endpoint) /\
  forall d, JS.value (JSMath.sub endTime startTime) = Some d ->
    responseTime (service w') = Some (JS.round_exact d) /\
    (forall a b, JS.value startTime = Some a -> JS.value endTime = Some b ->
                 (a <= b)%Q -> 0 <= JS.round_exact d) /\
    connectionHistory (service w') =
      lastn 100
        (connectionHistory (service w) ++
         [{| rec_timestamp := now (host w'); rec_isOnline := true;
             rec_responseTime := Some (JS.round_exact d);
             rec_endpoint := Some (name endpoint); rec_error := None |}]) /\
    status =
      {| st_isOnline := true; st_lastChecked := Some (now (host w'));
         st_responseTime := Some (JS.round_exact d);
         st_endpoint := Some (name endpoint); st_error := None |}.
Proof.
  intros G E Hb Hs w' status startTime endTime.
  subst endTime startTime w' status.
  rewrite (probe_lands rev endpoints fallbackEndpoints before after endpoint w
             G E Hb Hs).
  set (w0 := with_service (entered rev (service w)) w).
  set (w1 := attempt endpoint (attempt_all before w0)).
  assert (R : requests w1 =
              requests w ++
              map declared_request before ++ [declared_request endpoint]).
  { unfold w1. cbn [attempt requests]. rewrite requests_attempt_all.
    rewrite <- app_assoc, declared_request_code. f_equal. f_equal.
    apply map_ext. intros e. apply declared_request_code. }
  assert (C : currentEndpoint (service w1) = Some (name endpoint))
    by reflexivity.
  assert (S1 : connectionHistory (service w1) = connectionHistory (service w)).
  { unfold w1. cbn [attempt service set_currentEndpoint connectionHistory].
    apply (entered_attempt_all rev before w). }
  destruct (landed_effect rev endpoint (JS.reading (now (host w))) w1)
    as (Eh & _ & Er & Eo & _ & Et & Ec & _ & _ & _ & _ & Ehist & _ & _ & Es).
  rewrite Eh, Er, Eo, Ec, R, C.
  split; [reflexivity |]. split; [reflexivity |]. split; [reflexivity |].
  intros d Hd. rewrite Et, Ehist, Es, S1, (Math_round_Z_value _ _ Hd).
  split; [reflexivity |]. split.
  - intros a b Ha Hb' L. apply round_exact_nonneg.
    apply (sub_value_nonneg _ _ b a d Hb' Ha L Hd).
  - rewrite <- history_update_lastn. split; reflexivity.
Qed.

(** ** The event loop keeps invariants *)

Lemma until_await_perform {X A : Type} (op : Op X) (f : X -> Async A)
  (h : Host) (s : Service) :
  until_await (x <- perform op;; f x) h s =
  until_await (f (snd (effect op h s))) h (fst (effect op h s)).
Proof.
  cbn [perform bind until_await]. destruct (effect op h s). reflexivity.
Qed.

Lemma straight_until_await {A : Type} (p : Async A) (h : Host) (s : Service) :
  straight p ->
  until_await p h s =
  (service (fst (run p (around s h))), Finished (snd (run p (around s h)))).
Proof.
  revert s. induction p as [a | X op k IH | rq k IH]; intros s H.
  - reflexivity.
  - cbn [until_await run around service host network requests].
    destruct (effect op h s) as [s' x]. apply IH, H.
  - destruct H.
Qed.

(** [run] is the event loop with nothing in between: the code up to the
    next [await], then the answer of the network, and so on. *)
Lemma run_until_await {A : Type} (p : Async A) (w : World) :
  run p w =
  match until_await p (host w) (service w) with
  | (s, Finished a) => (with_service s w, a)
  | (s, Waiting rq k) =>
      let (r, dt) := settle rq (hd_error (network w)) in
      run (k r) {| service := s; host := later dt (host w);
                   network := tl (network w);
                   requests := requests w ++ [rq] |}
  end.
Proof.
  revert w. induction p as [a | X op k IH | rq k IH]; intros w.
  - destruct w; reflexivity.
  - cbn [run until_await]. destruct (effect op (host w) (service w)) as [s x].
    rewrite IH. cbn [host service network requests].
    destruct (until_await (k x) (host w) s) as [s' [a | rq k']]; reflexivity.
  - reflexivity.
Qed.

Section Kept.

Variable J : nat -> list ConnectivityStatus -> Service -> Prop.

Lemma keeps_perform {X : Type} (op : Op X)
  (f : X -> Async ConnectivityStatus) (h : Host) (n : nat)
  (res : list ConnectivityStatus) (s : Service) :
  keeps J (x <- perform op;; f x) h n res s <->
  keeps J (f (snd (effect op h s))) h n res (fst (effect op h s)).
Proof. reflexivity. Qed.

Lemma keeps_straight (p : Async ConnectivityStatus) (h : Host) (n : nat)
  (res : list ConnectivityStatus) (s : Service) :
  straight p ->
  J n (res ++ [snd (run p (around s h))])
      (service (fst (run p (around s h)))) ->
  keeps J p h n res s.
Proof.
  revert s. induction p as [a | X op k IH | rq k IH]; intros s H HJ.
  - exact HJ.
  - cbn [keeps]. apply IH; [apply H |].
    cbn [run around service host network requests] in HJ.
    destruct (effect op h s) as [s' x]. exact HJ.
  - destruct H.
Qed.

(** Running a piece of code on a page that is in order leaves a page in
    order. *)
Lemma resume_ok (pg : Page) (rest : list Task)
  (p : Async ConnectivityStatus) (h : Host) :
  Forall (task_ok J) rest ->
  keeps J p h (length rest) (resolved pg) (signals pg) ->
  page_ok J (resume pg rest p h).
Proof.
  intros Hrest. unfold resume.
  generalize (signals pg) as s.
  induction p as [a | X op k IH | rq k IH]; intros s Hk.
  - cbn [until_await]. split; [exact Hk | exact Hrest].
  - cbn [until_await]. cbn [keeps] in Hk.
    destruct (effect op h s) as [s' x]. apply IH. exact Hk.
  - cbn [until_await]. destruct Hk as [HJ Hk]. split.
    + cbn [waiting resolved signals]. rewrite length_app, Nat.add_comm.
      exact HJ.
    + cbn [waiting]. apply Forall_app. split; [exact Hrest |].
      constructor; [| constructor].
      intros r h' n' res' s' HJ'. apply Hk. exact HJ'.
Qed.

Lemma remove_nth_length {A : Type} (i : nat) (l : list A) (x : A) :
  nth_error l i = Some x -> length l = S (length (remove_nth i l)).
Proof.
  revert l. induction i as [| i IH]; intros [| y l] H; try discriminate H.
  - reflexivity.
  - cbn [nth_error] in H. apply IH in H. unfold remove_nth in *.
    cbn [firstn skipn app length] in *. now rewrite H.
Qed.

Lemma Forall_firstn_head {A : Type} (P : A -> Prop) (n : nat) (l : list A) :
  Forall P l -> Forall P (firstn n l).
Proof.
  revert l. induction n as [| n IH]; intros l H; [constructor |].
  destruct H; [constructor |]. cbn [firstn]. constructor; auto.
Qed.

Lemma remove_nth_Forall {A : Type} (P : A -> Prop) (i : nat) (l : list A) :
  Forall P l -> Forall P (remove_nth i l).
Proof.
  intros H. unfold remove_nth. apply Forall_app. split.
  - apply Forall_firstn_head. exact H.
  - apply Forall_skipn_tail. exact H.
Qed.

Variable checkConnectivity : Async ConnectivityStatus.

Hypothesis initially : forall onLine, J 0 [] (initial onLine).
Hypothesis browser_events : forall n res s b,
  J n res s -> J n res (set_isOnline b s).
Hypothesis call : forall h n res s,
  J n res s -> keeps J checkConnectivity h n res s.

Lemma step_ok (pg : Page) (e : Event) :
  page_ok J pg -> page_ok J (step checkConnectivity pg e).
Proof.
  intros [HJ Hw]. destruct e as [h | i r h | |]; cbn [step].
  - apply resume_ok; [exact Hw | apply call, HJ].
  - destruct (nth_error (waiting pg) i) as [[rq k] |] eqn:E;
      [| split; assumption].
    apply resume_ok.
    + apply remove_nth_Forall, Hw.
    + rewrite (remove_nth_length i _ _ E) in HJ.
      rewrite Forall_forall in Hw.
      apply (Hw (rq, k)); [eapply nth_error_In, E | exact HJ].
  - split; [apply browser_events, HJ | exact Hw].
  - split; [apply browser_events, HJ | exact Hw].
Qed.

Theorem reachable_ok (pg : Page) :
  reachable checkConnectivity pg -> page_ok J pg.
Proof.
  intros (onLine & events & ->). unfold play.
  assert (H0 : page_ok J (start onLine))
    by (split; [apply initially | constructor]).
  revert H0. generalize (start onLine) as pg0.
  induction events as [| e events IH]; intros pg0 H0; [exact H0 |].
  cbn [fold_left]. apply IH, step_ok, H0.
Qed.

End Kept.

(** ** Running extrema *)

Lemma min_update_min (x : Z) (l : list Z) :
  min_update x (extremum Z.min l) = extremum Z.min (l ++ [x]).
Proof.
  destruct l as [| y rest]; [reflexivity |].
  cbn [extremum app min_update]. rewrite fold_left_app. cbn [fold_left].
  destruct (Z.ltb_spec x (fold_left Z.min rest y)); f_equal; lia.
Qed.

Lemma max_update_max (x : Z) (l : list Z) :
  max_update x (extremum Z.max l) = extremum Z.max (l ++ [x]).
Proof.
  destruct l as [| y rest]; [reflexivity |].
  cbn [extremum app max_update]. rewrite fold_left_app. cbn [fold_left].
  rewrite Z.gtb_ltb.
  destruct (Z.ltb_spec (fold_left Z.max rest y) x); f_equal; lia.
Qed.

Lemma successful_times_snoc (res : list ConnectivityStatus)
  (status : ConnectivityStatus) :
  successful_times (res ++ [status]) =
  successful_times res ++
  (if st_isOnline status
   then match st_responseTime status with Some t => [t] | None => [] end
   else []).
Proof.
  unfold successful_times. rewrite flat_map_app. cbn [flat_map].
  rewrite app_nil_r. reflexivity.
Qed.

(** ** The code of each revision keeps its invariant *)

Lemma straight_landed (rev : Revision) (endpoint : ConnectivityEndpoint)
  (startTime : JS.number) : straight (landed rev endpoint startTime).
Proof. destruct rev; cbn; repeat intro; exact I. Qed.

Lemma straight_stranded (rev : Revision) : straight (stranded rev).
Proof. destruct rev; cbn; repeat intro; exact I. Qed.

Section Loop.

Variable J : nat -> list ConnectivityStatus -> Service -> Prop.

Hypothesis currentEndpoint_free : forall n res s v,
  J n res s -> J n res (set_currentEndpoint v s).

(** One turn of a loop, followed by whatever follows the loop. *)
Lemma keeps_check_then (endpoint : ConnectivityEndpoint)
  (hit miss : Async ConnectivityStatus)
  (f : ConnectivityStatus -> Async ConnectivityStatus)
  (h : Host) (n : nat) (res : list ConnectivityStatus) (s : Service) :
  J (S n) res s ->
  (forall h' n' res' s',
     J (S n') res' s' -> keeps J (bind hit f) h' n' res' s') ->
  (forall h' n' res' s',
     J (S n') res' s' -> keeps J (bind miss f) h' n' res' s') ->
  keeps J
    (bind (perform (Write (set_currentEndpoint (Some (name endpoint))));;
           response <- checkEndpoint endpoint;;
           match response with Some _ => hit | None => miss end) f)
    h n res s.
Proof.
  intros HJ Hhit Hmiss.
  cbn [bind perform checkEndpoint keeps effect fst snd]. split.
  - apply currentEndpoint_free, HJ.
  - intros r h' n' res' s' HJ'. destruct r as [response | reason].
    + cbn [bind]. destruct (accept endpoint response); auto.
    + cbn [bind]. auto.
Qed.

Lemma keeps_bind_Ret (p : Async ConnectivityStatus) (h : Host) (n : nat)
  (res : list ConnectivityStatus) (s : Service) :
  keeps J p h n res s -> keeps J (bind p Ret) h n res s.
Proof.
  revert h n res s.
  induction p as [a | X op k IH | rq k IH]; intros h n res s H.
  - exact H.
  - cbn [bind keeps] in *. apply IH, H.
  - cbn [bind keeps] in *. destruct H as [HJ H]. split; [exact HJ |].
    intros r h' n' res' s' HJ'. apply IH, H, HJ'.
Qed.

Lemma keeps_bind_Ret_inv (p : Async ConnectivityStatus) (h : Host) (n : nat)
  (res : list ConnectivityStatus) (s : Service) :
  keeps J (bind p Ret) h n res s -> keeps J p h n res s.
Proof.
  revert h n res s.
  induction p as [a | X op k IH | rq k IH]; intros h n res s H.
  - exact H.
  - cbn [bind keeps] in *. apply IH, H.
  - cbn [bind keeps] in *. destruct H as [HJ H]. split; [exact HJ |].
    intros r h' n' res' s' HJ'. apply IH, H, HJ'.
Qed.

Lemma keeps_for_endpoints (l : list ConnectivityEndpoint)
  (startTime : JS.number) :
  (forall endpoint h n res s,
     J (S n) res s -> keeps J (Plain.online endpoint startTime) h n res s) ->
  (forall h n res s, J (S n) res s -> keeps J Plain.offline h n res s) ->
  forall h n res s,
    J (S n) res s -> keeps J (Plain.for_endpoints l startTime) h n res s.
Proof.
  intros Hon Hoff. induction l as [| endpoint rest IH]; intros h n res s HJ.
  - apply Hoff, HJ.
  - apply keeps_bind_Ret_inv. cbn [Plain.for_endpoints].
    apply keeps_check_then; [exact HJ | |];
      intros h' n' res' s' HJ'; apply keeps_bind_Ret; auto.
Qed.

Lemma keeps_Fallback_tryEndpoints (l : list ConnectivityEndpoint)
  (startTime : JS.number) (f : ConnectivityStatus -> Async ConnectivityStatus) :
  (forall endpoint h n res s,
     J (S n) res s ->
     keeps J (bind (Fallback.online endpoint startTime) f) h n res s) ->
  (forall h n res s,
     J (S n) res s ->
     keeps J (f (Fallback.exhausted (now h))) h n res s) ->
  forall h n res s,
    J (S n) res s ->
    keeps J (bind (Fallback.tryEndpoints l startTime) f) h n res s.
Proof.
  intros Hon Hoff. induction l as [| endpoint rest IH]; intros h n res s HJ.
  - apply Hoff, HJ.
  - cbn [Fallback.tryEndpoints].
    apply keeps_check_then; auto.
Qed.

Lemma keeps_Guarded_tryEndpoints (l : list ConnectivityEndpoint)
  (startTime : JS.number) (f : ConnectivityStatus -> Async ConnectivityStatus) :
  (forall endpoint h n res s,
     J (S n) res s ->
     keeps J (bind (Guarded.online endpoint startTime) f) h n res s) ->
  (forall h n res s,
     J (S n) res s ->
     keeps J (f (Fallback.exhausted (now h))) h n res s) ->
  forall h n res s,
    J (S n) res s ->
    keeps J (bind (Guarded.tryEndpoints l startTime) f) h n res s.
Proof.
  intros Hon Hoff. induction l as [| endpoint rest IH]; intros h n res s HJ.
  - apply Hoff, HJ.
  - cbn [Guarded.tryEndpoints].
    apply keeps_check_then; auto.
Qed.

End Loop.

(** *** [Plain] *)

Lemma plain_inv_currentEndpoint n res s v :
  plain_inv n res s -> plain_inv n res (set_currentEndpoint v s).
Proof. exact (fun H => H). Qed.

Lemma plain_landed (endpoint : ConnectivityEndpoint) (startTime : JS.number)
  (h : Host) (n : nat) (res : list ConnectivityStatus) (s : Service) :
  plain_inv (S n) res s ->
  keeps plain_inv (landed plain endpoint startTime) h n res s.
Proof.
  intros (H1 & H2 & H3 & H4).
  apply keeps_straight; [apply straight_landed |].
  destruct (landed_effect plain endpoint startTime (around s h))
    as (_ & _ & _ & _ & _ & _ & _ & _ & _ & Et & Es & Eh & Emin & Emax & E).
  unfold plain_inv. rewrite Et, Es, Eh, Emin, Emax, E, successful_times_snoc.
  cbn [st_isOnline st_responseTime around service].
  rewrite H3, H4, min_update_min, max_update_max.
  repeat split; try reflexivity; [lia | apply history_update_length].
Qed.

Lemma plain_stranded (h : Host) (n : nat) (res : list ConnectivityStatus)
  (s : Service) :
  plain_inv (S n) res s -> keeps plain_inv (stranded plain) h n res s.
Proof.
  intros (H1 & H2 & H3 & H4).
  apply keeps_straight; [apply straight_stranded |].
  destruct (stranded_effect plain (around s h))
    as (_ & _ & _ & _ & _ & _ & _ & _ & _ & Et & Es & Eh & Emin & Emax & E).
  unfold plain_inv. rewrite Et, Es, Eh, Emin, Emax, E, successful_times_snoc.
  cbn [st_isOnline around service]. rewrite app_nil_r.
  repeat split; try assumption; [lia | apply history_update_length].
Qed.

Lemma plain_call (endpoints : list ConnectivityEndpoint) (h : Host) (n : nat)
  (res : list ConnectivityStatus) (s : Service) :
  plain_inv n res s ->
  keeps plain_inv (Plain.checkConnectivity endpoints) h n res s.
Proof.
  intros (H1 & H2 & H3 & H4). unfold Plain.checkConnectivity.
  rewrite !keeps_perform. cbn [effect fst snd].
  apply keeps_for_endpoints.
  - exact plain_inv_currentEndpoint.
  - intros. apply plain_landed. assumption.
  - intros. apply plain_stranded. assumption.
  - repeat split; try assumption.
    cbn [successfulChecks totalChecks set_totalChecks set_error
         set_isChecking]. lia.
Qed.

(** *** [Fallback] *)

Lemma fallback_inv_currentEndpoint n res s v :
  fallback_inv n res s -> fallback_inv n res (set_currentEndpoint v s).
Proof. exact (fun H => H). Qed.

Lemma fallback_landed (endpoint : ConnectivityEndpoint) (startTime : JS.number)
  (h : Host) (n : nat) (res : list ConnectivityStatus) (s : Service) :
  fallback_inv (S n) res s ->
  keeps fallback_inv (landed fallback endpoint startTime) h n res s.
Proof.
  intros (H1 & H2).
  apply keeps_straight; [apply straight_landed |].
  destruct (landed_effect fallback endpoint startTime (around s h))
    as (_ & _ & _ & _ & _ & _ & _ & _ & _ & Et & Es & Eh & _).
  unfold fallback_inv. rewrite Et, Es, Eh. cbn [around service].
  clear Et Es Eh.
  split; [lia | apply history_update_length].
Qed.

Lemma fallback_stranded (h : Host) (n : nat) (res : list ConnectivityStatus)
  (s : Service) :
  fallback_inv (S n) res s -> keeps fallback_inv (stranded fallback) h n res s.
Proof.
  intros (H1 & H2).
  apply keeps_straight; [apply straight_stranded |].
  destruct (stranded_effect fallback (around s h))
    as (_ & _ & _ & _ & _ & _ & _ & _ & _ & Et & Es & Eh & _).
  unfold fallback_inv. rewrite Et, Es, Eh. cbn [around service].
  clear Et Es Eh.
  split; [lia | apply history_update_length].
Qed.

Lemma fallback_call (endpoints fallbackEndpoints : list ConnectivityEndpoint)
  (h : Host) (n : nat) (res : list ConnectivityStatus) (s : Service) :
  fallback_inv n res s ->
  keeps fallback_inv (Fallback.checkConnectivity endpoints fallbackEndpoints)
        h n res s.
Proof.
  intros (H1 & H2). unfold Fallback.checkConnectivity.
  rewrite !keeps_perform. cbn [effect fst snd].
  apply keeps_Fallback_tryEndpoints.
  - exact fallback_inv_currentEndpoint.
  - intros e h' n' res' s' HJ.
    match goal with
    | |- keeps _ ?p _ _ _ _ =>
        replace p with (landed fallback e (JS.reading (now h)))
          by reflexivity
    end.
    apply fallback_landed, HJ.
  - intros h' n' res' s' HJ.
    cbn [Fallback.exhausted st_isOnline Fallback.shouldTryHttpFallback
         bind perform keeps effect fst snd].
    destruct (_ || _).
    + apply keeps_Fallback_tryEndpoints.
      * exact fallback_inv_currentEndpoint.
      * intros e h2 n2 res2 s2 HJ2.
        match goal with
        | |- keeps _ ?p _ _ _ _ =>
            replace p with (landed fallback e (JS.reading (now h)))
              by reflexivity
        end.
        apply fallback_landed, HJ2.
      * intros h2 n2 res2 s2 HJ2. apply fallback_stranded, HJ2.
      * exact HJ.
    + apply fallback_stranded, HJ.
  - split; [| exact H2].
    cbn [successfulChecks totalChecks set_totalChecks set_error
         set_isChecking]. lia.
Qed.

(** *** [Guarded] *)

Lemma guarded_inv_currentEndpoint n res s v :
  guarded_inv n res s -> guarded_inv n res (set_currentEndpoint v s).
Proof. exact (fun H => H). Qed.

Lemma guarded_landed (endpoint : ConnectivityEndpoint) (startTime : JS.number)
  (h : Host) (n : nat) (res : list ConnectivityStatus) (s : Service) :
  guarded_inv (S n) res s ->
  keeps guarded_inv (landed guarded endpoint startTime) h n res s.
Proof.
  intros (H0 & H1 & H2 & H3).
  apply keeps_straight; [apply straight_landed |].
  destruct (landed_effect guarded endpoint startTime (around s h))
    as (_ & _ & _ & _ & _ & _ & _ & _ & Ec & Et & Es & Eh & _).
  unfold guarded_inv. rewrite Ec, Et, Es, Eh. cbn [around service].
  clear Ec Et Es Eh.
  repeat split; try lia; try discriminate; apply history_update_length.
Qed.

Lemma guarded_stranded (h : Host) (n : nat) (res : list ConnectivityStatus)
  (s : Service) :
  guarded_inv (S n) res s -> keeps guarded_inv (stranded guarded) h n res s.
Proof.
  intros (H0 & H1 & H2 & H3).
  apply keeps_straight; [apply straight_stranded |].
  destruct (stranded_effect guarded (around s h))
    as (_ & _ & _ & _ & _ & _ & _ & _ & Ec & Et & Es & Eh & _).
  unfold guarded_inv. rewrite Ec, Et, Es, Eh. cbn [around service].
  clear Ec Et Es Eh.
  repeat split; try lia; try discriminate; apply history_update_length.
Qed.

Lemma guarded_call (endpoints fallbackEndpoints : list ConnectivityEndpoint)
  (h : Host) (n : nat) (res : list ConnectivityStatus) (s : Service) :
  guarded_inv n res s ->
  keeps guarded_inv (Guarded.checkConnectivity endpoints fallbackEndpoints)
        h n res s.
Proof.
  intros HJ0. unfold Guarded.checkConnectivity.
  rewrite keeps_perform. cbn [effect fst snd].
  destruct (isChecking s) eqn:C.
  - exact HJ0.
  - destruct HJ0 as (H0 & H1 & H2 & H3). rewrite C in H1.
    assert (n = 0%nat) as ->.
    { destruct n as [| [| n]]; [reflexivity | | lia].
      destruct H1 as [_ H1]. discriminate (H1 eq_refl). }
    rewrite !keeps_perform. cbn [effect fst snd].
    assert (HJ : guarded_inv 1 res
                   (set_error None (set_isChecking true s))).
    { repeat split; try assumption; lia. }
    revert HJ. generalize (set_error None (set_isChecking true s)) as s1.
    intros s1 HJ.
    apply keeps_Guarded_tryEndpoints.
    + exact guarded_inv_currentEndpoint.
    + intros e h' n' res' s' HJ'.
      match goal with
      | |- keeps _ ?p _ _ _ _ =>
          replace p with (landed guarded e (JS.reading (now h)))
            by reflexivity
      end.
      apply guarded_landed, HJ'.
    + intros h' n' res' s' HJ'.
      cbn [Fallback.exhausted st_isOnline Guarded.shouldTryHttpFallback
           bind perform keeps effect fst snd].
      destruct (_ || _).
      * apply keeps_Guarded_tryEndpoints.
        -- exact guarded_inv_currentEndpoint.
        -- intros e h2 n2 res2 s2 HJ2.
           match goal with
           | |- keeps _ ?p _ _ _ _ =>
               replace p with (landed guarded e (JS.reading (now h)))
                 by reflexivity
           end.
           apply guarded_landed, HJ2.
        -- intros h2 n2 res2 s2 HJ2. apply guarded_stranded, HJ2.
        -- exact HJ'.
      * apply guarded_stranded, HJ'.
    + exact HJ.
Qed.

(** ** Reachable pages *)

Lemma plain_reachable (endpoints : list ConnectivityEndpoint) (pg : Page) :
  reachable (Plain.checkConnectivity endpoints) pg -> page_ok plain_inv pg.
Proof.
  apply reachable_ok.
  - intros onLine. repeat split; cbn; lia.
  - intros n res s b H. exact H.
  - intros h n res s H. apply plain_call, H.
Qed.

Lemma fallback_reachable (endpoints fallbackEndpoints : list ConnectivityEndpoint)
  (pg : Page) :
  reachable (Fallback.checkConnectivity endpoints fallbackEndpoints) pg ->
  page_ok fallback_inv pg.
Proof.
  apply reachable_ok.
  - intros onLine. repeat split; cbn; lia.
  - intros n res s b H. exact H.
  - intros h n res s H. apply fallback_call, H.
Qed.

Lemma guarded_reachable (endpoints fallbackEndpoints : list ConnectivityEndpoint)
  (pg : Page) :
  reachable (Guarded.checkConnectivity endpoints fallbackEndpoints) pg ->
  page_ok guarded_inv pg.
Proof.
  apply reachable_ok.
  - intros onLine. repeat split; cbn; try lia; discriminate.
  - intros n res s b H. exact H.
  - intros h n res s H. apply guarded_call, H.
Qed.

Lemma reachable_counters (rev : Revision)
  (endpoints fallbackEndpoints : list ConnectivityEndpoint) (pg : Page) :
  reachable (probe rev endpoints fallbackEndpoints) pg ->
  successfulChecks (signals pg) <= totalChecks (signals pg) /\
  (length (connectionHistory (signals pg)) <= 100)%nat.
Proof.
  intros H. destruct rev; cbn [probe] in H.
  - apply plain_reachable in H. destruct H as [(H1 & H2 & _) _].
    split; [lia | exact H2].
  - apply fallback_reachable in H. destruct H as [(H1 & H2) _].
    split; [lia | exact H2].
  - apply guarded_reachable in H. destruct H as [(_ & _ & H1 & H2) _].
    split; [lia | exact H2].
Qed.

(** ** Counting checks *)

(** C2. A probe that runs (in the guarded revision: one that is not
    skipped) raises [totalChecks] by exactly one.  It raises
    [successfulChecks] by one when one of its eligible endpoints succeeds
    after those before it have thrown, and leaves it as it was when every
    eligible endpoint throws.  In every page the event loop can reach,
    whatever the calls, answers and browser events and however they
    interleave, [successfulChecks] is at most [totalChecks]. *)
Theorem checks_counted (rev : Revision)
  (endpoints fallbackEndpoints : list ConnectivityEndpoint)
  (w : World) (pg : Page) :
  (rev = guarded -> isChecking (service w) = false) ->
  reachable (probe rev endpoints fallbackEndpoints) pg ->
  let l := eligible rev endpoints fallbackEndpoints (location (host w)) in
  let w' := fst (run (probe rev endpoints fallbackEndpoints) w) in
  totalChecks (service w') = totalChecks (service w) + 1 /\
  (forall before endpoint after,
     l = before ++ endpoint :: after ->
     all_throw before (network w) ->
     succeeds endpoint (nth_error (network w) (length before)) ->
     successfulChecks (service w') = successfulChecks (service w) + 1) /\
  (all_throw l (network w) ->
   successfulChecks (service w') = successfulChecks (service w)) /\
  successfulChecks (signals pg) <= totalChecks (signals pg).
Proof.
  intros G R l w'. subst w'.
  set (w0 := with_service (entered rev (service w)) w).
  split; [| split; [| split; [| apply (reachable_counters _ _ _ _ R)]]].
  - rewrite (run_probe rev endpoints fallbackEndpoints w G). fold l w0.
    destruct (first_reached l w0) as [w1 [e |]] eqn:F1.
    + apply first_reached_some in F1.
      destruct F1 as (before & after & _ & _ & _ & ->).
      destruct (landed_effect rev e (JS.reading (now (host w)))
                  (attempt e (attempt_all before w0)))
        as (_ & _ & _ & _ & _ & _ & _ & _ & _ & Et & _).
      rewrite Et. cbn [attempt service set_currentEndpoint totalChecks].
      destruct (entered_attempt_all rev before w) as (_ & _ & Et0 & _).
      fold w0 in Et0. rewrite Et0. destruct rev; reflexivity.
    + apply first_reached_none in F1. destruct F1 as [_ ->].
      destruct (stranded_effect rev (attempt_all l w0))
        as (_ & _ & _ & _ & _ & _ & _ & _ & _ & Et & _).
      rewrite Et.
      destruct (entered_attempt_all rev l w) as (_ & _ & Et0 & _).
      fold w0 in Et0. rewrite Et0. destruct rev; reflexivity.
  - intros before endpoint after E Hb Hs.
    rewrite (probe_lands rev endpoints fallbackEndpoints before after
               endpoint w G E Hb Hs). fold w0.
    destruct (landed_effect rev endpoint (JS.reading (now (host w)))
                (attempt endpoint (attempt_all before w0)))
      as (_ & _ & _ & _ & _ & _ & _ & _ & _ & _ & Es & _).
    rewrite Es.
    cbn [attempt service set_currentEndpoint successfulChecks].
    destruct (entered_attempt_all rev before w) as (_ & _ & _ & Es0 & _).
    fold w0 in Es0. rewrite Es0. reflexivity.
  - intros H.
    rewrite (probe_strands rev endpoints fallbackEndpoints w G H). fold l w0.
    destruct (stranded_effect rev (attempt_all l w0))
      as (_ & _ & _ & _ & _ & _ & _ & _ & _ & _ & Es & _).
    rewrite Es.
    destruct (entered_attempt_all rev l w) as (_ & _ & _ & Es0 & _).
    fold w0 in Es0. exact Es0.
Qed.

(** ** The bounded history *)


(** ** Lifetime extrema *)

(** C8. In every reachable page of the service, [minResponseTime] and
    [maxResponseTime] are the least and the greatest response time over
    all successful probes that ever returned, [null] before the first:
    they are updated with every success and never read from the history,
    so records leaving the history do not touch them. *)
Theorem extrema_lifetime (endpoints : list ConnectivityEndpoint) (pg : Page) :
  reachable (Plain.checkConnectivity endpoints) pg ->
  minResponseTime (signals pg) =
    extremum Z.min (successful_times (resolved pg)) /\
  maxResponseTime (signals pg) =
    extremum Z.max (successful_times (resolved pg)).
Proof.
  intros R. apply plain_reachable in R. destruct R as [(_ & _ & H3 & H4) _].
  split; assumption.
Qed.

(** ** The fallback list *)

Lemma requests_probe (rev : Revision)
  (endpoints fallbackEndpoints : list ConnectivityEndpoint) (w : World) :
  (rev = guarded -> isChecking (service w) = false) ->
  requests (fst (run (probe rev endpoints fallbackEndpoints) w)) =
  requests w ++
  asked (eligible rev endpoints fallbackEndpoints (location (host w)))
        (network w).
Proof.
  intros G. rewrite (run_probe rev endpoints fallbackEndpoints w G).
  set (l := eligible rev endpoints fallbackEndpoints (location (host w))).
  set (w0 := with_service (entered rev (service w)) w).
  pose proof (requests_first_reached l w0) as R.
  destruct (first_reached l w0) as [w1 [e |]]; cbn [fst] in R.
  - destruct (landed_effect rev e (JS.reading (now (host w))) w1)
      as (_ & _ & Er & _).
    rewrite Er, R. reflexivity.
  - destruct (stranded_effect rev w1) as (_ & _ & Er & _).
    rewrite Er, R. reflexivity.
Qed.

(** C9. In the revisions with a fallback list, the requests of a probe
    are those of the loop over the primary list, followed by those of the
    loop over the fallback list exactly when every primary endpoint has
    failed and the page is served over plain HTTP or from localhost, and
    by nothing otherwise.  The policy itself is read off [window.location]:
    its code has no [fetch] in it and leaves the world as it is. *)
Theorem fallback_policy (rev : Revision)
  (endpoints fallbackEndpoints : list ConnectivityEndpoint) (w : World) :
  rev <> plain ->
  (rev = guarded -> isChecking (service w) = false) ->
  let w' := fst (run (probe rev endpoints fallbackEndpoints) w) in
  let primary_failed := all_fail endpoints (network w) in
  let policy := http_or_localhost (location (host w)) in
  requests w' =
    requests w ++ asked endpoints (network w) ++
    (if primary_failed && policy
     then asked fallbackEndpoints (skipn (length endpoints) (network w))
     else []) /\
  straight Fallback.shouldTryHttpFallback /\
  straight Guarded.shouldTryHttpFallback /\
  run Fallback.shouldTryHttpFallback w = (with_service (service w) w, policy) /\
  run Guarded.shouldTryHttpFallback w = (with_service (service w) w, policy).
Proof.
  intros NP G w' primary_failed policy. subst w' primary_failed policy.
  split; [| repeat split; cbn; intros; exact I].
  rewrite (requests_probe rev endpoints fallbackEndpoints w G). f_equal.
  assert (E : eligible rev endpoints fallbackEndpoints (location (host w)) =
              if http_or_localhost (location (host w))
              then endpoints ++ fallbackEndpoints else endpoints)
    by (destruct rev; [contradiction NP |..]; reflexivity).
  rewrite E. destruct (http_or_localhost (location (host w))).
  - rewrite asked_app, andb_true_r. reflexivity.
  - rewrite andb_false_r, app_nil_r. reflexivity.
Qed.

(** ** The endpoint shown after a failure *)

Lemma last_name_rev (l : list ConnectivityEndpoint) (prior : option string) :
  last_name l prior =
  match List.rev l with
  | endpoint :: _ => Some (name endpoint)
  | [] => prior
  end.
Proof.
  destruct l as [| e l] using rev_ind; [reflexivity |].
  unfold last_name. rewrite fold_left_app, rev_app_distr. reflexivity.
Qed.

(** C10. The failure path does not reset [currentEndpoint]: after a probe
    in which every endpoint failed, [isOnline] is false while
    [currentEndpoint] still names the last endpoint tried (it keeps its
    earlier value when there was none to try), although the record added
    to the history has no endpoint. *)
Theorem failure_keeps_currentEndpoint (rev : Revision)
  (endpoints fallbackEndpoints : list ConnectivityEndpoint) (w : World) :
  (rev = guarded -> isChecking (service w) = false) ->
  all_fail (eligible rev endpoints fallbackEndpoints (location (host w)))
           (network w) = true ->
  let w' := fst (run (probe rev endpoints fallbackEndpoints) w) in
  isOnline (service w') = false /\
  currentEndpoint (service w') =
    match List.rev (eligible rev endpoints fallbackEndpoints
                      (location (host w))) with
    | endpoint :: _ => Some (name endpoint)
    | [] => currentEndpoint (service w)
    end /\
  exists record,
    connectionHistory (service w') =
      history_update record (connectionHistory (service w)) /\
    rec_isOnline record = false /\ rec_endpoint record = None.
Proof.
  intros G H w'. subst w'.
  rewrite (run_probe rev endpoints fallbackEndpoints w G).
  rewrite first_reached_all_fail by exact H.
  set (l := eligible rev endpoints fallbackEndpoints (location (host w))).
  set (w0 := with_service (entered rev (service w)) w).
  destruct (stranded_effect rev (attempt_all l w0))
    as (_ & _ & _ & Eo & _ & _ & Ec & _ & _ & _ & _ & Eh & _).
  destruct (entered_attempt_all rev l w) as (_ & Ec0 & _ & _ & Eh0 & _).
  fold w0 in Ec0, Eh0.
  rewrite Eo, Ec, Ec0, Eh, Eh0, last_name_rev.
  split; [reflexivity | split; [reflexivity |]].
  eexists. split; [reflexivity | split; reflexivity].
Qed.

(** ** Calls while a probe is in flight *)

Lemma guard_skips (endpoints fallbackEndpoints : list ConnectivityEndpoint)
  (pg : Page) (h : Host) :
  isChecking (signals pg) = true ->
  step (Guarded.checkConnectivity endpoints fallbackEndpoints) pg (Call h) =
  {| signals := signals pg; waiting := waiting pg;
     resolved := resolved pg ++ [Guarded.in_flight (signals pg)] |}.
Proof.
  intros C. cbn [step]. unfold resume, Guarded.checkConnectivity.
  rewrite until_await_perform. cbn [effect fst snd]. rewrite C. reflexivity.
Qed.

Lemma guarded_one_at_a_time
  (endpoints fallbackEndpoints : list ConnectivityEndpoint) (pg : Page) :
  reachable (Guarded.checkConnectivity endpoints fallbackEndpoints) pg ->
  (length (waiting pg) <= 1)%nat /\
  (isChecking (signals pg) = true <-> length (waiting pg) = 1%nat).
Proof.
  intros R. apply guarded_reachable in R.
  destruct R as [(H0 & H1 & _) _]. split; assumption.
Qed.

(** C1. [src/app/services/connectivity.service.ts] has no guard: a call
    made while a probe is in flight ([isChecking] true, one request
    pending) raises [totalChecks] from 1 to 2 and sends a second request
    to the first endpoint beside the pending one; once both are answered
    the history holds two records.  The guarded revision skips such a
    call ([guard_skips], [guarded_one_at_a_time]). *)
Theorem plain_second_call_is_counted :
  let checkConnectivity := Plain.checkConnectivity Plain.endpoints in
  let pg1 := play checkConnectivity [Call (https_page 0)] (start true) in
  let pg2 := step checkConnectivity pg1 (Call (https_page 10)) in
  let pg3 :=
    play checkConnectivity
      [Settle 0 (Fulfilled opaque_response) (https_page 40);
       Settle 0 (Fulfilled opaque_response) (https_page 50)] pg2 in
  isChecking (signals pg1) = true /\
  totalChecks (signals pg1) = 1 /\
  map fst (waiting pg1) = [{| req_url := "http://google.com/generate_204";
        req_abortAfter := 3000 |}] /\
  totalChecks (signals pg2) = 2 /\
  map fst (waiting pg2) =
    [{| req_url := "http://google.com/generate_204";
        req_abortAfter := 3000 |};
     {| req_url := "http://google.com/generate_204";
        req_abortAfter := 3000 |}] /\
  waiting pg3 = [] /\
  totalChecks (signals pg3) = 2 /\
  successfulChecks (signals pg3) = 2 /\
  map rec_responseTime (connectionHistory (signals pg3)) = [Some 40; Some 40].
Proof. vm_compute. repeat split. Qed.

(** ** The percentages *)

Lemma uptimePercentage_successRate (s : Service) :
  uptimePercentage s = successRate s.
Proof. reflexivity. Qed.

Lemma uptimePercentage_no_checks (s : Service) :
  totalChecks s <= 0 -> uptimePercentage s = Some 0.
Proof.
  intros H. unfold uptimePercentage.
  destruct (Z.gtb_spec (totalChecks s) 0); [lia | reflexivity].
Qed.

(** Below forty checks the binary64 computation and exact arithmetic
    agree. *)
Lemma uptimePercentage_exact_below_40 (s : Service) :
  0 <= successfulChecks s <= totalChecks s -> totalChecks s < 40 ->
  uptimePercentage s =
  Some (exact_percentage (successfulChecks s) (totalChecks s)).
Proof.
  intros Hs Ht.
  assert (A : forallb (fun t =>
                forallb (fun k => agree (Z.of_nat k) (Z.of_nat t))
                        (seq 0 (S t))) (seq 0 40) = true)
    by (vm_compute; reflexivity).
  rewrite forallb_forall in A.
  specialize (A (Z.to_nat (totalChecks s))).
  rewrite forallb_forall in A.
  specialize (fun H => A H (Z.to_nat (successfulChecks s))).
  rewrite !in_seq, !Z2Nat.id in A by lia.
  unfold agree in A. cbn [counting totalChecks successfulChecks
    set_totalChecks set_successfulChecks] in A.
  assert (E : uptimePercentage s =
              uptimePercentage (counting (successfulChecks s)
                                           (totalChecks s)))
    by reflexivity.
  rewrite E.
  destruct (uptimePercentage _) as [p |]; [| discriminate A; lia].
  f_equal. apply Z.eqb_eq, A; lia.
Qed.

(** C6. After forty probes of which twenty-three succeeded (a reachable
    state), [uptimePercentage] and [successRate] are both 57, while 100 *
    23 / 40 = 57.5 rounds to 58: in binary64, (23 / 40) * 100 is
    57.49999999999999. *)
Theorem uptime_tie_rounds_down :
  let s := signals (play (Plain.checkConnectivity Plain.endpoints)
                         forty_probes (start true)) in
  totalChecks s = 40 /\
  successfulChecks s = 23 /\
  uptimePercentage s = Some 57 /\
  successRate s = Some 57 /\
  exact_percentage (successfulChecks s) (totalChecks s) = 58.
Proof. vm_compute. repeat split. Qed.

(** ** The average response time *)

Lemma averageResponseTime_none_online (s : Service) :
  (forall r, In r (connectionHistory s) -> rec_isOnline r = false) ->
  averageResponseTime s = Some 0.
Proof.
  intros H. unfold averageResponseTime.
  replace (filter _ (connectionHistory s)) with (@nil ConnectionRecord);
    [reflexivity |].
  symmetry. induction (connectionHistory s) as [| r l IH]; [reflexivity |].
  cbn [filter]. rewrite (H r) by (left; reflexivity). cbn [andb].
  apply IH. intros r' Hr. apply H. right. exact Hr.
Qed.

Example averageResponseTime_100_200_300 :
  let s := signals (play (Plain.checkConnectivity Plain.endpoints)
                         three_probes (start true)) in
  map rec_responseTime (connectionHistory s) = [Some 100; Some 200; Some 300]
  /\ averageResponseTime s = Some 200
  /\ mean_of_successful (connectionHistory s) = 200.
Proof. vm_compute. repeat split. Qed.

(** C7. With two successful records in the history, one with a response
    time of 0 ms (an answer within half a millisecond) and one of 100 ms,
    [averageResponseTime] is 100 and not their mean 50: the filter
    [r.isOnline && r.responseTime] drops the record whose response time
    is 0. *)
Theorem average_skips_zero_response_time :
  let s := signals (play (Plain.checkConnectivity Plain.endpoints)
                         quick_then_slow (start true)) in
  map rec_isOnline (connectionHistory s) = [true; true] /\
  map rec_responseTime (connectionHistory s) = [Some 0; Some 100] /\
  averageResponseTime s = Some 100 /\
  mean_of_successful (connectionHistory s) = 50.
Proof. vm_compute. repeat split. Qed.

(** ** The extrema of the example *)

Example extrema_50_200_30 :
  let pg := play (Plain.checkConnectivity Plain.endpoints)
                 fifty_two_hundred_thirty (start true) in
  successful_times (resolved pg) = [50; 200; 30] /\
  minResponseTime (signals pg) = Some 30 /\
  maxResponseTime (signals pg) = Some 200.
Proof. vm_compute. repeat split. Qed.

Example extrema_outlive_history :
  let pg := play (Plain.checkConnectivity Plain.endpoints)
                 one_fast_then_hundred (start true) in
  map rec_responseTime (connectionHistory (signals pg)) =
    repeat (Some 50) 100 /\
  successful_times (resolved pg) = 30 :: repeat 50 100 /\
  minResponseTime (signals pg) = Some 30 /\
  maxResponseTime (signals pg) = Some 50.
Proof. vm_compute. repeat split. Qed.

(** ** The theorems at work *)

(** How the example attempts fare against the endpoints of the service. *)
Lemma silence_throws (endpoint : ConnectivityEndpoint) :
  In endpoint Plain.endpoints -> throws endpoint (Some silence).
Proof.
  intros H. left.
  repeat (destruct H as [<- | H]; [vm_compute; discriminate |]).
  contradiction.
Qed.

Lemma refuses_throws (ms : Q) (endpoint : ConnectivityEndpoint) :
  In endpoint Plain.endpoints -> throws endpoint (Some (refuses ms)).
Proof.
  intros H. right. right. exists server_error.
  split; [reflexivity |]. split; [discriminate |].
  repeat (destruct H as [<- | H];
          [cbn; intros F; repeat (destruct F as [F | F]; try discriminate F);
           contradiction |]).
  contradiction.
Qed.

Lemma breaks_throws (ms : Q) (endpoint : ConnectivityEndpoint) :
  throws endpoint (Some (breaks ms)).
Proof. right. left. reflexivity. Qed.

Lemma four_failures_throw : all_throw Plain.endpoints four_failures.
Proof.
  repeat split.
  - apply silence_throws. left. reflexivity.
  - apply refuses_throws. right. left. reflexivity.
  - apply breaks_throws.
Qed.

Lemma two_throw_before_the_third :
  all_throw (firstn 2 Plain.endpoints) third_time_lucky.
Proof.
  repeat split.
  - apply silence_throws. left. reflexivity.
  - apply refuses_throws. right. left. reflexivity.
Qed.

Lemma third_succeeds :
  succeeds (nth 2 Plain.endpoints
              (Build_ConnectivityEndpoint EmptyString EmptyString [] None))
           (nth_error third_time_lucky 2).
Proof.
  exists (answers 40), no_content. split; [reflexivity |].
  split; [vm_compute; reflexivity |]. split; [reflexivity |].
  right. right. left. reflexivity.
Qed.

(** A probe whose third endpoint answers, a probe that reaches nothing,
    and two calls in a row on the four-endpoint list. *)
Lemma checks_counted_witness :
  let lucky := fst (run (probe plain Plain.endpoints [])
                        (fresh (https_page 0) third_time_lucky)) in
  let unlucky := fst (run (probe plain Plain.endpoints [])
                          (fresh (https_page 0) four_failures)) in
  let pg := play (Plain.checkConnectivity Plain.endpoints) two_calls
                 (start true) in
  (totalChecks (service lucky) = 1 /\ successfulChecks (service lucky) = 1) /\
  (totalChecks (service unlucky) = 1 /\
   successfulChecks (service unlucky) = 0) /\
  successfulChecks (signals pg) <= totalChecks (signals pg).
Proof.
  intros lucky unlucky pg.
  assert (R : reachable (probe plain Plain.endpoints []) pg)
    by (exists true, two_calls; reflexivity).
  split; [| split].
  - destruct (checks_counted plain Plain.endpoints []
                (fresh (https_page 0) third_time_lucky) pg)
      as (H1 & H2 & _); [discriminate | exact R |].
    split; [exact H1 |].
    apply (H2 (firstn 2 Plain.endpoints)
              (nth 2 Plain.endpoints
                 (Build_ConnectivityEndpoint EmptyString EmptyString [] None))
              (skipn 3 Plain.endpoints)).
    + reflexivity.
    + exact two_throw_before_the_third.
    + exact third_succeeds.
  - destruct (checks_counted plain Plain.endpoints []
                (fresh (https_page 0) four_failures) pg)
      as (H1 & _ & H3 & _); [discriminate | exact R |].
    split; [exact H1 | exact (H3 four_failures_throw)].
  - destruct (checks_counted plain Plain.endpoints []
                (fresh (https_page 0) four_failures) pg)
      as (_ & _ & _ & H4); [discriminate | exact R |].
    exact H4.
Defined.


(** A timeout, a refusal, a broken connection and silence. *)
Lemma all_endpoints_failed_witness :
  let w := fresh (https_page 0) four_failures in
  let w' := fst (run (probe plain Plain.endpoints []) w) in
  isOnline (service w') = false /\
  error (service w') = Some "All connectivity endpoints failed"%string /\
  connectionHistory (service w') =
    [{| rec_timestamp := now (host w'); rec_isOnline := false;
        rec_responseTime := None; rec_endpoint := None;
        rec_error := Some "All connectivity endpoints failed"%string |}] /\
  totalChecks (service w') = 1 /\
  successfulChecks (service w') = 0 /\
  isChecking (service w') = false.
Proof.
  intros w w'.
  destruct (all_endpoints_failed plain Plain.endpoints [] w)
    as (H1 & _ & _ & H4 & H5 & H6 & H7 & H8 & _).
  - discriminate.
  - exact four_failures_throw.
  - fold w' in H1, H4, H5, H6, H7, H8.
    split; [exact H1 |]. split; [exact H4 |]. split; [exact H5 |].
    split; [exact H6 |]. split; [exact H7 | exact H8].
Defined.

(** The first endpoint times out, the second answers 500 and the third
    returns 204 after 40 ms. *)
Lemma first_success_wins_witness :
  let w := fresh (https_page 0) third_time_lucky in
  let w' := fst (run (probe plain Plain.endpoints []) w) in
  map req_url (requests w') =
    ["http://google.com/generate_204"%string;
     "http://cp.cloudflare.com/generate_204"%string;
     "http://edge-http.microsoft.com/captiveportal/generate_204"%string] /\
  isOnline (service w') = true /\
  currentEndpoint (service w') = Some "Microsoft"%string /\
  responseTime (service w') = Some 3050 /\
  0 <= 3050 /\
  map rec_isOnline (connectionHistory (service w')) = [true].
Proof.
  intros w w'.
  destruct (first_success_wins plain Plain.endpoints []
              (firstn 2 Plain.endpoints) (skipn 3 Plain.endpoints)
              (nth 2 Plain.endpoints (Build_ConnectivityEndpoint
                 EmptyString EmptyString [] None)) w)
    as (H1 & H2 & H3 & H4).
  - discriminate.
  - reflexivity.
  - exact two_throw_before_the_third.
  - exact third_succeeds.
  - fold w' in H1, H2, H3, H4.
    assert (D : exists d,
              JS.value (JSMath.sub (JS.reading (now (host w')))
                                   (JS.reading (now (host w)))) = Some d /\
              JS.round_exact d = 3050)
      by (eexists; split; vm_compute; reflexivity).
    destruct D as (d & Hd & Hr).
    destruct (H4 d Hd) as (T & P & Hh & _). rewrite Hr in T, P, Hh.
    split; [rewrite H1; reflexivity |]. split; [exact H2 |].
    split; [exact H3 |]. split; [exact T |]. split.
    + eapply P; [vm_compute; reflexivity | vm_compute; reflexivity |].
      vm_compute. discriminate.
    + rewrite Hh. reflexivity.
Defined.

(** Three probes answered in 50, 200 and 30 ms. *)
Lemma extrema_lifetime_witness :
  let pg := play (Plain.checkConnectivity Plain.endpoints)
                 fifty_two_hundred_thirty (start true) in
  minResponseTime (signals pg) = Some 30 /\
  maxResponseTime (signals pg) = Some 200.
Proof.
  intros pg.
  destruct (extrema_lifetime Plain.endpoints pg) as (H1 & H2).
  - exists true, fifty_two_hundred_thirty. reflexivity.
  - rewrite H1, H2. vm_compute. split; reflexivity.
Defined.

(** From localhost with a silent network, both lists are gone through;
    from an HTTPS page, only the primary one. *)
Lemma fallback_policy_witness :
  length (requests (fst (run (probe fallback Fallback.endpoints
                                    Fallback.fallbackEndpoints)
                             (fresh (localhost_page 0) [])))) = 12%nat /\
  length (requests (fst (run (probe fallback Fallback.endpoints
                                    Fallback.fallbackEndpoints)
                             (fresh (https_page 0) [])))) = 6%nat.
Proof.
  split.
  - destruct (fallback_policy fallback Fallback.endpoints
                Fallback.fallbackEndpoints (fresh (localhost_page 0) []))
      as (H & _).
    + discriminate.
    + discriminate.
    + rewrite H. vm_compute. reflexivity.
  - destruct (fallback_policy fallback Fallback.endpoints
                Fallback.fallbackEndpoints (fresh (https_page 0) []))
      as (H & _).
    + discriminate.
    + discriminate.
    + rewrite H. vm_compute. reflexivity.
Defined.

(** No endpoint of the four answers: the signal still names the last. *)
Lemma failure_keeps_currentEndpoint_witness :
  let w' := fst (run (probe plain Plain.endpoints [])
                     (fresh (https_page 0) [])) in
  isOnline (service w') = false /\
  currentEndpoint (service w') = Some "Ubuntu"%string /\
  map rec_endpoint (connectionHistory (service w')) = [None].
Proof.
  intros w'.
  destruct (failure_keeps_currentEndpoint plain Plain.endpoints []
              (fresh (https_page 0) []))
    as (H1 & H2 & record & H3 & _ & H4).
  - discriminate.
  - vm_compute. reflexivity.
  - fold w' in H1, H2, H3. rewrite H3.
    repeat split; try assumption.
    cbn [fresh service initial connectionHistory].
    rewrite history_update_room by (cbn; lia).
    cbn [app map]. rewrite H4. reflexivity.
Defined.

(** * Further properties of the service and of the component *)

(** ** The recent history *)

Lemma slice_last (n : positive) {A : Type} (l : list A) :
  JS.slice (Z.neg n) l = lastn (Pos.to_nat n) l.
Proof.
  unfold JS.slice, lastn. cbn [Z.ltb Z.compare]. f_equal. lia.
Qed.

Lemma lastn_length {A : Type} (n : nat) (l : list A) :
  length (lastn n l) = Nat.min n (length l).
Proof. unfold lastn. rewrite length_skipn. lia. Qed.

Lemma lastn_nth_error {A : Type} (n : nat) (l : list A) (i : nat) :
  nth_error (lastn n l) i = nth_error l (length l - n + i).
Proof. unfold lastn. apply nth_error_skipn. Qed.

(** X1. [getRecentHistory] returns the ten most recent records, or all
    of them when there are fewer, the most recent first: its entry [i] is
    the record [i] places before the end of the history. *)
Theorem getRecentHistory_newest_first (s : Service) (i : nat) :
  (i < Nat.min 10 (length (connectionHistory s)))%nat ->
  length (getRecentHistory s) = Nat.min 10 (length (connectionHistory s)) /\
  nth_error (getRecentHistory s) i =
    nth_error (connectionHistory s) (length (connectionHistory s) - 1 - i).
Proof.
  intros Hi. unfold getRecentHistory.
  change (-10) with (Z.neg 10). rewrite slice_last.
  change (Pos.to_nat 10) with 10%nat.
  rewrite length_rev, lastn_length. split; [reflexivity |].
  rewrite nth_error_rev, lastn_length.
  destruct (Nat.ltb_spec i (Nat.min 10 (length (connectionHistory s))));
    [| lia].
  rewrite lastn_nth_error. f_equal. lia.
Qed.

Lemma getRecentHistory_newest_first_witness :
  let s := signals (play (Plain.checkConnectivity Plain.endpoints)
                         three_probes (start true)) in
  option_map rec_responseTime (nth_error (getRecentHistory s) 0) =
    Some (Some 300).
Proof.
  intros s.
  destruct (getRecentHistory_newest_first s 0) as (_ & H).
  - vm_compute. lia.
  - rewrite H. vm_compute. reflexivity.
Defined.

Lemma hd_error_rev_last {A : Type} (l : list A) (x : A) :
  hd_error (rev (l ++ [x])) = Some x.
Proof. rewrite rev_app_distr. reflexivity. Qed.

Lemma lastn_snoc {A : Type} (n : nat) (l : list A) (x : A) :
  lastn (S n) (l ++ [x]) = lastn n l ++ [x].
Proof.
  unfold lastn. rewrite length_app, skipn_app. cbn [length].
  replace (length l + 1 - S n)%nat with (length l - n)%nat by lia.
  replace (length l - n - length l)%nat with 0%nat by lia. reflexivity.
Qed.

Lemma recent_after_update (record : ConnectionRecord)
  (history : list ConnectionRecord) :
  hd_error (rev (JS.slice (-10) (history_update record history))) =
  Some record.
Proof.
  unfold history_update. change (-100) with (Z.neg 100).
  change (-10) with (Z.neg 10). rewrite !slice_last.
  change (Pos.to_nat 100) with 100%nat. change (Pos.to_nat 10) with 10%nat.
  rewrite (lastn_snoc 99), (lastn_snoc 9). apply hd_error_rev_last.
Qed.


(** X2. A probe that runs (in the guarded revision: one that is not
    skipped) puts its record at the head of [getRecentHistory], and that
    record says what the returned status says: online or not, the
    response time, the endpoint and the error. *)
Theorem probe_heads_recent_history (rev : Revision)
  (endpoints fallbackEndpoints : list ConnectivityEndpoint) (w : World) :
  (rev = guarded -> isChecking (service w) = false) ->
  let w' := fst (run (probe rev endpoints fallbackEndpoints) w) in
  let returned := snd (run (probe rev endpoints fallbackEndpoints) w) in
  exists record,
    hd_error (getRecentHistory (service w')) = Some record /\
    outcome_of_record record = outcome_of_status returned.
Proof.
  intros G w' returned. subst w' returned.
  rewrite (run_probe rev endpoints fallbackEndpoints w G).
  destruct (first_reached _ _) as [w1 [e |]].
  - destruct (landed_effect rev e (JS.reading (now (host w))) w1)
      as (_ & _ & _ & _ & _ & _ & _ & _ & _ & _ & _ & Eh & _ & _ & E).
    unfold getRecentHistory. rewrite Eh, E, recent_after_update.
    eexists. split; reflexivity.
  - destruct (stranded_effect rev w1)
      as (_ & _ & _ & _ & _ & _ & _ & _ & _ & _ & _ & Eh & _ & _ & E).
    unfold getRecentHistory. rewrite Eh, E, recent_after_update.
    eexists. split; reflexivity.
Qed.

Lemma probe_heads_recent_history_witness :
  let w' := fst (run (probe plain Plain.endpoints [])
                     (fresh (https_page 0) [silence; answers 40])) in
  exists record,
    hd_error (getRecentHistory (service w')) = Some record /\
    rec_endpoint record = Some "Cloudflare"%string.
Proof.
  intros w'.
  destruct (probe_heads_recent_history plain Plain.endpoints []
              (fresh (https_page 0) [silence; answers 40]))
    as (record & H1 & H2).
  - discriminate.
  - exists record. split; [exact H1 |].
    assert (E : snd (fst (outcome_of_record record)) =
                Some "Cloudflare"%string)
      by (rewrite H2; vm_compute; reflexivity).
    exact E.
Defined.

(** ** The requests of a probe *)

Lemma asked_prefix (l : list ConnectivityEndpoint) (net : list Attempt) :
  exists rest, map request_of l = asked l net ++ rest.
Proof.
  revert net. induction l as [| endpoint l IH]; intros net.
  - exists []. reflexivity.
  - cbn [map asked]. destruct (fulfils endpoint (hd_error net)).
    + exists (map request_of l). reflexivity.
    + destruct (IH (tl net)) as [rest E]. exists rest.
      cbn [app]. rewrite <- E. reflexivity.
Qed.

(** X3. Whatever the network does, the requests a probe sends are an
    initial part of the requests of its eligible endpoints in list order:
    no endpoint is asked twice, none out of turn, and nothing else is
    asked. *)
Theorem probe_requests_prefix (rev : Revision)
  (endpoints fallbackEndpoints : list ConnectivityEndpoint) (w : World) :
  (rev = guarded -> isChecking (service w) = false) ->
  let w' := fst (run (probe rev endpoints fallbackEndpoints) w) in
  exists sent rest,
    requests w' = requests w ++ sent /\
    map request_of
        (eligible rev endpoints fallbackEndpoints (location (host w))) =
      sent ++ rest.
Proof.
  intros G w'. subst w'.
  rewrite (requests_probe rev endpoints fallbackEndpoints w G).
  destruct (asked_prefix
              (eligible rev endpoints fallbackEndpoints (location (host w)))
              (network w)) as [rest E].
  eexists. exists rest. split; [reflexivity | exact E].
Qed.

Lemma probe_requests_prefix_witness :
  let w := fresh (https_page 0) [silence; answers 40] in
  exists sent rest,
    requests (fst (run (probe plain Plain.endpoints []) w)) = [] ++ sent /\
    map request_of Plain.endpoints = sent ++ rest.
Proof.
  intros w.
  destruct (probe_requests_prefix plain Plain.endpoints [] w)
    as (sent & rest & H1 & H2).
  - discriminate.
  - exists sent, rest. split; assumption.
Defined.

(** ** One endpoint *)

(** X5. [checkEndpoint] sends one request, to the endpoint's URL, beside
    a timer set with the endpoint's [timeout] (3000 when it is missing or
    0), and touches no signal.  Its promise fulfils exactly when an answer
    arrives before that timer fires and is opaque or carries an expected
    status; then it fulfils with that answer.  The timer is that of
    [setTimeout]: it takes its delay as a 32-bit integer, so that a
    [timeout] of 2^31 lets it fire as for a delay of 0. *)
Theorem checkEndpoint_alone (endpoint : ConnectivityEndpoint) (w : World) :
  let w' := fst (run (checkEndpoint endpoint) w) in
  let result := snd (run (checkEndpoint endpoint) w) in
  let delay := match timeout endpoint with
               | Some 0 | None => 3000
               | Some t => t
               end in
  service w' = service w /\
  requests w' =
    requests w ++ [{| req_url := url endpoint; req_abortAfter := delay |}] /\
  network w' = tl (network w) /\
  (forall response,
     result = Some response <->
     exists x,
       hd_error (network w) = Some x /\
       (latency x < fires delay x)%Q /\
       wire x = Responds response /\
       (resp_type response = opaque \/
        In (resp_status response) (expectedStatus endpoint))) /\
  (forall x, delay = 2147483648 -> (fires delay x == fires 0 x)%Q).
Proof.
  cbv zeta. fold (declared_timeout endpoint).
  rewrite <- declared_timeout_code. unfold checkEndpoint. cbn [bind run].
  pose proof (fulfils_iff endpoint (hd_error (network w))) as F.
  unfold succeeds, fulfils in F. rewrite <- declared_timeout_code in F.
  destruct (settle (request_of endpoint) (hd_error (network w)))
    as [r dt] eqn:S.
  cbn [fst snd] in *.
  assert (same : forall response x,
            hd_error (network w) = Some x ->
            (latency x < fires (timeout_or_3000 endpoint) x)%Q ->
            wire x = Responds response -> r = Fulfilled response).
  { intros response x Hx L W. unfold settle in S. rewrite Hx in S.
    cbn [request_of req_abortAfter] in S.
    destruct (Qlt_le_dec (latency x) _) as [L' | L'].
    - rewrite W in S. injection S as <- _. reflexivity.
    - exfalso. apply (Qlt_not_le _ _ L). exact L'. }
  assert (wrap : forall x : Attempt,
            timeout_or_3000 endpoint = 2147483648 ->
            (fires (timeout_or_3000 endpoint) x == fires 0 x)%Q).
  { intros x E. rewrite E. reflexivity. }
  destruct r as [response0 | reason];
    cbn [run fst snd service requests network host later now];
    (split; [reflexivity |]); (split; [reflexivity |]);
    (split; [reflexivity |]); (split; [| exact wrap]);
    intros response; split.
  - intros E. destruct (accept endpoint response0) as [a |] eqn:A;
      [| discriminate E].
    assert (a = response0) as ->.
    { unfold accept in A.
      destruct (is_opaque _); [injection A as <-; reflexivity |].
      destruct (JS.includes _ _); [injection A as <-; reflexivity |].
      discriminate A. }
    injection E as <-.
    destruct (proj1 F eq_refl) as (x & response' & Hx & L & W & Hok).
    assert (E' := same response' x Hx L W). injection E' as <-.
    exists x. repeat split; assumption.
  - intros (x & Hx & L & W & Hok).
    assert (E' := same response x Hx L W). injection E' as ->.
    assert (Ft : match accept endpoint response with
                 | Some _ => true | None => false end = true).
    { apply F. exists x, response. repeat split; assumption. }
    unfold accept in *.
    destruct (is_opaque _); [reflexivity |].
    destruct (JS.includes _ _); [reflexivity | discriminate Ft].
  - intros E. discriminate E.
  - intros (x & Hx & L & W & Hok).
    assert (E' := same response x Hx L W). discriminate E'.
Qed.

(** ** The status shown and the status returned *)



(** ** A proof rule for the event loop of the three revisions

    An invariant of the pages holds in every reachable page as soon as
    the steps of a probe keep it: entering, naming the endpoint under
    test, the two ways out and, in the guarded revision, the skipped
    call. *)
Section Rule.

Variable rev : Revision.
Variables endpoints fallbackEndpoints : list ConnectivityEndpoint.
Variable J : nat -> list ConnectivityStatus -> Service -> Prop.

Hypothesis J_initial : forall onLine, J 0 [] (initial onLine).
Hypothesis J_browser : forall n res s b,
  J n res s -> J n res (set_isOnline b s).
Hypothesis J_currentEndpoint : forall n res s v,
  J n res s -> J n res (set_currentEndpoint v s).
Hypothesis J_enter : forall n res s,
  (rev = guarded -> isChecking s = false) ->
  J n res s -> J (S n) res (entered rev s).
Hypothesis J_landed : forall endpoint startTime h n res s,
  J (S n) res s ->
  J n (res ++ [snd (run (landed rev endpoint startTime) (around s h))])
      (service (fst (run (landed rev endpoint startTime) (around s h)))).
Hypothesis J_stranded : forall h n res s,
  J (S n) res s ->
  J n (res ++ [snd (run (stranded rev) (around s h))])
      (service (fst (run (stranded rev) (around s h)))).
Hypothesis J_skipped : forall n res s,
  rev = guarded -> isChecking s = true ->
  J n res s -> J n (res ++ [Guarded.in_flight s]) s.

Lemma rule_landed (endpoint : ConnectivityEndpoint) (startTime : JS.number)
  (h : Host) (n : nat) (res : list ConnectivityStatus) (s : Service) :
  J (S n) res s -> keeps J (landed rev endpoint startTime) h n res s.
Proof.
  intros H. apply keeps_straight; [apply straight_landed |].
  apply J_landed, H.
Qed.

Lemma rule_stranded (h : Host) (n : nat) (res : list ConnectivityStatus)
  (s : Service) :
  J (S n) res s -> keeps J (stranded rev) h n res s.
Proof.
  intros H. apply keeps_straight; [apply straight_stranded |].
  apply J_stranded, H.
Qed.

Lemma rule_call (h : Host) (n : nat) (res : list ConnectivityStatus)
  (s : Service) :
  J n res s -> keeps J (probe rev endpoints fallbackEndpoints) h n res s.
Proof.
  intros HJ. pose proof rule_landed as Hl. pose proof rule_stranded as Hs.
  pose proof J_enter as He. pose proof J_skipped as Hk.
  destruct rev; cbn [probe landed stranded entered] in *.
  - unfold Plain.checkConnectivity.
    rewrite !keeps_perform. cbn [effect fst snd].
    apply keeps_for_endpoints; auto.
    apply (He n res s); [discriminate | exact HJ].
  - unfold Fallback.checkConnectivity.
    rewrite !keeps_perform. cbn [effect fst snd].
    apply keeps_Fallback_tryEndpoints.
    + exact J_currentEndpoint.
    + intros e h' n' res' s' HJ'.
      match goal with
      | |- keeps _ ?p _ _ _ _ =>
          replace p with (Fallback.online e (JS.reading (now h)))
            by reflexivity
      end.
      apply Hl, HJ'.
    + intros h' n' res' s' HJ'.
      cbn [Fallback.exhausted st_isOnline Fallback.shouldTryHttpFallback
           bind perform keeps effect fst snd].
      destruct (_ || _).
      * apply keeps_Fallback_tryEndpoints.
        -- exact J_currentEndpoint.
        -- intros e h2 n2 res2 s2 HJ2.
           match goal with
           | |- keeps _ ?p _ _ _ _ =>
               replace p with (Fallback.online e (JS.reading (now h)))
                 by reflexivity
           end.
           apply Hl, HJ2.
        -- intros h2 n2 res2 s2 HJ2. apply Hs, HJ2.
        -- exact HJ'.
      * apply Hs, HJ'.
    + apply (He n res s); [discriminate | exact HJ].
  - unfold Guarded.checkConnectivity.
    rewrite keeps_perform. cbn [effect fst snd].
    destruct (isChecking s) eqn:C.
    + apply Hk; [reflexivity | exact C | exact HJ].
    + rewrite !keeps_perform. cbn [effect fst snd].
      apply keeps_Guarded_tryEndpoints.
      * exact J_currentEndpoint.
      * intros e h' n' res' s' HJ'.
        match goal with
        | |- keeps _ ?p _ _ _ _ =>
            replace p with (result <- Guarded.online e (JS.reading (now h));;
                            Guarded.finish result)
              by reflexivity
        end.
        apply Hl, HJ'.
      * intros h' n' res' s' HJ'.
        cbn [Fallback.exhausted st_isOnline Guarded.shouldTryHttpFallback
             bind perform keeps effect fst snd].
        destruct (_ || _).
        -- apply keeps_Guarded_tryEndpoints.
           ++ exact J_currentEndpoint.
           ++ intros e h2 n2 res2 s2 HJ2.
              match goal with
              | |- keeps _ ?p _ _ _ _ =>
                  replace p
                    with (result <- Guarded.online e (JS.reading (now h));;
                                  Guarded.finish result)
                    by reflexivity
              end.
              apply Hl, HJ2.
           ++ intros h2 n2 res2 s2 HJ2. apply Hs, HJ2.
           ++ exact HJ'.
        -- apply Hs, HJ'.
      * apply (He n res s); [intros _; exact C | exact HJ].
Qed.

Lemma rule_reachable (pg : Page) :
  reachable (probe rev endpoints fallbackEndpoints) pg ->
  J (length (waiting pg)) (resolved pg) (signals pg).
Proof.
  intros R.
  apply (reachable_ok J (probe rev endpoints fallbackEndpoints)
           J_initial J_browser rule_call) in R.
  apply R.
Qed.

End Rule.

(** ** The shape of the signals *)

Lemma history_update_Forall (P : ConnectionRecord -> Prop)
  (record : ConnectionRecord) (history : list ConnectionRecord) :
  Forall P history -> P record -> Forall P (history_update record history).
Proof.
  intros H Hr. unfold history_update. rewrite slice_last_100.
  apply Forall_skipn_tail, Forall_app. split; [exact H |].
  constructor; [exact Hr | constructor].
Qed.

Lemma history_update_not_empty (record : ConnectionRecord)
  (history : list ConnectionRecord) :
  history_update record history <> [].
Proof.
  intros E. pose proof (recent_after_update record history) as H.
  rewrite E in H. discriminate H.
Qed.

Lemma record_ok_widen (s s' : Service) (r : ConnectionRecord) :
  (forall a, minResponseTime s = Some a ->
             exists a', minResponseTime s' = Some a' /\ a' <= a) ->
  (forall b, maxResponseTime s = Some b ->
             exists b', maxResponseTime s' = Some b' /\ b <= b') ->
  record_ok s r -> record_ok s' r.
Proof.
  intros Hmin Hmax. unfold record_ok. destruct (rec_isOnline r); [| auto].
  intros (t & e & least & greatest & Ht & Ee & Er & El & Eg & Hb).
  destruct (Hmin least El) as (a' & Ea & La).
  destruct (Hmax greatest Eg) as (b' & Eb & Lb).
  exists t, e, a', b'. repeat split; try assumption; lia.
Qed.

Lemma shape_frame (s s' : Service) :
  minResponseTime s' = minResponseTime s ->
  maxResponseTime s' = maxResponseTime s ->
  connectionHistory s' = connectionHistory s ->
  lastChecked s' = lastChecked s ->
  error s' = None \/ (error s' = error s /\ isChecking s' = isChecking s) ->
  shape s -> shape s'.
Proof.
  intros Emin Emax Eh El He (H1 & H2 & H3 & H4 & H5).
  unfold shape, extrema_ok. rewrite Emin, Emax, Eh, El.
  repeat split; try assumption; try apply H4.
  - eapply Forall_impl; [| exact H2].
    intros r. apply record_ok_widen; intros x Ex; exists x;
      (split; [congruence | lia]).
  - destruct He as [He | [He Hc]]; [intros _; exact He |].
    rewrite He, Hc. exact H3.
  - destruct He as [He | [He Hc]]; [left; exact He |].
    rewrite He. exact H5.
Qed.

Lemma shape_landed (rev : Revision) (endpoint : ConnectivityEndpoint)
  (startTime : JS.number) (h : Host) (s : Service) :
  shape s ->
  shape (service (fst (run (landed rev endpoint startTime) (around s h)))).
Proof.
  intros (H1 & H2 & H3 & H4 & H5).
  destruct (landed_effect rev endpoint startTime (around s h))
    as (_ & _ & _ & _ & El & _ & _ & Ee & Ec & _ & _ & Eh & Emin & Emax & _).
  cbn [around service host] in *.
  set (t := JS.Math_round_Z (JSMath.sub (JS.reading (now h)) startTime)) in *.
  unfold shape, extrema_ok. rewrite El, Ee, Ec, Eh, Emin, Emax.
  clear El Ee Ec Eh.
  assert (W : exists least greatest,
            min_update t (minResponseTime s) = Some least /\
            max_update t (maxResponseTime s) = Some greatest /\
            least <= t <= greatest /\
            (forall a, minResponseTime s = Some a -> least <= a) /\
            (forall b, maxResponseTime s = Some b -> b <= greatest)).
  { unfold extrema_ok in H1. unfold min_update, max_update. revert H1.
    destruct (minResponseTime s) as [a |], (maxResponseTime s) as [b |];
      intros H1; try contradiction.
    - rewrite Z.gtb_ltb.
      destruct (Z.ltb_spec t a), (Z.ltb_spec b t); eexists; eexists;
        (split; [reflexivity |]); (split; [reflexivity |]);
        (split; [lia |]); split; intros x Ex; injection Ex as <-; lia.
    - exists t, t. repeat split; try lia; intros x Ex; discriminate Ex. }
  destruct W as (least & greatest & Wmin & Wmax & Wt & Wa & Wb).
  rewrite Wmin, Wmax. repeat split.
  - lia.
  - apply history_update_Forall.
    + eapply Forall_impl; [| exact H2]. intros r Hr. unfold record_ok in *.
      destruct (rec_isOnline r); [| exact Hr].
      destruct Hr as (t0 & e & a & b & Ht & Ee & Er & Ea & Eb & Hb).
      exists t0, e, least, greatest. rewrite Emin, Emax. clear Emin Emax.
      specialize (Wa a Ea). specialize (Wb b Eb).
      repeat split; try assumption; lia.
    + unfold record_ok. cbn [rec_isOnline rec_responseTime rec_endpoint
        rec_error]. exists t, (name endpoint), least, greatest.
      rewrite Emin, Emax. clear Emin Emax.
      repeat split; try assumption; lia.
  - discriminate.
  - discriminate.
  - intros E. contradiction (history_update_not_empty _ _ E).
  - exact H5.
Qed.

Lemma shape_stranded (rev : Revision) (h : Host) (s : Service) :
  shape s -> shape (service (fst (run (stranded rev) (around s h)))).
Proof.
  intros (H1 & H2 & H3 & H4 & H5).
  destruct (stranded_effect rev (around s h))
    as (_ & _ & _ & _ & El & _ & _ & Ee & Ec & _ & _ & Eh & Emin & Emax & _).
  cbn [around service host] in *.
  unfold shape, extrema_ok. rewrite El, Ee, Ec, Eh, Emin, Emax.
  clear El Ee Ec Eh.
  repeat split.
  - exact H1.
  - apply history_update_Forall.
    + eapply Forall_impl; [| exact H2]. intros r.
      apply record_ok_widen; intros x Ex; exists x;
        (split; [congruence | lia]).
    + unfold record_ok. cbn [rec_isOnline rec_responseTime rec_endpoint
        rec_error]. repeat split.
  - discriminate.
  - discriminate.
  - intros E. contradiction (history_update_not_empty _ _ E).
  - right. reflexivity.
Qed.

Lemma reachable_shape (rev : Revision)
  (endpoints fallbackEndpoints : list ConnectivityEndpoint) (pg : Page) :
  reachable (probe rev endpoints fallbackEndpoints) pg -> shape (signals pg).
Proof.
  apply (rule_reachable rev endpoints fallbackEndpoints
           (fun _ _ s => shape s)).
  - intros onLine. unfold shape, extrema_ok. cbn.
    repeat split; auto; discriminate.
  - intros n res s b. apply shape_frame; try reflexivity.
    right. split; reflexivity.
  - intros n res s v. apply shape_frame; try reflexivity.
    right. split; reflexivity.
  - intros n res s _. apply shape_frame; destruct rev; try reflexivity;
      left; reflexivity.
  - intros endpoint startTime h n res s. apply shape_landed.
  - intros h n res s. apply shape_stranded.
  - intros n res s _ _ H. exact H.
Qed.

(** X7. In every reachable page of every revision the two extrema are
    both unset or both set, and then [minResponseTime] is at most
    [maxResponseTime]. *)
Theorem extrema_ordered (rev : Revision)
  (endpoints fallbackEndpoints : list ConnectivityEndpoint) (pg : Page) :
  reachable (probe rev endpoints fallbackEndpoints) pg ->
  (minResponseTime (signals pg) = None /\
   maxResponseTime (signals pg) = None) \/
  exists least greatest,
    minResponseTime (signals pg) = Some least /\
    maxResponseTime (signals pg) = Some greatest /\
    least <= greatest.
Proof.
  intros R. apply reachable_shape in R. destruct R as (H & _).
  unfold extrema_ok in H.
  destruct (minResponseTime (signals pg)) as [a |],
           (maxResponseTime (signals pg)) as [b |]; try contradiction.
  - right. exists a, b. repeat split. exact H.
  - left. split; reflexivity.
Qed.

Lemma extrema_ordered_witness :
  let pg := play (probe plain Plain.endpoints [])
                 fifty_two_hundred_thirty (start true) in
  exists least greatest,
    minResponseTime (signals pg) = Some least /\
    maxResponseTime (signals pg) = Some greatest /\
    least <= greatest.
Proof.
  intros pg.
  destruct (extrema_ordered plain Plain.endpoints [] pg) as [[H _] | H].
  - exists true, fifty_two_hundred_thirty. reflexivity.
  - vm_compute in H. discriminate H.
  - exact H.
Defined.

(** X8. Every record of the history of a reachable page has one of two
    forms: online, with a response time and an endpoint and no error, or
    offline, with neither and the error message. *)
Theorem history_records_wellformed (rev : Revision)
  (endpoints fallbackEndpoints : list ConnectivityEndpoint) (pg : Page)
  (r : ConnectionRecord) :
  reachable (probe rev endpoints fallbackEndpoints) pg ->
  In r (connectionHistory (signals pg)) ->
  if rec_isOnline r
  then (exists t e, rec_responseTime r = Some t /\ rec_endpoint r = Some e)
       /\ rec_error r = None
  else rec_responseTime r = None /\ rec_endpoint r = None /\
       rec_error r = Some "All connectivity endpoints failed"%string.
Proof.
  intros R Hin. apply reachable_shape in R. destruct R as (_ & H & _).
  rewrite Forall_forall in H. specialize (H r Hin). unfold record_ok in H.
  destruct (rec_isOnline r); [| exact H].
  destruct H as (t & e & _ & _ & Ht & Ee & Er & _).
  split; [exists t, e; split; assumption | exact Er].
Qed.

Lemma history_records_wellformed_witness :
  let pg := play (probe plain Plain.endpoints []) (probe_ko 4 0)
                 (start true) in
  exists r, In r (connectionHistory (signals pg)) /\
            rec_responseTime r = None /\ rec_endpoint r = None.
Proof.
  intros pg.
  assert (E : exists r, hd_error (connectionHistory (signals pg)) = Some r
                        /\ rec_isOnline r = false)
    by (vm_compute; eexists; split; reflexivity).
  destruct E as (r & Hr & Ho).
  assert (Hin : In r (connectionHistory (signals pg))).
  { destruct (connectionHistory (signals pg)); [discriminate Hr |].
    injection Hr as ->. left. reflexivity. }
  pose proof (history_records_wellformed plain Plain.endpoints [] pg r) as H.
  rewrite Ho in H. destruct H as (H1 & H2 & _).
  - exists true, (probe_ko 4 0). reflexivity.
  - exact Hin.
  - exists r. repeat split; assumption.
Defined.

(** X9. While [isChecking] shows true the error is null; [lastChecked]
    is null exactly as long as the history is empty; and the only error
    the service ever shows is "All connectivity endpoints failed". *)
Theorem signals_consistent (rev : Revision)
  (endpoints fallbackEndpoints : list ConnectivityEndpoint) (pg : Page) :
  reachable (probe rev endpoints fallbackEndpoints) pg ->
  (isChecking (signals pg) = true -> error (signals pg) = None) /\
  (lastChecked (signals pg) = None <-> connectionHistory (signals pg) = []) /\
  (error (signals pg) = None \/
   error (signals pg) = Some "All connectivity endpoints failed"%string).
Proof.
  intros R. apply reachable_shape in R. destruct R as (_ & _ & H3 & H4 & H5).
  repeat split; try assumption; apply H4.
Qed.

Lemma signals_consistent_witness :
  let pg := play (probe plain Plain.endpoints []) two_calls (start true) in
  isChecking (signals pg) = true /\ error (signals pg) = None.
Proof.
  intros pg.
  destruct (signals_consistent plain Plain.endpoints [] pg) as (H & _).
  - exists true, two_calls. reflexivity.
  - assert (C : isChecking (signals pg) = true) by (vm_compute; reflexivity).
    split; [exact C | exact (H C)].
Defined.

(** ** What the statistics component shows *)

Lemma fold_min_max_bounds (least greatest : Z) (l : list Z) (x : Z) :
  least <= x <= greatest ->
  Forall (fun t => least <= t <= greatest) l ->
  least <= fold_left Z.min l x /\
  fold_left Z.min l x <= fold_left Z.max l x /\
  fold_left Z.max l x <= greatest.
Proof.
  intros Hx H.
  assert (G : forall a b, least <= a -> a <= b -> b <= greatest ->
              least <= fold_left Z.min l a /\
              fold_left Z.min l a <= fold_left Z.max l b /\
              fold_left Z.max l b <= greatest).
  { induction H as [| t l Ht H IH]; intros a b La Lab Lb.
    - cbn. lia.
    - cbn [fold_left]. apply IH; lia. }
  apply G; lia.
Qed.

(** X10. In a reachable page with at least one record the component
    counts (online, with a response time other than 0), the slowest and
    the fastest response time it shows lie between the lifetime extrema
    of the service: [minResponseTime] of the service, then the
    component's [minResponseTime], its [peakResponseTime], and
    [maxResponseTime] of the service, in this order. *)
Theorem shown_extrema_within_lifetime (rev : Revision)
  (endpoints fallbackEndpoints : list ConnectivityEndpoint) (pg : Page) :
  reachable (probe rev endpoints fallbackEndpoints) pg ->
  filter NetworkStats.timed (connectionHistory (signals pg)) <> [] ->
  exists least greatest,
    minResponseTime (signals pg) = Some least /\
    maxResponseTime (signals pg) = Some greatest /\
    least <= NetworkStats.minResponseTime (connectionHistory (signals pg)) /\
    NetworkStats.minResponseTime (connectionHistory (signals pg)) <=
      NetworkStats.peakResponseTime (connectionHistory (signals pg)) /\
    NetworkStats.peakResponseTime (connectionHistory (signals pg)) <=
      greatest.
Proof.
  intros R NE. apply reachable_shape in R. destruct R as (_ & H & _).
  unfold NetworkStats.minResponseTime, NetworkStats.peakResponseTime.
  set (s := signals pg) in *.
  assert (F : Forall (record_ok s)
                (filter NetworkStats.timed (connectionHistory s))).
  { rewrite Forall_forall in *. intros r Hr. apply filter_In in Hr.
    apply H, Hr. }
  assert (T : forall r, In r (filter NetworkStats.timed (connectionHistory s))
              -> rec_isOnline r = true).
  { intros r Hr. apply filter_In in Hr. destruct Hr as [_ Hr].
    unfold NetworkStats.timed in Hr. apply andb_prop in Hr. apply Hr. }
  destruct (filter NetworkStats.timed (connectionHistory s))
    as [| r0 rest]; [contradiction NE; reflexivity |].
  cbn [map length Nat.ltb Nat.leb].
  assert (B : exists least greatest,
            minResponseTime s = Some least /\
            maxResponseTime s = Some greatest /\
            Forall (fun t => least <= t <= greatest)
              (map (fun r => JS.or_zero (rec_responseTime r)) (r0 :: rest))).
  { inversion F as [| ? ? H0 _]; subst. unfold record_ok in H0.
    rewrite (T r0) in H0 by (left; reflexivity).
    destruct H0 as (t0 & e0 & least & greatest & _ & _ & _ & El & Eg & _).
    exists least, greatest. split; [exact El | split; [exact Eg |]].
    apply Forall_map. rewrite Forall_forall in *. intros r Hr.
    specialize (F r Hr). unfold record_ok in F. rewrite (T r Hr) in F.
    destruct F as (t & e & a & b & Ht & _ & _ & Ea & Eb & Hb).
    rewrite Ht. assert (a = least) by congruence.
    assert (b = greatest) by congruence. subst a b.
    unfold JS.or_zero, JS.truthy. destruct (t =? 0) eqn:Z0; cbn [negb].
    - apply Z.eqb_eq in Z0. subst t. exact Hb.
    - exact Hb. }
  destruct B as (least & greatest & El & Eg & B).
  exists least, greatest. split; [exact El | split; [exact Eg |]].
  cbn [map] in B. inversion B as [| ? ? B0 B1]; subst.
  apply fold_min_max_bounds; assumption.
Qed.

Lemma shown_extrema_within_lifetime_witness :
  let pg := play (probe plain Plain.endpoints []) quick_then_slow
                 (start true) in
  minResponseTime (signals pg) = Some 0 /\
  NetworkStats.minResponseTime (connectionHistory (signals pg)) = 100 /\
  0 <= 100.
Proof.
  intros pg.
  destruct (shown_extrema_within_lifetime plain Plain.endpoints [] pg)
    as (least & greatest & H1 & _ & H3 & _).
  - exists true, quick_then_slow. reflexivity.
  - vm_compute. discriminate.
  - assert (E1 : minResponseTime (signals pg) = Some 0)
      by (vm_compute; reflexivity).
    assert (E2 : NetworkStats.minResponseTime
                   (connectionHistory (signals pg)) = 100)
      by (vm_compute; reflexivity).
    rewrite E1 in H1. injection H1 as <-. rewrite E2 in H3.
    repeat split; assumption.
Defined.

(** ** The books *)

Lemma lastn_lastn {A : Type} (n m : nat) (l : list A) :
  (n <= m)%nat -> lastn n (lastn m l) = lastn n l.
Proof.
  intros H. unfold lastn. rewrite length_skipn, skipn_skipn. f_equal. lia.
Qed.

Lemma lastn_map {A B : Type} (f : A -> B) (n : nat) (l : list A) :
  map f (lastn n l) = lastn n (map f l).
Proof.
  unfold lastn. rewrite length_map. revert l.
  intros l. generalize (length l - n)%nat as k. intros k. revert l.
  induction k as [| k IH]; intros [| x l]; try reflexivity.
  cbn [skipn map]. apply IH.
Qed.

Lemma history_update_outcomes (record : ConnectionRecord)
  (history : list ConnectionRecord) (res : list ConnectivityStatus)
  (st : ConnectivityStatus) :
  map outcome_of_record history = lastn 100 (map outcome_of_status res) ->
  outcome_of_record record = outcome_of_status st ->
  map outcome_of_record (history_update record history) =
  lastn 100 (map outcome_of_status (res ++ [st])).
Proof.
  intros H E. unfold history_update. rewrite slice_last_100.
  change (skipn (length (history ++ [record]) - 100) (history ++ [record]))
    with (lastn 100 (history ++ [record])).
  rewrite (lastn_snoc 99), map_app, lastn_map, H, map_app.
  cbn [map]. rewrite (lastn_snoc 99), lastn_lastn, E by lia. reflexivity.
Qed.

Lemma ledger_reachable (rev : Revision)
  (endpoints fallbackEndpoints : list ConnectivityEndpoint) (pg : Page) :
  rev <> guarded ->
  reachable (probe rev endpoints fallbackEndpoints) pg ->
  ledger (length (waiting pg)) (resolved pg) (signals pg).
Proof.
  intros NG.
  apply (rule_reachable rev endpoints fallbackEndpoints ledger).
  - intros onLine. repeat split.
  - intros n res s b H. exact H.
  - intros n res s v H. exact H.
  - intros n res s _ (H1 & H2 & H3). unfold ledger.
    destruct rev; [| | contradiction NG; reflexivity];
      cbn [entered totalChecks successfulChecks connectionHistory
           set_totalChecks set_error set_isChecking];
      (repeat split; [lia | assumption | assumption]).
  - intros endpoint startTime h n res s (H1 & H2 & H3).
    destruct (landed_effect rev endpoint startTime (around s h))
      as (_ & _ & _ & _ & _ & _ & _ & _ & _ & Et & Es & Eh & _ & _ & E).
    cbn [around service host] in *. unfold ledger.
    rewrite Et, Es, Eh, E. clear Et Es Eh E.
    rewrite filter_app, !length_app. cbn [filter st_isOnline length].
    split; [| split].
    + destruct rev; [| | contradiction NG; reflexivity]; lia.
    + lia.
    + apply history_update_outcomes; [exact H3 | reflexivity].
  - intros h n res s (H1 & H2 & H3).
    destruct (stranded_effect rev (around s h))
      as (_ & _ & _ & _ & _ & _ & _ & _ & _ & Et & Es & Eh & _ & _ & E).
    cbn [around service host] in *. unfold ledger.
    rewrite Et, Es, Eh, E. clear Et Es Eh E.
    rewrite filter_app, !length_app. cbn [filter st_isOnline length].
    split; [| split].
    + destruct rev; [| | contradiction NG; reflexivity]; lia.
    + lia.
    + apply history_update_outcomes; [exact H3 | reflexivity].
  - intros n res s G. contradiction NG.
Qed.

(** X11. In the revisions without a guard, whatever the interleaving,
    [totalChecks] is the number of calls made (those that returned and
    those still waiting), [successfulChecks] is the number of calls that
    returned online, and the history is, outcome by outcome, the last
    hundred statuses returned, in the order they were returned. *)
Theorem books_without_guard (rev : Revision)
  (endpoints fallbackEndpoints : list ConnectivityEndpoint) (pg : Page) :
  rev <> guarded ->
  reachable (probe rev endpoints fallbackEndpoints) pg ->
  totalChecks (signals pg) =
    Z.of_nat (length (resolved pg) + length (waiting pg)) /\
  successfulChecks (signals pg) =
    Z.of_nat (length (filter st_isOnline (resolved pg))) /\
  map outcome_of_record (connectionHistory (signals pg)) =
    lastn 100 (map outcome_of_status (resolved pg)).
Proof. intros NG R. exact (ledger_reachable rev _ _ pg NG R). Qed.

Lemma books_without_guard_witness :
  let pg := play (probe plain Plain.endpoints []) two_calls (start true) in
  totalChecks (signals pg) = 2 /\ length (waiting pg) = 2%nat.
Proof.
  intros pg.
  destruct (books_without_guard plain Plain.endpoints [] pg) as (H & _).
  - discriminate.
  - exists true, two_calls. reflexivity.
  - rewrite H. vm_compute. split; reflexivity.
Defined.

Lemma guarded_ledger_reachable
  (endpoints fallbackEndpoints : list ConnectivityEndpoint) (pg : Page) :
  reachable (probe guarded endpoints fallbackEndpoints) pg ->
  guarded_ledger (length (waiting pg)) (resolved pg) (signals pg).
Proof.
  apply (rule_reachable guarded endpoints fallbackEndpoints guarded_ledger).
  - intros onLine. unfold guarded_ledger, guarded_inv. cbn.
    repeat split; try lia; try discriminate.
    all: intros H; contradiction H; reflexivity.
  - intros n res s b H. exact H.
  - intros n res s v H. exact H.
  - intros n res s G ((H0 & H1 & H2 & H3) & H4 & H5 & H6 & H7).
    specialize (G eq_refl).
    assert (n = 0%nat) as ->.
    { destruct n as [| [| n]]; [reflexivity | | lia].
      destruct H1 as [_ H1]. rewrite (H1 eq_refl) in G. discriminate G. }
    unfold guarded_ledger, guarded_inv.
    cbn [entered totalChecks successfulChecks connectionHistory isChecking
         error responseTime set_error set_isChecking].
    repeat split; try assumption; try lia.
    all: try (intros H; contradiction H; reflexivity).
  - intros endpoint startTime h n res s
      ((H0 & H1 & H2 & H3) & H4 & H5 & H6 & H7).
    destruct (landed_effect guarded endpoint startTime (around s h))
      as (_ & _ & _ & _ & _ & Er & _ & Ee & Ec & Et & Es & Eh & _).
    cbn [around service host] in *. unfold guarded_ledger, guarded_inv.
    rewrite Er, Ee, Ec, Et, Es, Eh. clear Er Ee Ec Et Es Eh.
    assert (n = 0%nat) as -> by lia.
    assert (E0 : error s = None) by (apply H6, H1; reflexivity).
    pose proof (history_update_length
      {| rec_timestamp := now h; rec_isOnline := true;
         rec_responseTime :=
           Some (JS.Math_round_Z
                   (JSMath.sub (JS.reading (now h)) startTime));
         rec_endpoint := Some (name endpoint); rec_error := None |}
      (connectionHistory s)) as L.
    assert (L' : length (history_update
      {| rec_timestamp := now h; rec_isOnline := true;
         rec_responseTime :=
           Some (JS.Math_round_Z
                   (JSMath.sub (JS.reading (now h)) startTime));
         rec_endpoint := Some (name endpoint); rec_error := None |}
      (connectionHistory s)) = Nat.min 100 (S (length (connectionHistory s)))).
    { unfold history_update. rewrite slice_last_100, length_skipn, length_app.
      cbn [length]. lia. }
    repeat split; try lia; try discriminate.
    intros H. contradiction (H E0).
  - intros h n res s ((H0 & H1 & H2 & H3) & H4 & H5 & H6 & H7).
    destruct (stranded_effect guarded (around s h))
      as (_ & _ & _ & _ & _ & Er & _ & Ee & Ec & Et & Es & Eh & _).
    cbn [around service host] in *. unfold guarded_ledger, guarded_inv.
    rewrite Er, Ee, Ec, Et, Es, Eh. clear Er Ee Ec Et Es Eh.
    assert (n = 0%nat) as -> by lia.
    assert (L' : length (history_update
      {| rec_timestamp := now h; rec_isOnline := false;
         rec_responseTime := None; rec_endpoint := None;
         rec_error := Some All_connectivity_endpoints_failed |}
      (connectionHistory s)) = Nat.min 100 (S (length (connectionHistory s)))).
    { unfold history_update. rewrite slice_last_100, length_skipn, length_app.
      cbn [length]. lia. }
    repeat split; try lia; try discriminate.
  - intros n res s _ _ H. exact H.
Qed.

(** X12. In the guarded revision every counted check has left one
    record: the history holds [totalChecks] records until there are a
    hundred, and a hundred from then on.  An error message is never
    shown together with a response time. *)
Theorem books_with_guard
  (endpoints fallbackEndpoints : list ConnectivityEndpoint) (pg : Page) :
  reachable (Guarded.checkConnectivity endpoints fallbackEndpoints) pg ->
  0 <= totalChecks (signals pg) /\
  length (connectionHistory (signals pg)) =
    Nat.min 100 (Z.to_nat (totalChecks (signals pg))) /\
  (error (signals pg) <> None -> responseTime (signals pg) = None).
Proof.
  intros R. apply guarded_ledger_reachable in R.
  destruct R as (_ & H4 & H5 & _ & H7). repeat split; assumption.
Qed.

Lemma books_with_guard_witness :
  let pg := play (Guarded.checkConnectivity Guarded.endpoints
                    Guarded.fallbackEndpoints) (probe_ko 6 0) (start true) in
  totalChecks (signals pg) = 1 /\
  length (connectionHistory (signals pg)) = 1%nat /\
  responseTime (signals pg) = None.
Proof.
  intros pg.
  destruct (books_with_guard Guarded.endpoints Guarded.fallbackEndpoints pg)
    as (_ & H2 & H3).
  - exists true, (probe_ko 6 0). reflexivity.
  - assert (E : totalChecks (signals pg) = 1) by (vm_compute; reflexivity).
    rewrite E in H2.
    split; [exact E | split; [rewrite H2; reflexivity |]].
    apply H3. vm_compute. discriminate.
Defined.

(** ** The protocol and port shown for the current endpoint *)

Lemma tried_name (l : list ConnectivityEndpoint) (w : World) :
  l <> [] ->
  exists before endpoint after,
    l = before ++ endpoint :: after /\
    all_fail before (network w) = true /\
    currentEndpoint (service (fst (first_reached l w))) =
      Some (name endpoint).
Proof.
  revert w. induction l as [| e rest IH]; intros w NE; [contradiction |].
  cbn [first_reached].
  destruct (fulfils e (hd_error (network w))) eqn:F.
  - exists [], e, rest. repeat split.
  - destruct rest as [| e' rest'].
    + exists [], e, []. repeat split.
    + destruct (IH (attempt e w)) as (before & x & after & E & A & C);
        [discriminate |].
      exists (e :: before), x, after. rewrite E. repeat split.
      * cbn [all_fail]. rewrite F. exact A.
      * rewrite <- E. exact C.
Qed.

Lemma currentEndpoint_after_probe (rev : Revision)
  (endpoints fallbackEndpoints : list ConnectivityEndpoint) (w : World) :
  (rev = guarded -> isChecking (service w) = false) ->
  currentEndpoint
    (service (fst (run (probe rev endpoints fallbackEndpoints) w))) =
  currentEndpoint
    (service (fst (first_reached
       (eligible rev endpoints fallbackEndpoints (location (host w)))
       (with_service (entered rev (service w)) w)))).
Proof.
  intros G. rewrite (run_probe rev endpoints fallbackEndpoints w G).
  destruct (first_reached _ _) as [w' [endpoint |]]; cbn [fst].
  - pose proof (landed_effect rev endpoint (JS.reading (now (host w))) w') as H.
    cbv zeta in H. destruct H as (_ & _ & _ & _ & _ & _ & H & _). exact H.
  - pose proof (stranded_effect rev w') as H.
    cbv zeta in H. destruct H as (_ & _ & _ & _ & _ & _ & H & _). exact H.
Qed.


Lemma no_string_name (v : string) :
  v <> EmptyString -> no_string (Some v) = false.
Proof. destruct v; [contradiction | reflexivity]. Qed.

(** X13. In [connectivity.service.ts], once a probe over a list that is
    not empty and whose names are not empty has run, the endpoint
    information is HTTPS on port 443, whether or not the probe reached
    anything: it is never "N/A" again. *)
Theorem plain_endpoint_info (endpoints : list ConnectivityEndpoint)
  (w : World) :
  endpoints <> [] ->
  Forall (fun endpoint => name endpoint <> EmptyString) endpoints ->
  PlainRest.getCurrentEndpointInfo
    (service (fst (run (Plain.checkConnectivity endpoints) w))) = https_443.
Proof.
  intros NE N. unfold PlainRest.getCurrentEndpointInfo.
  change (Plain.checkConnectivity endpoints) with (probe plain endpoints []).
  rewrite currentEndpoint_after_probe by discriminate.
  cbn [eligible].
  destruct (tried_name endpoints
              (with_service (entered plain (service w)) w) NE)
    as (before & endpoint & after & E & _ & C).
  rewrite C. rewrite no_string_name; [reflexivity |].
  rewrite Forall_forall in N. apply N. rewrite E.
  apply in_or_app. right. left. reflexivity.
Qed.

Lemma plain_endpoint_info_witness :
  let w := fst (run (Plain.checkConnectivity Plain.endpoints)
                  (fresh (https_page 0) [silence; silence; silence; silence])) in
  isOnline (service w) = false /\
  PlainRest.getCurrentEndpointInfo (service w) = https_443.
Proof.
  intros w. split; [vm_compute; reflexivity |].
  apply (plain_endpoint_info Plain.endpoints).
  - discriminate.
  - repeat constructor; discriminate.
Defined.



(** ** The timer of the guarded revision *)

(** X15. The timer's own test of [isChecking] changes nothing on the
    page: a tick and a direct call leave the same signals and the same
    invocations waiting.  While a check is in flight a tick does nothing
    at all, and a direct call only returns the signals as they are. *)
Theorem tick_guard_redundant
  (endpoints fallbackEndpoints : list ConnectivityEndpoint) (pg : Page)
  (h : Host) :
  let called :=
    step (Guarded.checkConnectivity endpoints fallbackEndpoints) pg (Call h) in
  let ticked := GuardedRest.tick endpoints fallbackEndpoints pg h in
  signals ticked = signals called /\
  waiting ticked = waiting called /\
  (if isChecking (signals pg)
   then ticked = pg /\
        resolved called = resolved pg ++ [Guarded.in_flight (signals pg)]
   else ticked = called).
Proof.
  intros called ticked. unfold ticked, called, GuardedRest.tick.
  destruct (isChecking (signals pg)) eqn:C; cbn [negb].
  - rewrite (guard_skips endpoints fallbackEndpoints pg h C).
    cbn [signals waiting resolved]. repeat split.
  - repeat split.
Qed.

(** ** Numbers that are not NaN *)

Lemma shr_1_nonneg (mrs : shr_record) :
  0 <= shr_m mrs -> 0 <= shr_m (shr_1 mrs).
Proof.
  destruct mrs as [m r s]. cbn [shr_m]. intros H.
  destruct m as [| [p | p |] | p]; cbn; lia.
Qed.

Lemma iter_pos_nonneg (p : positive) (mrs : shr_record) :
  0 <= shr_m mrs -> 0 <= shr_m (iter_pos shr_1 p mrs).
Proof.
  revert mrs. induction p as [p IH | p IH |]; intros mrs H; cbn [iter_pos].
  - apply IH, IH, shr_1_nonneg, H.
  - apply IH, IH, H.
  - apply shr_1_nonneg, H.
Qed.

Lemma shr_fexp_nonneg (m e : Z) (l : SpecFloat.location) :
  0 <= m -> 0 <= shr_m (fst (shr_fexp JS.prec JS.emax m e l)).
Proof.
  intros H. unfold shr_fexp, shr.
  assert (H0 : 0 <= shr_m (shr_record_of_loc m l))
    by (destruct l as [| []]; exact H).
  destruct (_ - e); cbn [fst]; try exact H0.
  apply iter_pos_nonneg, H0.
Qed.

Lemma round_nearest_even_nonneg (m : Z) (l : SpecFloat.location) :
  0 <= m -> 0 <= round_nearest_even m l.
Proof.
  intros H. unfold round_nearest_even.
  destruct l as [| []]; try destruct (Z.even m); lia.
Qed.

Lemma binary_round_aux_not_nan (sx : bool) (mx ex : Z) (lx : SpecFloat.location) :
  0 <= mx ->
  JSMath.is_nan (binary_round_aux JS.prec JS.emax sx mx ex lx) = false.
Proof.
  intros H. unfold binary_round_aux.
  pose proof (shr_fexp_nonneg mx ex lx H) as H1.
  destruct (shr_fexp JS.prec JS.emax mx ex lx) as [mrs' e'].
  cbn [fst] in H1.
  pose proof (shr_fexp_nonneg
                (round_nearest_even (shr_m mrs') (loc_of_shr_record mrs'))
                e' loc_Exact
                (round_nearest_even_nonneg _ _ H1)) as H2.
  destruct (shr_fexp JS.prec JS.emax _ e' loc_Exact) as [mrs'' e''].
  cbn [fst] in H2.
  destruct (shr_m mrs'') as [| m | m]; [reflexivity | | lia].
  destruct (e'' <=? _); reflexivity.
Qed.

Lemma binary_normalize_not_nan (m e : Z) (szero : bool) :
  JSMath.is_nan (binary_normalize JS.prec JS.emax m e szero) = false.
Proof.
  unfold binary_normalize, binary_round.
  destruct m as [| m | m]; [reflexivity | |];
    destruct (shl_align _ _ _) as [mz ez];
    apply binary_round_aux_not_nan; lia.
Qed.


(** A finite number minus a number that is not NaN is not NaN. *)
Lemma sub_finite_not_nan (s : bool) (m : positive) (e : Z) (y : JS.number) :
  JSMath.is_nan y = false ->
  JSMath.is_nan (JSMath.sub (S754_finite s m e) y) = false.
Proof.
  intros H. unfold JSMath.sub, SFsub.
  destruct y as [sy | sy | | sy my ey]; try reflexivity; try discriminate H.
  apply binary_normalize_not_nan.
Qed.

(** A number that is not NaN divided by a finite number other than zero
    is not NaN. *)
Lemma div_finite_not_nan (x : JS.number) (s : bool) (m : positive) (e : Z) :
  JSMath.is_nan x = false ->
  JSMath.is_nan (JS.div x (S754_finite s m e)) = false.
Proof.
  intros H. unfold JS.div, SFdiv.
  destruct x as [sx | sx | | sx mx ex]; try reflexivity; try discriminate H.
  unfold SFdiv_core_binary.
  set (k := _ - _ - Z.min _ _).
  set (m' := match k with 0 => _ | Z.pos _ => _ | Z.neg _ => _ end).
  assert (Hm : 0 <= m').
  { unfold m'. destruct k; try lia. apply Z.shiftl_nonneg. lia. }
  pose proof (Z_div_mod m' (Z.pos m) eq_refl) as D.
  destruct (Z.div_eucl m' (Z.pos m)) as [q r].
  apply binary_round_aux_not_nan. nia.
Qed.

(** A number that is not NaN times a finite number other than zero is
    not NaN. *)
Lemma mul_finite_not_nan (x : JS.number) (s : bool) (m : positive) (e : Z) :
  JSMath.is_nan x = false ->
  JSMath.is_nan (JS.mul x (S754_finite s m e)) = false.
Proof.
  intros H. unfold JS.mul, SFmul.
  destruct x as [sx | sx | | sx mx ex]; try reflexivity; try discriminate H.
  apply binary_round_aux_not_nan. lia.
Qed.

(** ** Comparing numbers *)

Lemma SFcompare_swap (x y : JS.number) :
  SFcompare y x = option_map CompOpp (SFcompare x y).
Proof.
  destruct x as [sx | sx | | sx mx ex], y as [sy | sy | | sy my ey];
    try reflexivity;
    try (destruct sx; reflexivity);
    try (destruct sy; reflexivity);
    try (destruct sx, sy; reflexivity).
  cbn [SFcompare option_map].
  rewrite (Z.compare_antisym ex ey).
  change (Pos.compare_cont Eq my mx) with (Pos.compare my mx).
  change (Pos.compare_cont Eq mx my) with (Pos.compare mx my).
  rewrite (Pos.compare_antisym mx my).
  destruct sx, sy; try reflexivity;
    destruct (ex ?= ey); cbn [CompOpp]; try reflexivity;
    destruct (Pos.compare mx my); reflexivity.
Qed.

Lemma SFcompare_finite_refl (s : bool) (m : positive) (e : Z) :
  SFcompare (S754_finite s m e) (S754_finite s m e) = Some Eq.
Proof.
  cbn [SFcompare]. rewrite Z.compare_refl.
  change (Pos.compare_cont Eq m m) with (Pos.compare m m).
  rewrite Pos.compare_refl. destruct s; reflexivity.
Qed.

Lemma SFcompare_not_nan (x y : JS.number) :
  JSMath.is_nan x = false -> JSMath.is_nan y = false ->
  SFcompare x y <> None.
Proof.
  destruct x, y; cbn; intros; try discriminate.
Qed.

Lemma SFcompare_refl (x : JS.number) :
  finite_nonzero x = true -> SFcompare x x = Some Eq.
Proof.
  destruct x as [| | | s m e]; try discriminate. intros _.
  apply SFcompare_finite_refl.
Qed.

Lemma finite_nonzero_not_nan (x : JS.number) :
  finite_nonzero x = true -> JSMath.is_nan x = false.
Proof. destruct x; try discriminate; reflexivity. Qed.

Lemma finite_nonzero_not_negative_zero (x : JS.number) :
  finite_nonzero x = true -> JSMath.is_negative_zero x = false.
Proof. destruct x; try discriminate; reflexivity. Qed.

Lemma lo_between (lo hi : JS.number) :
  finite_nonzero lo = true -> SFcompare lo hi = Some Lt -> between lo hi lo.
Proof.
  intros Fl L. split; unfold JSMath.leb, SFleb.
  - rewrite SFcompare_refl by exact Fl. reflexivity.
  - rewrite L. reflexivity.
Qed.

Lemma hi_between (lo hi : JS.number) :
  finite_nonzero hi = true -> SFcompare lo hi = Some Lt -> between lo hi hi.
Proof.
  intros Fh L. split; unfold JSMath.leb, SFleb.
  - rewrite L. reflexivity.
  - rewrite SFcompare_refl by exact Fh. reflexivity.
Qed.


(** [Math.max(lo, Math.min(hi, y))] *)
Lemma max_min_between (lo hi y : JS.number) :
  finite_nonzero lo = true -> finite_nonzero hi = true ->
  SFcompare lo hi = Some Lt -> JSMath.is_nan y = false ->
  between lo hi (JSMath.max lo (JSMath.min hi y)).
Proof.
  intros Fl Fh lo_hi N.
  pose proof (finite_nonzero_not_nan lo Fl) as Nl.
  pose proof (finite_nonzero_not_nan hi Fh) as Nh.
  assert (M : JSMath.min hi y = hi \/
              JSMath.min hi y = y /\ JSMath.leb y hi = true).
  { unfold JSMath.min, JSMath.leb, SFleb.
    pose proof (SFcompare_not_nan hi y Nh N) as C.
    rewrite (SFcompare_swap hi y).
    rewrite (finite_nonzero_not_negative_zero hi Fh).
    destruct (SFcompare hi y) as [[| |] |]; try contradiction;
      cbn [option_map CompOpp]; auto. }
  destruct M as [-> | [-> L]].
  - unfold JSMath.max. rewrite lo_hi. apply hi_between; assumption.
  - unfold JSMath.max.
    pose proof (SFcompare_not_nan lo y Nl N) as C.
    rewrite (finite_nonzero_not_negative_zero lo Fl).
    destruct (SFcompare lo y) as [[| |] |] eqn:E; try contradiction.
    + apply lo_between; assumption.
    + split; [unfold JSMath.leb, SFleb; rewrite E; reflexivity | exact L].
    + apply lo_between; assumption.
Qed.


(** ** The bars of the component *)

Lemma finite_of_Z_10 : finite_nonzero (JS.of_Z 10) = true.
Proof. vm_compute. reflexivity. Qed.

Lemma finite_of_Z_100 : finite_nonzero (JS.of_Z 100) = true.
Proof. vm_compute. reflexivity. Qed.

Lemma finite_of_Z_1000 : finite_nonzero (JS.of_Z 1000) = true.
Proof. vm_compute. reflexivity. Qed.

Lemma ten_below_hundred : SFcompare (JS.of_Z 10) (JS.of_Z 100) = Some Lt.
Proof. vm_compute. reflexivity. Qed.

Lemma sub_not_nan (x y : JS.number) :
  finite_nonzero x = true -> JSMath.is_nan y = false ->
  JSMath.is_nan (JSMath.sub x y) = false.
Proof.
  destruct x as [| | | s m e]; try discriminate. intros _.
  apply sub_finite_not_nan.
Qed.

Lemma div_not_nan (x y : JS.number) :
  JSMath.is_nan x = false -> finite_nonzero y = true ->
  JSMath.is_nan (JS.div x y) = false.
Proof.
  destruct y as [| | | s m e]; try discriminate. intros H _.
  apply div_finite_not_nan, H.
Qed.

Lemma mul_not_nan (x y : JS.number) :
  JSMath.is_nan x = false -> finite_nonzero y = true ->
  JSMath.is_nan (JS.mul x y) = false.
Proof.
  destruct y as [| | | s m e]; try discriminate. intros H _.
  apply mul_finite_not_nan, H.
Qed.

(** X16. [getBarHeight] of any number, the infinities included, lies
    between 10 and 100; only NaN gives NaN. *)
Theorem getBarHeight_between (responseTime : JS.number) :
  if JSMath.is_nan responseTime
  then JSMath.is_nan (NetworkStats.getBarHeight responseTime) = true
  else between (JS.of_Z 10) (JS.of_Z 100)
         (NetworkStats.getBarHeight responseTime).
Proof.
  destruct (JSMath.is_nan responseTime) eqn:N.
  - destruct responseTime; try discriminate N. vm_compute. reflexivity.
  - unfold NetworkStats.getBarHeight. cbv zeta.
    apply max_min_between.
    + exact finite_of_Z_10.
    + exact finite_of_Z_100.
    + exact ten_below_hundred.
    + apply mul_not_nan; [| exact finite_of_Z_100].
      apply div_not_nan; [| exact finite_of_Z_1000].
      apply sub_not_nan; [exact finite_of_Z_1000 | exact N].
Qed.






(** ** The response times the component charts *)

(** X18. [responseTimeHistory] holds at most twenty response times, none
    of them 0, and in a reachable page each of them lies between
    [minResponseTime] and [maxResponseTime] of the service. *)
Theorem responseTimeHistory_charted (rev : Revision)
  (endpoints fallbackEndpoints : list ConnectivityEndpoint) (pg : Page)
  (t : Z) :
  reachable (probe rev endpoints fallbackEndpoints) pg ->
  In t (NetworkStats.responseTimeHistory (connectionHistory (signals pg))) ->
  (length (NetworkStats.responseTimeHistory
             (connectionHistory (signals pg))) <= 20)%nat /\
  t <> 0 /\
  exists least greatest,
    minResponseTime (signals pg) = Some least /\
    maxResponseTime (signals pg) = Some greatest /\
    least <= t <= greatest.
Proof.
  intros R I. apply reachable_shape in R.
  destruct R as (_ & H & _). set (s := signals pg) in *.
  unfold NetworkStats.responseTimeHistory in *.
  rewrite (slice_last 20) in *. change (Pos.to_nat 20) with 20%nat in *.
  split; [rewrite length_map, lastn_length; lia |].
  apply in_map_iff in I. destruct I as (r & <- & I).
  unfold lastn in I.
  assert (I' : In r (filter NetworkStats.timed (connectionHistory s))).
  { rewrite <- (firstn_skipn (length (filter NetworkStats.timed
                                         (connectionHistory s)) - 20)).
    apply in_or_app. right. exact I. }
  clear I. rename I' into I.
  apply filter_In in I. destruct I as [I T].
  rewrite Forall_forall in H. specialize (H r I).
  unfold NetworkStats.timed in T. apply andb_prop in T.
  destruct T as [T1 T2]. unfold record_ok in H. rewrite T1 in H.
  destruct H as (t & e & least & greatest & Ht & _ & _ & El & Eg & Hb).
  rewrite Ht in *. unfold JS.or_zero. rewrite T2.
  split.
  - unfold JS.truthy in T2. apply negb_true_iff, Z.eqb_neq in T2. exact T2.
  - exists least, greatest. repeat split; try assumption; apply Hb.
Qed.

Lemma responseTimeHistory_charted_witness :
  let pg := play (probe plain Plain.endpoints []) three_probes
              (start true) in
  200 <> 0 /\ minResponseTime (signals pg) = Some 100 /\
  maxResponseTime (signals pg) = Some 300.
Proof.
  intros pg.
  destruct (responseTimeHistory_charted plain Plain.endpoints [] pg 200)
    as (_ & H & least & greatest & El & Eg & _).
  - exists true, three_probes. reflexivity.
  - vm_compute. right. left. reflexivity.
  - split; [exact H |]. split; vm_compute; reflexivity.
Defined.
